(** * Departure-schedule resolution of [formatTourData]

    Shallow embedding of the schedule-handling part of
    [formatTourData] (src/services/bookingService.js, lines 405-564):
    decoding of [acf.departure_schedule], the derived availability,
    seat and price facts, and the schedule-derived fields of the object
    the function returns.

    Modelling conventions.
    - JavaScript values are the inductive [value].  Numbers are the
      integers plus [NaN]; the model agrees with IEEE doubles as long as
      every number involved is an integer of magnitude below 2^53
      (fractions, infinities and negative zero are outside the model).
    - Strings are sequences of 8-bit code units (the Latin-1 range of
      UTF-16 code units).
    - A thrown exception (the rejection of the promise the [async]
      function returns) is the [Throw] result; [console] output is not
      part of the returned value and is left out.
    - [JSON.parse] and the string-to-number conversion used by [>] are
      services of the JavaScript runtime; they are parameters of the
      development (Section variables), so every theorem holds for any
      decoder.
    - Values are decoded data: no value is a function, and an object
      that carries an own [toString] or [valueOf] property, on which a
      conversion to a string or a number raises a [TypeError], is
      outside the model wherever such a conversion is made.  The
      theorems that assert that the schedule is resolved, or that it
      is not, assume [convertibleInputs], which shuts such objects
      out of every converted position; the tour id that the log
      messages interpolate is taken to be convertible as well.

    The development goes on to the rest of [formatTourData] and its
    callers [getAllTours] and [getTourById], to the helpers
    [toCamelCase], [toSnakeCase] and [generateBookingId] and the
    methods [find], [count] and [getUpcomingDepartures] of
    [BookingService] (same file, lines 9-45 and 113-329), and to the
    handler of [GET /api/bookings] and the payment check of
    [POST /api/bookings] (src/unnamed/part_001). *)

From Stdlib Require Import ZArith NArith List String Ascii Bool Lia DecimalString.
From Stdlib Require DecimalPos.
Import ListNotations.

#[local] Open Scope string_scope.
#[local] Open Scope Z_scope.

(** ** JavaScript values *)

Module JS.

Inductive number : Type :=
| Int (z : Z)
| NaN.

#[local] Unset Elimination Schemes.

Inductive value : Type :=
| Undefined
| Null
| Bool (b : bool)
| Num (n : number)
| Str (s : string)
| Arr (elems : list value)
| Obj (props : list (string * value)).

#[local] Set Elimination Schemes.

Inductive exn : Type :=
| TypeError.

(** Completion of an evaluation: a value or a thrown exception. *)
Inductive result (A : Type) : Type :=
| Ok (a : A)
| Throw (e : exn).

Arguments Ok {A} a.
Arguments Throw {A} e.

Definition bind {A B : Type} (m : result A) (k : A -> result B) : result B :=
  match m with
  | Ok a => k a
  | Throw e => Throw e
  end.

Declare Scope js_scope.
Delimit Scope js_scope with js.
Notation "x <- m ;; k" := (bind m (fun x => k))
  (at level 61, m at next level, right associativity) : js_scope.
#[local] Open Scope js_scope.

Definition zero : value := Num (Int 0).

(** ToBoolean. *)
Definition truthy (v : value) : bool :=
  match v with
  | Undefined | Null => false
  | Bool b => b
  | Num (Int z) => negb (z =? 0)
  | Num NaN => false
  | Str s => negb (s =? EmptyString)%string
  | Arr _ | Obj _ => true
  end.

(** [a || b]. *)
Definition or (a b : value) : value := if truthy a then a else b.

Inductive type_tag : Type :=
| TUndefined | TObject | TBoolean | TNumber | TString.

(** [typeof v]. *)
Definition typeof (v : value) : type_tag :=
  match v with
  | Undefined => TUndefined
  | Null | Arr _ | Obj _ => TObject
  | Bool _ => TBoolean
  | Num _ => TNumber
  | Str _ => TString
  end.

Definition isArray (v : value) : bool :=
  match v with
  | Arr _ => true
  | _ => false
  end.

Definition nullish (v : value) : bool :=
  match v with
  | Undefined | Null => true
  | _ => false
  end.

Fixpoint lookup (k : string) (props : list (string * value)) : option value :=
  match props with
  | [] => None
  | (k', v) :: rest => if (k =? k')%string then Some v else lookup k rest
  end.

(** Property read [v.k] on a value that is neither [undefined] nor
    [null].  Exact for every key that is not the name of a member of a
    built-in prototype, which is the case of all keys [formatTourData]
    reads ([length] is an own property of arrays and strings). *)
Definition get_prop (v : value) (k : string) : value :=
  match v with
  | Obj props =>
      match lookup k props with
      | Some x => x
      | None => Undefined
      end
  | Arr l => if (k =? "length")%string then Num (Int (Z.of_nat (List.length l))) else Undefined
  | Str s => if (k =? "length")%string then Num (Int (Z.of_nat (String.length s))) else Undefined
  | _ => Undefined
  end.

(** [v.k]: throws on [undefined] and [null]. *)
Definition member (v : value) (k : string) : result value :=
  if nullish v then Throw TypeError else Ok (get_prop v k).

(** [v?.k]. *)
Definition opt_member (v : value) (k : string) : value :=
  if nullish v then Undefined else get_prop v k.

(** Element read [v[0]] on a value that is neither [undefined] nor [null]. *)
Definition get_first (v : value) : value :=
  match v with
  | Arr l => hd Undefined l
  | Str (String c _) => Str (String c EmptyString)
  | Obj props =>
      match lookup "0" props with
      | Some x => x
      | None => Undefined
      end
  | _ => Undefined
  end.

(** [v?.[0]]. *)
Definition opt_first (v : value) : value :=
  if nullish v then Undefined else get_first v.

(** [v === "lit"] for a string literal. *)
Definition strict_eq_str (v : value) (lit : string) : bool :=
  match v with
  | Str s => (s =? lit)%string
  | _ => false
  end.

(** [v === n] for an integer literal. *)
Definition strict_eq_int (v : value) (n : Z) : bool :=
  match v with
  | Num (Int z) => z =? n
  | _ => false
  end.

(** Number::toString for the numbers of the model. *)
Definition number_to_string (n : number) : string :=
  match n with
  | Int z => NilZero.string_of_int (Z.to_int z)
  | NaN => "NaN"
  end.

Fixpoint join_strings (sep : string) (l : list string) : string :=
  match l with
  | [] => EmptyString
  | [s] => s
  | s :: rest => s ++ sep ++ join_strings sep rest
  end.

(** ToString; an array is joined with commas, [undefined] and [null]
    elements giving the empty string, and a plain object prints as
    [[object Object]]. *)
Fixpoint to_string (v : value) : string :=
  match v with
  | Undefined => "undefined"
  | Null => "null"
  | Bool true => "true"
  | Bool false => "false"
  | Num n => number_to_string n
  | Str s => s
  | Arr l =>
      join_strings ","
        (List.map (fun e => if nullish e then EmptyString else to_string e) l)
  | Obj _ => "[object Object]"
  end.

(** [Array.prototype.join]. *)
Definition join (sep : string) (l : list value) : string :=
  join_strings sep (List.map (fun e => if nullish e then EmptyString else to_string e) l).

(** ToPrimitive: arrays and plain objects convert through [toString]. *)
Definition to_primitive (v : value) : value :=
  match v with
  | Arr _ | Obj _ => Str (to_string v)
  | _ => v
  end.

Definition is_string (v : value) : bool :=
  match v with
  | Str _ => true
  | _ => false
  end.

Definition number_add (a b : number) : number :=
  match a, b with
  | Int x, Int y => Int (x + y)
  | _, _ => NaN
  end.

(** The additive operator [a + b]: string concatenation as soon as one
    primitive operand is a string, numeric addition otherwise. *)
Definition to_number_nonstring (v : value) : number :=
  match v with
  | Null => Int 0
  | Bool true => Int 1
  | Bool false => Int 0
  | Num n => n
  | _ => NaN
  end.

Definition add (a b : value) : value :=
  let pa := to_primitive a in
  let pb := to_primitive b in
  if is_string pa || is_string pb
  then Str (to_string pa ++ to_string pb)
  else Num (number_add (to_number_nonstring pa) (to_number_nonstring pb)).

(** *** [parseInt] with no radix argument *)

Definition is_white_space (c : ascii) : bool :=
  let n := nat_of_ascii c in
  ((9 <=? n) && (n <=? 13) || (n =? 32) || (n =? 160))%nat.

Fixpoint trim_start (s : string) : string :=
  match s with
  | String c rest => if is_white_space c then trim_start rest else s
  | EmptyString => s
  end.

Definition digit_value (radix : Z) (c : ascii) : option Z :=
  let n := Z.of_nat (nat_of_ascii c) in
  let d :=
    if (48 <=? n) && (n <=? 57) then Some (n - 48)
    else if (97 <=? n) && (n <=? 122) then Some (n - 87)
    else if (65 <=? n) && (n <=? 90) then Some (n - 55)
    else None in
  match d with
  | Some d => if d <? radix then Some d else None
  | None => None
  end.

(** Value of the longest prefix of radix digits; [None] when the prefix
    is empty. *)
Fixpoint parse_digits (radix : Z) (s : string) (acc : option Z) : option Z :=
  match s with
  | EmptyString => acc
  | String c rest =>
      match digit_value radix c with
      | Some d =>
          parse_digits radix rest
            (Some (match acc with
                   | Some a => a * radix + d
                   | None => d
                   end))
      | None => acc
      end
  end.

Definition strip_sign (s : string) : Z * string :=
  match s with
  | String "-" rest => (-1, rest)
  | String "+" rest => (1, rest)
  | _ => (1, s)
  end.

Definition strip_hex_prefix (s : string) : Z * string :=
  match s with
  | String "0" (String "x" rest) => (16, rest)
  | String "0" (String "X" rest) => (16, rest)
  | _ => (10, s)
  end.

Definition parseInt (v : value) : number :=
  let '(sign, s1) := strip_sign (trim_start (to_string v)) in
  let '(radix, s2) := strip_hex_prefix s1 in
  match parse_digits radix s2 None with
  | Some m => Int (sign * m)
  | None => NaN
  end.

(** *** Array methods, with callbacks that may throw *)

Fixpoint filter (f : value -> result bool) (l : list value) : result (list value) :=
  match l with
  | [] => Ok []
  | x :: rest =>
      b <- f x ;;
      kept <- filter f rest ;;
      Ok (if b then x :: kept else kept)
  end.

Fixpoint map (f : value -> result value) (l : list value) : result (list value) :=
  match l with
  | [] => Ok []
  | x :: rest =>
      y <- f x ;;
      ys <- map f rest ;;
      Ok (y :: ys)
  end.

Fixpoint reduce (f : value -> value -> result value) (l : list value) (acc : value)
  : result value :=
  match l with
  | [] => Ok acc
  | x :: rest =>
      acc' <- f acc x ;;
      reduce f rest acc'
  end.

(** [Array.prototype.find]: [undefined] when no element satisfies [f]. *)
Fixpoint find (f : value -> result bool) (l : list value) : result value :=
  match l with
  | [] => Ok Undefined
  | x :: rest =>
      b <- f x ;;
      if b then Ok x else find f rest
  end.

End JS.

Import JS.
#[local] Open Scope js_scope.

(** ** The object returned by [formatTourData]

    The fields below are the ones computed from the departure schedule;
    the remaining fields of the returned object (ids, images, itinerary,
    inclusions, ...) do not depend on it. *)

Record Tour : Type := mkTour {
  location : value;
  duration : value;
  pricePerPerson : value;
  priceAdult : value;
  priceChild : value;
  childWithBed : value;
  childWithoutBed : value;
  extraAdultSameRoom : value;
  singleRoomSupplement : value;
  pricingTiers : value;
  availableDates : list value;
  departureDate : value;
  departureSchedule : value;
  minTravelers : number;
  maxTravelers : number;
  seatsAvailable : value;
  bookingDeadline : value;
  addons : value
}.

(** What the schedule-derived fields read from the rest of [wpTour]:
    the names of the [destinations] taxonomy terms, [acf.location],
    [acf.duration] and [wpTour.title?.rendered]. *)
Record TourContext : Type := mkContext {
  destinations : list value;
  acf_location : value;
  acf_duration : value;
  title_rendered : value
}.

(** The values of the [let] variables after the schedule block
    (lines 427-476). *)
Record Locals : Type := mkLocals {
  l_availableDates : list value;
  l_seatsAvailable : value;
  l_pricingTiersFromSchedule : value;
  l_pricePerPerson : value
}.

Definition initialLocals : Locals :=
  {| l_availableDates := [];
     l_seatsAvailable := zero;
     l_pricingTiersFromSchedule := Arr [];
     l_pricePerPerson := zero |}.

(** ** A runtime instance

    A decoder for the JSON texts whose numbers are integers and whose
    strings use no [\u] escape, and a stand-in for the positivity test.
    The theorems below hold for every decoder; this instance is what
    the model is run with on concrete inputs. *)

Module Runtime.

Definition dquote : ascii := "034"%char.
Definition backslash : ascii := "092"%char.

(** The text [s] between double quotes. *)
Definition quoted (s : string) : string :=
  String dquote (s ++ String dquote EmptyString).

Definition is_json_space (c : ascii) : bool :=
  let n := nat_of_ascii c in
  ((n =? 32) || (n =? 9) || (n =? 10) || (n =? 13))%nat.

Fixpoint skip_space (s : string) : string :=
  match s with
  | String c rest => if is_json_space c then skip_space rest else s
  | EmptyString => s
  end.

Definition is_digit (c : ascii) : bool :=
  let n := nat_of_ascii c in ((48 <=? n) && (n <=? 57))%nat.

Definition unescape (c : ascii) : option ascii :=
  if (c =? dquote)%char then Some dquote
  else if (c =? backslash)%char then Some backslash
  else if (c =? "/")%char then Some "/"%char
  else if (c =? "b")%char then Some "008"%char
  else if (c =? "f")%char then Some "012"%char
  else if (c =? "n")%char then Some "010"%char
  else if (c =? "r")%char then Some "013"%char
  else if (c =? "t")%char then Some "009"%char
  else None.

(** The characters of a string literal, after its opening quote. *)
Fixpoint string_body (s : string) : option (string * string) :=
  match s with
  | EmptyString => None
  | String c rest =>
      if (c =? dquote)%char then Some (EmptyString, rest)
      else if (c =? backslash)%char then
        match rest with
        | String e rest' =>
            match unescape e, string_body rest' with
            | Some ch, Some (body, r) => Some (String ch body, r)
            | _, _ => None
            end
        | EmptyString => None
        end
      else if (nat_of_ascii c <? 32)%nat then None
      else
        match string_body rest with
        | Some (body, r) => Some (String c body, r)
        | None => None
        end
  end.

Fixpoint span_digits (s : string) : string * string :=
  match s with
  | String c rest =>
      if is_digit c then let '(ds, r) := span_digits rest in (String c ds, r)
      else (EmptyString, s)
  | EmptyString => (EmptyString, s)
  end.

Definition starts_fraction (s : string) : bool :=
  match s with
  | String c _ => ((c =? ".") || (c =? "e") || (c =? "E"))%char
  | EmptyString => false
  end.

(** An integer literal, without a leading zero; a fraction or an
    exponent is rejected. *)
Definition unsigned_literal (s : string) : option (Z * string) :=
  let '(ds, r) := span_digits s in
  match ds with
  | EmptyString => None
  | String "0" (String _ _) => None
  | _ =>
      if starts_fraction r then None
      else
        match parse_digits 10 ds None with
        | Some z => Some (z, r)
        | None => None
        end
  end.

Definition number_literal (s : string) : option (Z * string) :=
  match s with
  | String "-" rest =>
      match unsigned_literal rest with
      | Some (z, r) => Some (- z, r)
      | None => None
      end
  | _ => unsigned_literal s
  end.

Fixpoint strip_prefix (p s : string) : option string :=
  match p, s with
  | EmptyString, _ => Some s
  | String a p', String b s' => if (a =? b)%char then strip_prefix p' s' else None
  | String _ _, EmptyString => None
  end.

(** A repeated key keeps its place and takes the later value. *)
Fixpoint set_prop (k : string) (v : value) (props : list (string * value))
  : list (string * value) :=
  match props with
  | [] => [(k, v)]
  | (k', v') :: rest =>
      if (k =? k')%string then (k', v) :: rest else (k', v') :: set_prop k v rest
  end.

Fixpoint parse_value (fuel : nat) (s : string) : option (value * string) :=
  match fuel with
  | O => None
  | S fuel =>
      match skip_space s with
      | EmptyString => None
      | String c rest =>
          if (c =? "{")%char then
            match skip_space rest with
            | String "}" r => Some (Obj [], r)
            | _ =>
                match parse_members fuel rest [] with
                | Some (props, r) => Some (Obj props, r)
                | None => None
                end
            end
          else if (c =? "[")%char then
            match skip_space rest with
            | String "]" r => Some (Arr [], r)
            | _ =>
                match parse_elements fuel rest with
                | Some (l, r) => Some (Arr l, r)
                | None => None
                end
            end
          else if (c =? dquote)%char then
            match string_body rest with
            | Some (body, r) => Some (Str body, r)
            | None => None
            end
          else if (c =? "t")%char then
            match strip_prefix "rue" rest with
            | Some r => Some (Bool true, r)
            | None => None
            end
          else if (c =? "f")%char then
            match strip_prefix "alse" rest with
            | Some r => Some (Bool false, r)
            | None => None
            end
          else if (c =? "n")%char then
            match strip_prefix "ull" rest with
            | Some r => Some (Null, r)
            | None => None
            end
          else
            match number_literal (String c rest) with
            | Some (z, r) => Some (Num (Int z), r)
            | None => None
            end
      end
  end

with parse_elements (fuel : nat) (s : string) : option (list value * string) :=
  match fuel with
  | O => None
  | S fuel =>
      match parse_value fuel s with
      | Some (v, r) =>
          match skip_space r with
          | String "," r' =>
              match parse_elements fuel r' with
              | Some (l, r'') => Some (v :: l, r'')
              | None => None
              end
          | String "]" r' => Some ([v], r')
          | _ => None
          end
      | None => None
      end
  end

with parse_members (fuel : nat) (s : string) (acc : list (string * value))
  : option (list (string * value) * string) :=
  match fuel with
  | O => None
  | S fuel =>
      match skip_space s with
      | String c rest =>
          if (c =? dquote)%char then
            match string_body rest with
            | Some (k, r) =>
                match skip_space r with
                | String ":" r1 =>
                    match parse_value fuel r1 with
                    | Some (v, r2) =>
                        match skip_space r2 with
                        | String "," r3 => parse_members fuel r3 (set_prop k v acc)
                        | String "}" r3 => Some (set_prop k v acc, r3)
                        | _ => None
                        end
                    | None => None
                    end
                | _ => None
                end
            | None => None
            end
          else None
      | EmptyString => None
      end
  end.

(** The decoder: a value followed by nothing but white space. *)
Definition parse (s : string) : option value :=
  match parse_value (2 * String.length s + 2) s with
  | Some (v, r) =>
      match skip_space r with
      | EmptyString => Some v
      | _ => None
      end
  | None => None
  end.

(** A stand-in for the positivity test: the sign of the leading integer
    of the string.  It is consulted only when the [length] of a
    [pricingTiers] value is itself a string, an array or an object,
    which none of the schedules below has. *)
Definition positive (s : string) : bool :=
  match parseInt (Str s) with
  | Int z => 0 <? z
  | NaN => false
  end.

End Runtime.

(** ** Concrete schedules *)

Module Examples.

Definition departure (fields : list (string * value)) : value := Obj fields.

Definition schedule (departures : list value) : value :=
  Obj [("departures", Arr departures)].

Definition noContext : TourContext :=
  {| destinations := []; acf_location := Undefined;
     acf_duration := Undefined; title_rendered := Undefined |}.

(** [[{status: sold_out, price: 100}, {status: open, price: 200},
      {status: open, price: 300}]], the first with non-empty tiers and
    the anchor with empty ones. *)
Definition anchorSelection : list value :=
  [ departure [("date", Str "2025-04-01"); ("status", Str "sold_out");
               ("pricePerPerson", Num (Int 100));
               ("pricingTiers", Arr [Obj [("minPax", Num (Int 1))]])];
    departure [("date", Str "2025-05-01"); ("status", Str "open");
               ("pricePerPerson", Num (Int 200)); ("pricingTiers", Arr [])];
    departure [("date", Str "2025-06-01"); ("status", Str "open");
               ("pricePerPerson", Num (Int 300));
               ("pricingTiers", Arr [Obj [("minPax", Num (Int 2))]])] ].

(** [[{status: open, availableSeats: 3}, {status: sold_out,
      availableSeats: 10}, {status: open, availableSeats: 5}]]. *)
Definition seatAggregation : list value :=
  [ departure [("date", Str "2025-05-01"); ("status", Str "open");
               ("availableSeats", Num (Int 3))];
    departure [("date", Str "2025-05-08"); ("status", Str "sold_out");
               ("availableSeats", Num (Int 10))];
    departure [("date", Str "2025-05-15"); ("status", Str "open");
               ("availableSeats", Num (Int 5))] ].

(** One departure, sold out, with a child supplement. *)
Definition allSoldOut : list value :=
  [ departure [("date", Str "2025-05-01"); ("status", Str "sold_out");
               ("availableSeats", Num (Int 0));
               ("pricePerPerson", Num (Int 900));
               ("childWithBed", Num (Int 500))] ].

(** A sold-out first departure followed by an open one, with different
    supplements and addons. *)
Definition soldOutFirst : list value :=
  [ departure [("date", Str "2025-05-01"); ("status", Str "sold_out");
               ("pricePerPerson", Num (Int 900));
               ("childWithBed", Num (Int 500));
               ("childWithoutBed", Num (Int 400));
               ("extraAdultSameRoom", Num (Int 700));
               ("singleRoomSupplement", Num (Int 250));
               ("addons", Arr [Str "kayak"])];
    departure [("date", Str "2025-06-01"); ("status", Str "open");
               ("pricePerPerson", Num (Int 800));
               ("childWithBed", Num (Int 300));
               ("childWithoutBed", Num (Int 200));
               ("extraAdultSameRoom", Num (Int 600));
               ("singleRoomSupplement", Num (Int 150));
               ("addons", Arr [Str "bike"])] ].

(** A sold-out and an open departure on the same date. *)
Definition sameDate : list value :=
  [ departure [("date", Str "2025-05-01"); ("status", Str "sold_out")];
    departure [("date", Str "2025-05-01"); ("status", Str "open")] ].

(** An open departure whose [availableSeats] is a non-numeric string. *)
Definition textualSeats : list value :=
  [ departure [("date", Str "2025-05-01"); ("status", Str "open");
               ("availableSeats", Str "many")] ].

(** A schedule without departures whose metadata carries a
    [minTravelers] that does not read as an integer. *)
Definition wordyMetadata : value :=
  Obj [("departures", Arr []);
       ("metadata", Obj [("minTravelers", Str "two"); ("maxTravelers", Str "12")])].

(** A schedule whose metadata gives [minTravelers] as text and no
    [maxTravelers]. *)
Definition withMetadata : value :=
  Obj [("departures", Arr []);
       ("metadata", Obj [("minTravelers", Str "4"); ("location", Str "Ladakh")])].

(** The text
    [{"departures":[{"date":"2025-05-01","status":"open","availableSeats":4}]}]. *)
Definition encodedSchedule : string :=
  "{" ++ Runtime.quoted "departures" ++ ":[{"
      ++ Runtime.quoted "date" ++ ":" ++ Runtime.quoted "2025-05-01" ++ ","
      ++ Runtime.quoted "status" ++ ":" ++ Runtime.quoted "open" ++ ","
      ++ Runtime.quoted "availableSeats" ++ ":4}]}".

Definition decodedSchedule : value :=
  schedule [ departure [("date", Str "2025-05-01"); ("status", Str "open");
                        ("availableSeats", Num (Int 4))] ].

End Examples.

(** ** Key-case conversion of booking records

    [toCamelCase] and [toSnakeCase] of src/services/bookingService.js
    (lines 8-38).  An object is the list of its own enumerable
    properties in the order [Object.entries] lists them: array-index
    keys first, in ascending order, then the other keys in order of
    creation.  [snakeObj[key] = v] is modelled for every key but
    ["__proto__"], whose assignment does not create a property; the
    theorems on [toSnakeCase] exclude it.  [camelKey] never yields that
    key. *)

Module Casing.

Definition is_lower (c : ascii) : bool :=
  let n := nat_of_ascii c in ((97 <=? n) && (n <=? 122))%nat.

Definition is_upper (c : ascii) : bool :=
  let n := nat_of_ascii c in ((65 <=? n) && (n <=? 90))%nat.

(** [toUpperCase] and [toLowerCase] of one letter. *)
Definition upper (c : ascii) : ascii :=
  if is_lower c then ascii_of_nat (nat_of_ascii c - 32) else c.

Definition lower (c : ascii) : ascii :=
  if is_upper c then ascii_of_nat (nat_of_ascii c + 32) else c.

(** [key.replace(/_([a-z])/g, (g) => g[1].toUpperCase())]. *)
Fixpoint camelKey (key : string) : string :=
  match key with
  | EmptyString => EmptyString
  | String c rest =>
      match rest with
      | String c' rest' =>
          if (c =? "_")%char && is_lower c'
          then String (upper c') (camelKey rest')
          else String c (camelKey rest)
      | EmptyString => String c EmptyString
      end
  end.

(** [key.replace(/[A-Z]/g, (letter) => `_${letter.toLowerCase()}`)]. *)
Fixpoint snakeKey (key : string) : string :=
  match key with
  | EmptyString => EmptyString
  | String c rest =>
      if is_upper c then String "_" (String (lower c) (snakeKey rest))
      else String c (snakeKey rest)
  end.

(** A canonical decimal numeral: digits only, no leading zero. *)
Definition canonical_numeral (k : string) : bool :=
  match k with
  | EmptyString => false
  | String c rest =>
      forallb Runtime.is_digit (list_ascii_of_string k) &&
      (negb (c =? "0")%char || (rest =? EmptyString)%string)
  end.

(** The array index a key denotes, if any: a canonical numeral below
    2^32 - 1. *)
Definition index_of (k : string) : option Z :=
  if canonical_numeral k then
    match parse_digits 10 k None with
    | Some n => if n <? 4294967295 then Some n else None
    | None => None
    end
  else None.

Fixpoint replace_prop (k : string) (v : value) (props : list (string * value))
  : list (string * value) :=
  match props with
  | [] => []
  | (k', v') :: rest =>
      if (k =? k')%string then (k', v) :: rest else (k', v') :: replace_prop k v rest
  end.

(** A new array-index key goes after the smaller index keys. *)
Fixpoint insert_index (n : Z) (k : string) (v : value) (props : list (string * value))
  : list (string * value) :=
  match props with
  | [] => [(k, v)]
  | (k', v') :: rest =>
      match index_of k' with
      | Some n' =>
          if n' <? n then (k', v') :: insert_index n k v rest
          else (k, v) :: props
      | None => (k, v) :: props
      end
  end.

(** [obj[k] = v] on an object created by [{}]. *)
Definition assign (props : list (string * value)) (k : string) (v : value)
  : list (string * value) :=
  match lookup k props with
  | Some _ => replace_prop k v props
  | None =>
      match index_of k with
      | Some n => insert_index n k v props
      | None => (props ++ [(k, v)])%list
      end
  end.

Fixpoint toCamelCase (obj : value) : value :=
  match obj with
  | Arr l => Arr (List.map toCamelCase l)
  | Obj props =>
      Obj (fold_left
             (fun camelObj entry =>
                let '(key, v) := entry in
                assign camelObj (camelKey key)
                  (match typeof v with
                   | TObject => toCamelCase v
                   | _ => v
                   end))
             props [])
  | _ => obj
  end.

Fixpoint toSnakeCase (obj : value) : value :=
  match obj with
  | Arr l => Arr (List.map toSnakeCase l)
  | Obj props =>
      Obj (fold_left
             (fun snakeObj entry =>
                let '(key, v) := entry in
                assign snakeObj (snakeKey key)
                  (match typeof v with
                   | TObject => if isArray v then v else toSnakeCase v
                   | _ => v
                   end))
             props [])
  | _ => obj
  end.

(** The value stored under a converted key by each function. *)
Definition camelValue (v : value) : value :=
  match typeof v with
  | TObject => toCamelCase v
  | _ => v
  end.

Definition snakeValue (v : value) : value :=
  match typeof v with
  | TObject => if isArray v then v else toSnakeCase v
  | _ => v
  end.

(** *** Keys on which the two conversions are inverse *)

(** No underscore is directly followed by a lower-case letter. *)
Fixpoint noUnderscoreLower (key : string) : bool :=
  match key with
  | EmptyString => true
  | String c rest =>
      match rest with
      | String c' _ => negb ((c =? "_")%char && is_lower c')
      | EmptyString => true
      end && noUnderscoreLower rest
  end.

Fixpoint noUpper (key : string) : bool :=
  match key with
  | EmptyString => true
  | String c rest => negb (is_upper c) && noUpper rest
  end.

Fixpoint distinct (keys : list string) : bool :=
  match keys with
  | [] => true
  | k :: rest => negb (existsb (String.eqb k) rest) && distinct rest
  end.

Definition isIndex (k : string) : bool :=
  match index_of k with
  | Some _ => true
  | None => false
  end.

(** A camel-case property name: not an array index, no underscore
    before a lower-case letter, and not sent to ["__proto__"]. *)
Definition camelName (k : string) : bool :=
  noUnderscoreLower k && negb (isIndex k) && negb (snakeKey k =? "__proto__")%string.

(** Every object in [v], at any depth, has distinct camel-case names
    as keys. *)
Fixpoint camelRecord (v : value) : bool :=
  match v with
  | Arr l => forallb camelRecord l
  | Obj props =>
      distinct (List.map fst props) &&
      forallb (fun entry => let '(k, x) := entry in camelName k && camelRecord x) props
  | _ => true
  end.

End Casing.
(** ** Further built-ins

    As before, objects are plain data: an object carrying its own
    [toString] or [valueOf] property is outside the model, except in
    [toStringMethod], where it is accounted for. *)

Module Lib.

(** [Array.prototype.flat()], one level deep. *)
Fixpoint flat (l : list value) : list value :=
  match l with
  | [] => []
  | Arr inner :: rest => (inner ++ flat rest)%list
  | x :: rest => x :: flat rest
  end.

(** [v.toString()], a call of the method found on [v].  No method is
    found on [undefined] and [null]; an own [toString] property of a
    decoded object is not callable. *)
Definition toStringMethod (v : value) : result string :=
  match v with
  | Undefined | Null => Throw TypeError
  | Obj props =>
      match lookup "toString" props with
      | Some _ => Throw TypeError
      | None => Ok (to_string v)
      end
  | _ => Ok (to_string v)
  end.

Fixpoint has_gt (s : string) : bool :=
  match s with
  | EmptyString => false
  | String c rest => (c =? ">")%char || has_gt rest
  end.

(** [s.replace(/<[^>]*>/g, '')]: a [<] opens a match when a [>] follows
    somewhere, and the match ends at the first such [>]. *)
Fixpoint strip (skipping : bool) (s : string) : string :=
  match s with
  | EmptyString => EmptyString
  | String c rest =>
      if skipping then
        if (c =? ">")%char then strip false rest else strip true rest
      else if (c =? "<")%char && has_gt rest then strip true rest
      else String c (strip false rest)
  end.

Definition stripTags (s : string) : string := strip false s.

(** No [<] of the string is followed, anywhere later, by a [>]. *)
Fixpoint tagFree (s : string) : bool :=
  match s with
  | EmptyString => true
  | String c rest => negb ((c =? "<")%char && has_gt rest) && tagFree rest
  end.

Definition isString (v : value) : bool :=
  match v with
  | Str _ => true
  | _ => false
  end.

End Lib.

(** ** The booking service

    [BookingService.find], [count], [getRevenueStats] and
    [getUpcomingDepartures] and [generateBookingId] of
    src/services/bookingService.js (lines 40-331).  A Supabase query is the list of the clauses the builder
    was given, in call order; the database is a function from queries
    to responses [{ data, error, count }].  The filters and the options
    are decoded data or object literals, as in every caller: a string,
    which inherits a member named [search], is not a filter. *)

Module Booking.

Import Casing.

Inductive clause : Type :=
| Select (columns : string) (countExact head : bool)
| EqClause (column : string) (v : value)
| GteClause (column : string) (v : value)
| LteClause (column : string) (v : value)
| OrClause (filters : string)
| RangeClause (from to : value)
| OrderClause (column : value) (ascending : bool)
| LimitClause (n : value).

Record Response : Type := mkResponse {
  response_data : value;
  response_error : value;
  response_count : value
}.

Definition Database : Type := list clause -> Response.

(** What a rejected call was rejected with: a [TypeError] raised by
    the code, or the [error] of the response, thrown as it is. *)
Inductive reason : Type :=
| RaisedTypeError
| ThrownError (error : value).

Inductive settled (A : Type) : Type :=
| Fulfilled (a : A)
| Failed (why : reason).

Arguments Fulfilled {A} a.
Arguments Failed {A} why.

Definition settle {A : Type} (r : result A) : settled A :=
  match r with
  | Ok a => Fulfilled a
  | Throw _ => Failed RaisedTypeError
  end.

(** A quotient rounded up, which need not be finite. *)
Inductive ratio : Type :=
| Finite (z : Z)
| PlusInfinity
| MinusInfinity
| NotANumber.

(** A property of an object literal: a value, the rounded quotient
    [Math.ceil(a / b)], the quotient [total / count] of a sum by a
    number of rows, which need not be an integer, or an object literal
    in turn. *)
#[local] Unset Elimination Schemes.

Inductive field : Type :=
| Plain (v : value)
| Rounded (r : ratio)
| Quotient (total : value) (count : Z)
| Nested (props : list (string * field)).

#[local] Set Elimination Schemes.

Definition number_sub (a b : number) : number :=
  match a, b with
  | Int x, Int y => Int (x - y)
  | _, _ => NaN
  end.

Definition number_mul (a b : number) : number :=
  match a, b with
  | Int x, Int y => Int (x * y)
  | _, _ => NaN
  end.

(** [Math.ceil(a / b)].  The quotient of two integers of magnitude
    below 2^26 is rounded to a double on the same side of every
    integer, so its ceiling is the one of the exact quotient. *)
Definition ceil_div (a b : number) : ratio :=
  match a, b with
  | Int x, Int y =>
      if y =? 0 then
        if 0 <? x then PlusInfinity
        else if x <? 0 then MinusInfinity
        else NotANumber
      else Finite (- ((- x) / y))
  | _, _ => NotANumber
  end.

(** [f(x = {})]: the default replaces [undefined] only. *)
Definition orEmptyObject (v : value) : value :=
  match v with
  | Undefined => Obj []
  | _ => v
  end.

Section Arithmetic.

(** StringToNumber, for the strings that denote integers. *)
Variable StringToNumber : string -> number.

(** ToNumber. *)
Definition to_number (v : value) : number :=
  match to_primitive v with
  | Str s => StringToNumber s
  | p => to_number_nonstring p
  end.

(** [a - b] and [a * b]. *)
Definition sub (a b : value) : value := Num (number_sub (to_number a) (to_number b)).
Definition mul (a b : value) : value := Num (number_mul (to_number a) (to_number b)).

(** [if (filters.key) query = query.op(column, filters.key)]. *)
Definition whenSet (filters : value) (key : string) (mk : value -> clause)
  (query : list clause) : result (list clause) :=
  v <- member filters key ;;
  if truthy v then
    v' <- member filters key ;;
    Ok (query ++ [mk v'])%list
  else Ok query.

(** The [or] filter of a search (line 137). *)
Definition searchFilter (search : value) : string :=
  "customer_name.ilike.%" ++ to_string search ++
  "%,customer_email.ilike.%" ++ to_string search ++
  "%,booking_id.ilike.%" ++ to_string search ++ "%".

Definition pageOf (options : value) : result value :=
  page <- member options "page" ;;
  Ok (or page (Num (Int 1))).

Definition limitOf (options : value) : result value :=
  limit <- member options "limit" ;;
  Ok (or limit (Num (Int 50))).

(** Lines 113-151: the query [find] builds, with the [page] and the
    [limit] it settles on. *)
Definition findQuery (filters options : value)
  : result (list clause * value * value) :=
  let filters := orEmptyObject filters in
  let options := orEmptyObject options in
  let query := [Select "*" true false] in
  query <- whenSet filters "customerEmail" (EqClause "customer_email") query ;;
  query <- whenSet filters "bookingStatus" (EqClause "booking_status") query ;;
  query <- whenSet filters "paymentStatus" (EqClause "payment_status") query ;;
  query <- whenSet filters "tourId" (EqClause "tour_id") query ;;
  query <- whenSet filters "startDate" (GteClause "departure_date") query ;;
  query <- whenSet filters "endDate" (LteClause "departure_date") query ;;
  query <- whenSet filters "search" (fun s => OrClause (searchFilter s)) query ;;
  page <- pageOf options ;;
  limit <- limitOf options ;;
  let from := mul (sub page (Num (Int 1))) limit in
  let to := sub (add from limit) (Num (Int 1)) in
  let query := (query ++ [RangeClause from to])%list in
  sortBy <- member options "sortBy" ;;
  sortOrder <- member options "sortOrder" ;;
  Ok ((query ++ [OrderClause (or sortBy (Str "booking_date"))
                   (strict_eq_str sortOrder "asc")])%list,
      page, limit).

(** [data.map(toCamelCase)]. *)
Definition camelRows (rows : value) : result value :=
  match rows with
  | Arr l => Ok (Arr (List.map toCamelCase l))
  | _ => Throw TypeError
  end.

(** [BookingService.find] (lines 113-167); the object it returns is
    the list of the properties of the literal. *)
Definition find (db : Database) (filters options : value)
  : settled (list (string * field)) :=
  match findQuery filters options with
  | Throw _ => Failed RaisedTypeError
  | Ok (query, page, limit) =>
      let response := db query in
      if truthy (response_error response)
      then Failed (ThrownError (response_error response))
      else
        settle
          (bookings <- camelRows (response_data response) ;;
           Ok [ ("bookings", Plain bookings);
                ("total", Plain (response_count response));
                ("page", Plain page);
                ("limit", Plain limit);
                ("pages", Rounded (ceil_div (to_number (response_count response))
                                            (to_number limit))) ])
  end.

(** Lines 235-246: the query [count] builds. *)
Definition countQuery (filters : value) : result (list clause) :=
  let filters := orEmptyObject filters in
  let query := [Select "*" true true] in
  query <- whenSet filters "bookingStatus" (EqClause "booking_status") query ;;
  query <- whenSet filters "paymentStatus" (EqClause "payment_status") query ;;
  whenSet filters "startDate" (GteClause "booking_date") query.

(** [BookingService.count] (lines 233-258). *)
Definition count (db : Database) (filters : value) : settled value :=
  match countQuery filters with
  | Throw _ => Failed RaisedTypeError
  | Ok query =>
      let response := db query in
      if truthy (response_error response)
      then Failed (ThrownError (response_error response))
      else Fulfilled (response_count response)
  end.

End Arithmetic.

Section Revenue.

(** [parseFloat], on the arguments that denote integers. *)
Variable parseFloat : value -> number.

(** Lines 265-275: the query [getRevenueStats] builds. *)
Definition revenueQuery (filters : value) : result (list clause) :=
  let filters := orEmptyObject filters in
  let query := [ Select "total_price" false false;
                 EqClause "payment_status" (Str "confirmed") ] in
  query <- whenSet filters "startDate" (GteClause "booking_date") query ;;
  whenSet filters "endDate" (LteClause "booking_date") query.

(** [(sum, booking) => sum + parseFloat(booking.total_price || 0)]. *)
Definition addPrice (sum booking : value) : result value :=
  price <- member booking "total_price" ;;
  Ok (add sum (Num (parseFloat (or price zero)))).

(** [BookingService.getRevenueStats] (lines 263-292). *)
Definition getRevenueStats (db : Database) (filters : value)
  : settled (list (string * field)) :=
  match revenueQuery filters with
  | Throw _ => Failed RaisedTypeError
  | Ok query =>
      let response := db query in
      if truthy (response_error response)
      then Failed (ThrownError (response_error response))
      else
        settle
          (match response_data response with
           | Arr rows =>
               total <- reduce addPrice rows zero ;;
               let length := Z.of_nat (List.length rows) in
               Ok [ ("total", Plain total);
                    ("count", Plain (Num (Int length)));
                    ("average",
                     if 0 <? length then Quotient total length else Plain zero) ]
           | _ => Throw TypeError
           end)
  end.

End Revenue.

(** A clause on a date column. *)
Definition dateClause (c : clause) : bool :=
  match c with
  | GteClause _ _ | LteClause _ _ => true
  | _ => false
  end.

(** *** Destructuring of an object literal *)

Fixpoint property (obj : list (string * field)) (k : string) : option field :=
  match obj with
  | [] => None
  | (k', f) :: rest => if (k =? k')%string then Some f else property rest k
  end.

(** *** [generateBookingId] *)

(** [s.slice(-n)]. *)
Definition sliceLast (n : nat) (s : string) : string :=
  substring (String.length s - n) n s.

Fixpoint repeatChar (c : ascii) (n : nat) : string :=
  match n with
  | O => EmptyString
  | S n' => String c (repeatChar c n')
  end.

(** [s.padStart(n, c)] for a one-character filler. *)
Definition padStart (n : nat) (c : ascii) (s : string) : string :=
  repeatChar c (n - String.length s) ++ s.

(** Lines 41-45, for [Date.now()] equal to [now] and
    [Math.floor(Math.random() * 1000)] equal to [draw]. *)
Definition generateBookingId (now draw : Z) : string :=
  let timestamp := number_to_string (Int now) in
  let random := padStart 3 "0" (number_to_string (Int draw)) in
  "IMT-TRIP-" ++ sliceLast 8 timestamp ++ random.

Fixpoint allDigits (s : string) : bool :=
  match s with
  | EmptyString => true
  | String c rest => Runtime.is_digit c && allDigits rest
  end.

(** *** [getUpcomingDepartures] *)

(** The names every object inherits from [Object.prototype], apart
    from [__proto__]. *)
Definition inheritedNames : list string :=
  [ "constructor"; "hasOwnProperty"; "isPrototypeOf"; "propertyIsEnumerable";
    "toLocaleString"; "toString"; "valueOf"; "__defineGetter__";
    "__defineSetter__"; "__lookupGetter__"; "__lookupSetter__" ].

Definition inherited (k : string) : bool := existsb (String.eqb k) inheritedNames.

(** [s.split('T')[0]]. *)
Fixpoint beforeT (s : string) : string :=
  match s with
  | EmptyString => EmptyString
  | String c rest => if (c =? "T")%char then EmptyString else String c (beforeT rest)
  end.

(** [booking.departure_date.split('T')[0]]. *)
Definition dateOf (booking : value) : result string :=
  departure <- member booking "departure_date" ;;
  match departure with
  | Str s => Ok (beforeT s)
  | _ => Throw TypeError
  end.

(** [if (!acc[date]) acc[date] = 0; acc[date]++] on an accumulator
    that started as [{}]: an inherited member reads as a truthy value
    that is not a number, and [__proto__] cannot be given a number. *)
Definition countDate (acc : list (string * value)) (date : string)
  : list (string * value) :=
  if (date =? "__proto__")%string then acc
  else
    match lookup date acc with
    | Some v =>
        let current := if truthy v then v else zero in
        assign acc date (Num (number_add (to_number_nonstring current) (Int 1)))
    | None =>
        if inherited date then assign acc date (Num NaN)
        else assign acc date (Num (Int 1))
    end.

Fixpoint groupByDate (rows : list value) (acc : list (string * value))
  : result (list (string * value)) :=
  match rows with
  | [] => Ok acc
  | booking :: rest =>
      date <- dateOf booking ;;
      groupByDate rest (countDate acc date)
  end.

Definition upcomingQuery (today limit : value) : list clause :=
  [ Select "departure_date, tour_name" false false;
    EqClause "booking_status" (Str "confirmed");
    GteClause "departure_date" today;
    OrderClause (Str "departure_date") true;
    LimitClause limit ].

(** [BookingService.getUpcomingDepartures] (lines 297-329), for
    [new Date().toISOString()] equal to [today]. *)
Definition limitOrTen (limit : value) : value :=
  match limit with
  | Undefined => Num (Int 10)
  | _ => limit
  end.

Definition getUpcomingDepartures (db : Database) (today : value) (limit : value)
  : settled (list value) :=
  let response := db (upcomingQuery today (limitOrTen limit)) in
  if truthy (response_error response)
  then Failed (ThrownError (response_error response))
  else
    settle
      (match response_data response with
       | Arr rows =>
           grouped <- groupByDate rows [] ;;
           Ok (List.map
                 (fun entry => Obj [("_id", Str (fst entry)); ("count", snd entry)])
                 grouped)
       | _ => Throw TypeError
       end).








End Booking.

(** ** Route handlers

    The handler of [GET /api/bookings] (src/unnamed/part_001, lines
    615-667), the payment check of [POST /api/bookings] (lines
    479-505 and 528) and the handler of [GET /api/admin/dashboard/stats]
    (lines 1000-1041).  A handler answers with a status and the object
    given to [res.json]. *)

Module Routes.

Import Casing.

Inductive response : Type :=
| Json (status : Z) (body : list (string * Booking.field)).

(** What the [catch] of a handler caught. *)
Inductive failure : Type :=
| TypeErrorRaised
| RangeErrorRaised
| ServiceFailed (why : Booking.reason).

(** [const { key = d } = object]: the default replaces [undefined]
    only. *)
Definition defaulted (v d : value) : value :=
  match v with
  | Undefined => d
  | _ => v
  end.

(** [const { key } = object] on an object literal. *)
Definition destructure (obj : list (string * Booking.field)) (key : string)
  : Booking.field :=
  match Booking.property obj key with
  | Some f => f
  | None => Booking.Plain Undefined
  end.

Section Handlers.

Variable StringToNumber : string -> number.

(** [new Date(v).toISOString()]; [None] stands for the [RangeError] of
    an invalid date. *)
Variable toISOString : value -> option value.

(** [error.message]. *)
Variable messageOf : failure -> value.

Definition internalError (why : failure) : response :=
  Json 500 [("success", Booking.Plain (Bool false));
            ("error", Booking.Plain (messageOf why))].

(** Lines 637-641: the [departureDate] filter. *)
Definition dateRange (startDate endDate : value) : option value :=
  let range := [] in
  match (if truthy startDate then
           match toISOString startDate with
           | Some iso => Some (assign range "gte" iso)
           | None => None
           end
         else Some range) with
  | Some range =>
      if truthy endDate then
        match toISOString endDate with
        | Some iso => Some (Obj (assign range "lte" iso))
        | None => None
        end
      else Some (Obj range)
  | None => None
  end.

(** Lines 627-645: the filters built from [req.query]. *)
Definition bookingFilters (status email startDate endDate search : value)
  : option value :=
  let filters := [] in
  let filters := if truthy status then assign filters "bookingStatus" status else filters in
  let filters := if truthy email then assign filters "customerEmail" email else filters in
  match (if truthy (or startDate endDate) then
           match dateRange startDate endDate with
           | Some range => Some (assign filters "departureDate" range)
           | None => None
           end
         else Some filters) with
  | Some filters =>
      Some (Obj (if truthy search then assign filters "search" search else filters))
  | None => None
  end.

(** Lines 647-651. *)
Definition bookingOptions (page limit : value) : value :=
  Obj [ ("page", Num (parseInt (defaulted page (Num (Int 1)))));
        ("limit", Num (parseInt (defaulted limit (Num (Int 20)))));
        ("sort", Obj [("bookingDate", Str "desc")]) ].

(** The handler of [GET /api/bookings], for [req.query] equal to
    [query]. *)
Definition listBookings (db : Booking.Database) (query : value) : response :=
  if nullish query then internalError TypeErrorRaised
  else
    match bookingFilters (get_prop query "status") (get_prop query "email")
            (get_prop query "startDate") (get_prop query "endDate")
            (get_prop query "search") with
    | None => internalError RangeErrorRaised
    | Some filters =>
        let options := bookingOptions (get_prop query "page") (get_prop query "limit") in
        match Booking.find StringToNumber db filters options with
        | Booking.Fulfilled found =>
            let bookings := destructure found "data" in
            let pagination := destructure found "pagination" in
            Json 200 [ ("success", Booking.Plain (Bool true));
                       ("bookings", bookings);
                       ("pagination", pagination) ]
        | Booking.Failed why => internalError (ServiceFailed why)
        end
    end.

End Handlers.

(** [f || d] on a property: a quotient [total / count] is falsy when
    it is 0 or [NaN], that is, when [total] is. *)
Definition fieldOr (f : Booking.field) (d : value) : Booking.field :=
  match f with
  | Booking.Plain v => Booking.Plain (or v d)
  | Booking.Rounded (Booking.Finite 0) | Booking.Rounded Booking.NotANumber =>
      Booking.Plain d
  | Booking.Quotient total _ =>
      match to_number_nonstring total with
      | Int 0 | NaN => Booking.Plain d
      | _ => f
      end
  | _ => f
  end.

Definition reasonOf {A : Type} (call : Booking.settled A) : list Booking.reason :=
  match call with
  | Booking.Failed why => [why]
  | Booking.Fulfilled _ => []
  end.

Section Dashboard.

Variable parseFloat : value -> number.
Variable messageOf : failure -> value.

(** [Promise.all] is rejected with the reason of the call that is
    rejected first in time: one of the reasons of its rejected calls,
    here listed in call order. *)
Variable firstRejected : list Booking.reason -> Booking.reason.

(** The handler of [GET /api/admin/dashboard/stats] (lines 1000-1041),
    for [thirtyDaysAgo.toISOString()] equal to [since] and the
    [new Date().toISOString()] of [getUpcomingDepartures] equal to
    [today]; the six calls see the same state of the database. *)
Definition dashboardStats (db : Booking.Database) (since today : value) : response :=
  let totalBookings := Booking.count db (Obj []) in
  let confirmedBookings := Booking.count db (Obj [("bookingStatus", Str "confirmed")]) in
  let pendingBookings := Booking.count db (Obj [("bookingStatus", Str "pending")]) in
  let recentBookings :=
    Booking.count db (Obj [("bookingDate", Obj [("gte", since)])]) in
  let revenueStats :=
    Booking.getRevenueStats parseFloat db (Obj [("paymentStatus", Str "confirmed")]) in
  let upcomingDepartures := Booking.getUpcomingDepartures db today (Num (Int 10)) in
  match totalBookings, confirmedBookings, pendingBookings, recentBookings,
        revenueStats, upcomingDepartures with
  | Booking.Fulfilled total, Booking.Fulfilled confirmed, Booking.Fulfilled pending,
    Booking.Fulfilled recent, Booking.Fulfilled revenue, Booking.Fulfilled upcoming =>
      Json 200
        [ ("success", Booking.Plain (Bool true));
          ("stats",
           Booking.Nested
             [ ("totalBookings", Booking.Plain total);
               ("confirmedBookings", Booking.Plain confirmed);
               ("pendingBookings", Booking.Plain pending);
               ("recentBookings", Booking.Plain recent);
               ("totalRevenue", fieldOr (destructure revenue "totalRevenue") zero);
               ("upcomingDepartures", Booking.Plain (Arr upcoming)) ]) ]
  | _, _, _, _, _, _ =>
      internalError messageOf
        (ServiceFailed
           (firstRejected
              (reasonOf totalBookings ++ reasonOf confirmedBookings ++
               reasonOf pendingBookings ++ reasonOf recentBookings ++
               reasonOf revenueStats ++ reasonOf upcomingDepartures)%list))
  end.

End Dashboard.

(** *** The payment check of [POST /api/bookings] *)

(** [Object.keys(v).length] for a truthy [v]. *)
Definition keyCount (v : value) : nat :=
  match v with
  | Obj props => List.length props
  | Arr l => List.length l
  | Str s => String.length s
  | _ => O
  end.

Fixpoint startsWith (prefix s : string) : bool :=
  match prefix, s with
  | EmptyString, _ => true
  | String a p, String b r => (a =? b)%char && startsWith p r
  | String _ _, EmptyString => false
  end.

(** [v === true]. *)
Definition isTrue (v : value) : bool :=
  match v with
  | Bool true => true
  | _ => false
  end.

(** Line 479: test mode needs both the flag of the request and the
    environment variable [ENABLE_TEST_MODE]. *)
Definition isTestMode (body enableTestMode : value) : bool :=
  isTrue (opt_member (get_prop body "paymentDetails") "testMode") &&
  strict_eq_str enableTestMode "true".

Inductive verdict : Type :=
| Accepted
| Refused (status : Z) (error : string).

(** Lines 479-505, for the request body [body]: the answer of the
    check, or the [TypeError] of [startsWith] on a payment id that is
    not a string. *)
Definition paymentCheck (body enableTestMode : value) : result verdict :=
  let paymentStatus := get_prop body "paymentStatus" in
  let paymentId := get_prop body "paymentId" in
  if strict_eq_str paymentStatus "confirmed" && negb (isTestMode body enableTestMode)
  then
    invalidId <- (if truthy paymentId then
                    match paymentId with
                    | Str s => Ok (startsWith "test_" s)
                    | _ => Throw TypeError
                    end
                  else Ok true) ;;
    if invalidId
    then Ok (Refused 400 "Payment verification required. Invalid or missing payment ID.")
    else
      if negb (truthy (get_prop body "paymentDetails")) ||
         (keyCount (get_prop body "paymentDetails") =? 0)%nat
      then Ok (Refused 400 "Payment verification required. Missing payment details.")
      else Ok Accepted
  else Ok Accepted.

(** Line 528: [paymentStatus === 'confirmed' ? 'confirmed' : 'pending']. *)
Definition bookingStatusOf (body : value) : string :=
  if strict_eq_str (get_prop body "paymentStatus") "confirmed"
  then "confirmed" else "pending".

End Routes.

(** ** The whole of [formatTourData]

    The fields of the returned object that do not come from the
    departure schedule (lines 406-425, 486-494, 503-564).  Every
    exception the function can raise on decoded data is a [TypeError],
    so the order in which the parts are evaluated does not show in the
    result. *)

Record FormattedTour : Type := mkFormattedTour {
  id : value;
  slug : value;
  name : value;
  shortDescription : value;
  description : value;
  itinerary : value;
  featuredImage : value;
  galleryImages : list value;
  thumbnailImage : value;
  tourDestinations : list value;
  scheduleFields : Tour;
  pickupLocation : value;
  inclusions : value;
  exclusions : value;
  code : value;
  status : value;
  createdAt : value;
  modifiedAt : value;
  customFields : value
}.

Definition defaultImage : string :=
  "https://images.unsplash.com/photo-1506905925346-21bda4d32df4?w=800".

(** Line 406: [wpTour.acf || {}]. *)
Definition acfOf (wpTour : value) : result value :=
  acf <- member wpTour "acf" ;;
  Ok (or acf (Obj [])).

(** Lines 408-413. *)
Definition featuredImageOf (wpTour : value) : result value :=
  embedded <- member wpTour "_embedded" ;;
  hasMedia <- (if truthy embedded then
                 embedded' <- member wpTour "_embedded" ;;
                 featured <- member embedded' "wp:featuredmedia" ;;
                 Ok (truthy featured)
               else Ok false) ;;
  if hasMedia then
    embedded' <- member wpTour "_embedded" ;;
    featured <- member embedded' "wp:featuredmedia" ;;
    let media := get_first featured in
    source <- member media "source_url" ;;
    if truthy source then Ok source
    else
      details <- member media "media_details" ;;
      let large :=
        opt_member (opt_member (opt_member details "sizes") "large") "source_url" in
      Ok (or large (Str defaultImage))
  else Ok (Str defaultImage).

(** [img => { if (img.url) galleryImages.push(img.url); }], run over
    the gallery in order. *)
Fixpoint pushUrls (gallery : list value) (galleryImages : list value)
  : result (list value) :=
  match gallery with
  | [] => Ok galleryImages
  | img :: rest =>
      url <- member img "url" ;;
      if truthy url then
        url' <- member img "url" ;;
        pushUrls rest (galleryImages ++ [url'])%list
      else pushUrls rest galleryImages
  end.

(** Lines 416-421. *)
Definition galleryImagesOf (acf : value) : result (list value) :=
  gallery <- member acf "gallery" ;;
  isList <- (if truthy gallery then
               gallery' <- member acf "gallery" ;;
               Ok (isArray gallery')
             else Ok false) ;;
  if isList then
    gallery' <- member acf "gallery" ;;
    match gallery' with
    | Arr imgs => pushUrls imgs []
    | _ => Throw TypeError
    end
  else Ok [].

(** [term => term.taxonomy === 'destinations']. *)
Definition isDestination (term : value) : result bool :=
  taxonomy <- member term "taxonomy" ;;
  Ok (strict_eq_str taxonomy "destinations").

(** Lines 486-494. *)
Definition destinationsOf (wpTour : value) : result (list value) :=
  embedded <- member wpTour "_embedded" ;;
  hasTerms <- (if truthy embedded then
                 embedded' <- member wpTour "_embedded" ;;
                 terms <- member embedded' "wp:term" ;;
                 Ok (truthy terms)
               else Ok false) ;;
  if hasTerms then
    embedded' <- member wpTour "_embedded" ;;
    groups <- member embedded' "wp:term" ;;
    match groups with
    | Arr groups =>
        let terms := Lib.flat groups in
        kept <- filter isDestination terms ;;
        map (fun term => member term "name") kept
    | _ =>
        (* [flat] is not a function of a value that is not an array *)
        Throw TypeError
    end
  else Ok [].

(** [wpTour.title?.rendered]. *)
Definition titleRendered (wpTour : value) : result value :=
  title <- member wpTour "title" ;;
  Ok (opt_member title "rendered").

(** Line 514: [acf.short_description ||
    wpTour.excerpt?.rendered?.replace(/<[^>]*>/g, '').substring(0, 200) || '']. *)
Definition shortDescriptionOf (wpTour acf : value) : result value :=
  short <- member acf "short_description" ;;
  if truthy short then Ok short
  else
    excerpt <- member wpTour "excerpt" ;;
    match opt_member excerpt "rendered" with
    | Undefined | Null => Ok (Str EmptyString)
    | Str s => Ok (or (Str (substring 0 200 (Lib.stripTags s))) (Str EmptyString))
    | _ =>
        (* [replace] is not a function of a value that is not a string *)
        Throw TypeError
    end.

(** [a.k1 || a.k2 || fallback]. *)
Definition eitherField (a : value) (k1 k2 : string) (fallback : value) : result value :=
  first <- member a k1 ;;
  if truthy first then Ok first
  else
    second <- member a k2 ;;
    Ok (or second fallback).

(** Line 556: [acf.tour_code || `TOUR-${wpTour.id}`]. *)
Definition codeOf (wpTour acf : value) : result value :=
  tourCode <- member acf "tour_code" ;;
  if truthy tourCode then Ok tourCode
  else
    tourId <- member wpTour "id" ;;
    match tourId with
    | Obj _ =>
        text <- Lib.toStringMethod tourId ;;
        Ok (Str ("TOUR-" ++ text))
    | _ => Ok (Str ("TOUR-" ++ to_string tourId))
    end.

Definition arrayOr (v : value) : value := if isArray v then v else Arr [].

(** *** The callers of [formatTourData] in the WordPress service *)

(** The settlement of a promise: resolved with a value, or rejected
    with an [Error] carrying a message. *)
Inductive outcome (A : Type) : Type :=
| Resolved (a : A)
| Rejected (message : string).

Arguments Resolved {A} a.
Arguments Rejected {A} message.

Record TourList : Type := mkTourList {
  tours : list FormattedTour;
  total : number;
  totalPages : number
}.

(** [Promise.all(list.map(f))] for an [async] function [f] that does
    not wait on anything: rejected as soon as one call is. *)
Fixpoint formatAll (f : value -> result FormattedTour) (l : list value)
  : result (list FormattedTour) :=
  match l with
  | [] => Ok []
  | x :: rest =>
      y <- f x ;;
      ys <- formatAll f rest ;;
      Ok (y :: ys)
  end.

(** ** Sample data *)

Module Samples.

(** A tour as the WordPress API returns it with [_embed]: featured
    media, terms of two taxonomies, a gallery with one usable image, an
    excerpt with markup and a schedule of three departures. *)
Definition embedded (featuredMedia : value) : value :=
  Obj [ ("wp:featuredmedia", featuredMedia);
        ("wp:term",
         Arr [ Arr [ Obj [("taxonomy", Str "destinations"); ("name", Str "Delhi")];
                     Obj [("taxonomy", Str "category"); ("name", Str "Culture")] ];
               Arr [ Obj [("taxonomy", Str "destinations"); ("name", Str "Agra")] ] ]) ].

Definition wpTourWith (featuredMedia : value) : value :=
  Obj [ ("id", Num (Int 42));
        ("slug", Str "golden-triangle");
        ("status", Str "publish");
        ("date", Str "2025-01-05T10:00:00");
        ("modified", Str "2025-02-01T09:30:00");
        ("title", Obj [("rendered", Str "Golden Triangle")]);
        ("excerpt", Obj [("rendered", Str "<p>Delhi, <b>Agra</b> and Jaipur</p>")]);
        ("acf",
         Obj [ ("gallery",
                Arr [ Obj [("url", Str "https://example.org/fort.jpg")];
                      Obj [("url", Str EmptyString)] ]);
               ("departure_schedule", Examples.schedule Examples.seatAggregation) ]);
        ("_embedded", embedded featuredMedia) ].

Definition wpTour : value :=
  wpTourWith (Arr [Obj [("source_url", Str "https://example.org/taj.jpg")]]).

(** The same tour with an empty list of featured media. *)
Definition wpTourWithoutMedia : value := wpTourWith (Arr []).

(** A schedule whose second departure is [null]. *)
Definition holed : list value :=
  [ Examples.departure [("date", Str "2025-05-01"); ("status", Str "open")]; Null ].

(** A context with two destinations, a location and a duration. *)
Definition context : TourContext :=
  {| destinations := [Str "Delhi"; Str "Agra"];
     acf_location := Str "North India";
     acf_duration := Str "5 Days / 4 Nights";
     title_rendered := Str "Golden Triangle" |}.

(** A booking as the route hands it to [BookingService.create]. *)
Definition bookingData : value :=
  Obj [ ("bookingId", Str "IMT-TRIP-12345678042");
        ("tourId", Str "42");
        ("customerName", Str "Asha Rao");
        ("adults", Num (Int 2));
        ("roomConfiguration", Obj [("doubleRooms", Num (Int 1))]);
        ("addons", Arr [Obj [("addonName", Str "Guide"); ("unitPrice", Num (Int 500))]]);
        ("totalPrice", Num (Int 42000)) ].

(** StringToNumber on the empty string and on decimal numerals with an
    optional minus sign; the other strings it is used on here are not
    numeric. *)
Definition decimal (s : string) : number :=
  if Booking.allDigits s && negb (s =? EmptyString)%string then
    match parse_digits 10 s None with
    | Some n => Int n
    | None => NaN
    end
  else NaN.

Definition stringToNumber (s : string) : number :=
  match s with
  | EmptyString => Int 0
  | String "-" rest =>
      match decimal rest with
      | Int n => Int (- n)
      | NaN => NaN
      end
  | _ => decimal s
  end.

(** [parseFloat] on numbers, and on strings as [stringToNumber]. *)
Definition parseFloat (v : value) : number :=
  match v with
  | Num n => n
  | Str s => stringToNumber s
  | _ => NaN
  end.

(** Which rejection settles [Promise.all]: here, the first in call
    order. *)
Definition firstRejected (reasons : list Booking.reason) : Booking.reason :=
  hd Booking.RaisedTypeError reasons.

(** [new Date(v).toISOString()] on dates written [YYYY-MM-DD]. *)
Definition toISOString (v : value) : option value :=
  match v with
  | Str s =>
      if (String.length s =? 10)%nat then Some (Str (s ++ "T00:00:00.000Z")) else None
  | _ => None
  end.

Definition messageOf (why : Routes.failure) : value :=
  match why with
  | Routes.TypeErrorRaised => Str "Cannot read properties of undefined"
  | Routes.RangeErrorRaised => Str "Invalid time value"
  | Routes.ServiceFailed (Booking.ThrownError error) => get_prop error "message"
  | Routes.ServiceFailed Booking.RaisedTypeError => Str "Cannot read properties of null"
  end.

(** Three confirmed bookings on two dates. *)
Definition rows : list value :=
  [ Obj [("departure_date", Str "2025-03-01T00:00:00"); ("tour_name", Str "Golden Triangle")];
    Obj [("departure_date", Str "2025-03-01T00:00:00"); ("tour_name", Str "Kerala")];
    Obj [("departure_date", Str "2025-04-12T00:00:00"); ("tour_name", Str "Ladakh")] ].

(** A database that answers every query with these rows and a count
    of 120; the rows have no [total_price]. *)
Definition database : Booking.Database :=
  fun _ => {| Booking.response_data := Arr rows;
              Booking.response_error := Null;
              Booking.response_count := Num (Int 120) |}.

(** [GET /api/bookings?status=confirmed&startDate=2025-03-01&page=2]. *)
Definition listQuery : value :=
  Obj [ ("status", Str "confirmed"); ("startDate", Str "2025-03-01"); ("page", Str "2") ].

(** The filters the handler builds for
    [?status=confirmed&startDate=2025-03-01&endDate=2025-03-31], and the
    query [find] makes of them. *)
Definition rangeFilters : value :=
  Obj [ ("bookingStatus", Str "confirmed");
        ("departureDate",
         Obj [ ("gte", Str "2025-03-01T00:00:00.000Z");
               ("lte", Str "2025-03-31T00:00:00.000Z") ]) ].

Definition rangeQuery : list Booking.clause :=
  [ Booking.Select "*" true false;
    Booking.EqClause "booking_status" (Str "confirmed");
    Booking.RangeClause (Num (Int 0)) (Num (Int 19));
    Booking.OrderClause (Str "booking_date") false ].

(** The filter of the dashboard's count of today's bookings. *)
Definition todayFilter : value :=
  Obj [("bookingDate", Obj [("gte", Str "2025-03-01T00:00:00.000Z")])].

(** The body of a paid booking request. *)
Definition paidBooking : value :=
  Obj [ ("tourId", Str "42");
        ("paymentId", Str "pay_N8x2kQ");
        ("paymentStatus", Str "confirmed");
        ("paymentDetails", Obj [("orderId", Str "order_77")]) ].

End Samples.

Section ScheduleResolver.

(** [JSON.parse]: [None] stands for a thrown [SyntaxError]. *)
Variable JSON_parse : string -> option value.

(** Whether the number denoted by a string (StringToNumber) is greater
    than zero. *)
Variable string_positive : string -> bool.

(** [v > 0]. *)
Definition gt_zero (v : value) : bool :=
  match to_primitive v with
  | Str s => string_positive s
  | p =>
      match to_number_nonstring p with
      | Int z => 0 <? z
      | NaN => false
      end
  end.

(** Lines 438-451: the decoded schedule for a truthy raw field. *)
Definition parseSchedule (departureScheduleRaw : value) : value :=
  match departureScheduleRaw with
  | Str s =>
      (* typeof departureScheduleRaw === 'string' *)
      match JSON_parse s with
      | Some v => v
      | None => Null
      end
  | Null | Arr _ | Obj _ =>
      (* typeof departureScheduleRaw === 'object' *)
      departureScheduleRaw
  | _ => Null
  end.

(** [d => d.status !== 'sold_out']. *)
Definition notSoldOut (d : value) : result bool :=
  status <- member d "status" ;;
  Ok (negb (strict_eq_str status "sold_out")).

(** [(sum, d) => sum + (d.availableSeats || 0)]. *)
Definition addSeats (sum d : value) : result value :=
  seats <- member d "availableSeats" ;;
  Ok (add sum (or seats zero)).

(** Line 453: [departureSchedule && departureSchedule.departures &&
    Array.isArray(departureSchedule.departures)]. *)
Definition hasDepartures (departureSchedule : value) : result bool :=
  if truthy departureSchedule then
    d1 <- member departureSchedule "departures" ;;
    if truthy d1 then
      d2 <- member departureSchedule "departures" ;;
      Ok (isArray d2)
    else Ok false
  else Ok false.

(** Lines 466-474: tiers and price of the first available departure. *)
Definition anchorPricing (firstDeparture : value) (st : Locals) : result Locals :=
  if truthy firstDeparture then
    tiers <- member firstDeparture "pricingTiers" ;;
    adopt <- (if truthy tiers then
                tiers' <- member firstDeparture "pricingTiers" ;;
                len <- member tiers' "length" ;;
                Ok (gt_zero len)
              else Ok false) ;;
    pricingTiersFromSchedule <-
      (if adopt then member firstDeparture "pricingTiers"
       else Ok (l_pricingTiersFromSchedule st)) ;;
    price <- member firstDeparture "pricePerPerson" ;;
    Ok {| l_availableDates := l_availableDates st;
          l_seatsAvailable := l_seatsAvailable st;
          l_pricingTiersFromSchedule := pricingTiersFromSchedule;
          l_pricePerPerson := or price zero |}
  else Ok st.

(** Lines 453-475: the body run when the schedule has a departures
    array. *)
Definition scheduleBlock (departureSchedule : value) : result Locals :=
  has <- hasDepartures departureSchedule ;;
  if has then
    departures <- member departureSchedule "departures" ;;
    match departures with
    | Arr departures =>
        available <- filter notSoldOut departures ;;
        availableDates <- map (fun d => member d "date") available ;;
        available' <- filter notSoldOut departures ;;
        seatsAvailable <- reduce addSeats available' zero ;;
        firstDeparture <- find notSoldOut departures ;;
        anchorPricing firstDeparture
          {| l_availableDates := availableDates;
             l_seatsAvailable := seatsAvailable;
             l_pricingTiersFromSchedule := Arr [];
             l_pricePerPerson := zero |}
    | _ =>
        (* not reached: [filter] is not a function of a non-array *)
        Throw TypeError
    end
  else Ok initialLocals.

(** Lines 478-484: no schedule, or no available departure. *)
Definition noFallback (departureSchedule : value) (st : Locals) : Locals :=
  if negb (truthy departureSchedule) || (List.length (l_availableDates st) =? 0)%nat
  then {| l_availableDates := [];
          l_seatsAvailable := zero;
          l_pricingTiersFromSchedule := l_pricingTiersFromSchedule st;
          l_pricePerPerson := l_pricePerPerson st |}
  else st.

(** Lines 496-501. *)
Definition finalTiers (pricingTiersFromSchedule : value) : result value :=
  len <- member pricingTiersFromSchedule "length" ;;
  Ok (if strict_eq_int len 0 then Arr [] else pricingTiersFromSchedule).

(** The value of [departureSchedule] after lines 430-452. *)
Definition scheduleOf (departureScheduleRaw : value) : value :=
  if truthy departureScheduleRaw then parseSchedule departureScheduleRaw else Null.

Definition formatTourData (ctx : TourContext) (departureScheduleRaw : value)
  : result Tour :=
  let departureSchedule := scheduleOf departureScheduleRaw in
  st <- (if truthy departureScheduleRaw then scheduleBlock departureSchedule
         else Ok initialLocals) ;;
  let st := noFallback departureSchedule st in
  pricingTiers <- finalTiers (l_pricingTiersFromSchedule st) ;;
  let metadata := opt_member departureSchedule "metadata" in
  let first := opt_first (opt_member departureSchedule "departures") in
  Ok {| location :=
          or (or (or (opt_member metadata "location")
                     (Str (join ", " (destinations ctx))))
                 (acf_location ctx))
             (Str "India");
        duration :=
          or (or (or (opt_member metadata "duration") (acf_duration ctx))
                 (title_rendered ctx))
             (Str "7 Days / 6 Nights");
        pricePerPerson := l_pricePerPerson st;
        priceAdult := l_pricePerPerson st;
        priceChild := zero;
        childWithBed := or (opt_member first "childWithBed") zero;
        childWithoutBed := or (opt_member first "childWithoutBed") zero;
        extraAdultSameRoom := or (opt_member first "extraAdultSameRoom") zero;
        singleRoomSupplement := or (opt_member first "singleRoomSupplement") zero;
        pricingTiers := pricingTiers;
        availableDates := l_availableDates st;
        departureDate := or (hd Undefined (l_availableDates st)) (Str EmptyString);
        departureSchedule := departureSchedule;
        minTravelers :=
          parseInt (or (opt_member metadata "minTravelers") (Num (Int 1)));
        maxTravelers :=
          parseInt (or (opt_member metadata "maxTravelers") (Num (Int 30)));
        seatsAvailable := l_seatsAvailable st;
        bookingDeadline := Num (Int 7);
        addons := or (opt_member first "addons") (Arr []) |}.

(** The whole function: the parts above, the schedule-derived fields
    of [formatTourData] for [acf.departure_schedule], and the fields
    copied from [wpTour]. *)
Definition formatWpTour (wpTour : value) : result FormattedTour :=
  acf <- acfOf wpTour ;;
  featuredImage <- featuredImageOf wpTour ;;
  galleryImages <- galleryImagesOf acf ;;
  title <- titleRendered wpTour ;;
  acfDuration <- member acf "duration" ;;
  departureScheduleRaw <- member acf "departure_schedule" ;;
  destinations <- destinationsOf wpTour ;;
  acfLocation <- member acf "location" ;;
  tour <- formatTourData
            {| destinations := destinations; acf_location := acfLocation;
               acf_duration := acfDuration; title_rendered := title |}
            departureScheduleRaw ;;
  pickupLocation <- eitherField acf "pickup_location" "meeting_point"
                      (Str "Hotel Pickup Available") ;;
  inclusions <- eitherField acf "inclusions" "whats_included" (Arr []) ;;
  exclusions <- eitherField acf "exclusions" "whats_excluded" (Arr []) ;;
  tourId <- member wpTour "id" ;;
  idText <- Lib.toStringMethod tourId ;;
  slug <- member wpTour "slug" ;;
  shortDescription <- shortDescriptionOf wpTour acf ;;
  itinerary <- eitherField acf "itinerary" "day_by_day_itinerary" (Arr []) ;;
  thumbnail <- member acf "thumbnail" ;;
  code <- codeOf wpTour acf ;;
  status <- member wpTour "status" ;;
  createdAt <- member wpTour "date" ;;
  modifiedAt <- member wpTour "modified" ;;
  Ok {| id := Str idText;
        slug := slug;
        name := or title (Str "Untitled Tour");
        shortDescription := shortDescription;
        description := Str EmptyString;
        itinerary := itinerary;
        featuredImage := featuredImage;
        galleryImages := galleryImages;
        thumbnailImage := or thumbnail featuredImage;
        tourDestinations := destinations;
        scheduleFields := tour;
        pickupLocation := pickupLocation;
        inclusions := arrayOr inclusions;
        exclusions := arrayOr exclusions;
        code := code;
        status := status;
        createdAt := createdAt;
        modifiedAt := modifiedAt;
        customFields := acf |}.

(** [getAllTours] (lines 341-364), from the settlement of the
    [axios.get] request on: whatever goes wrong, the caller sees one
    message. *)
Definition getAllTours (response : outcome value) : outcome TourList :=
  match response with
  | Rejected _ => Rejected "Failed to fetch tours from WordPress"
  | Resolved response =>
      match
        (data <- member response "data" ;;
         match data with
         | Arr items =>
             tours <- formatAll formatWpTour items ;;
             headers <- member response "headers" ;;
             total <- member headers "x-wp-total" ;;
             headers' <- member response "headers" ;;
             totalPages <- member headers' "x-wp-totalpages" ;;
             Ok {| tours := tours;
                   total := parseInt (or total zero);
                   totalPages := parseInt (or totalPages zero) |}
         | Undefined | Null => Throw TypeError
         | _ =>
             (* [map] is not a function of a value that is not an array *)
             Throw TypeError
         end)
      with
      | Ok list => Resolved list
      | Throw _ => Rejected "Failed to fetch tours from WordPress"
      end
  end.

(** [getTourById] (lines 369-400), from the settlement of the
    [axios.get] request on. *)
Definition getTourById (response : outcome value) : outcome FormattedTour :=
  match response with
  | Rejected _ => Rejected "Failed to fetch tour details"
  | Resolved response =>
      match member response "data" with
      | Ok data =>
          let tourData := if isArray data then get_first data else data in
          if truthy tourData then
            match formatWpTour tourData with
            | Ok tour => Resolved tour
            | Throw _ => Rejected "Failed to fetch tour details"
            end
          else
            (* [throw new Error('Tour not found')], caught below *)
            Rejected "Failed to fetch tour details"
      | Throw _ => Rejected "Failed to fetch tour details"
      end
  end.


(** ** The reading of the schedule the claims are stated in *)

(** The departure is not [undefined] or [null]. *)
Definition present (d : value) : bool := negb (nullish d).

(** The departure's status is not literally ["sold_out"]. *)
Definition available (d : value) : bool :=
  negb (strict_eq_str (get_prop d "status") "sold_out").

(** The anchor departure: the first available one in source order. *)
Definition anchor (departures : list value) : option value :=
  List.find available departures.

(** The canonical default availability. *)
Definition canonicalDefault (t : Tour) : Prop :=
  availableDates t = [] /\ seatsAvailable t = zero /\
  pricePerPerson t = zero /\ pricingTiers t = Arr [].

(** *** Closed form of the result *)

(** Tiers and price taken from a departure [a] by lines 466-474. *)
Definition tiersOf (a : value) : value :=
  let tiers := get_prop a "pricingTiers" in
  if truthy tiers && gt_zero (get_prop tiers "length") then tiers else Arr [].

Definition priceOf (a : value) : value :=
  or (get_prop a "pricePerPerson") zero.

Definition anchorValue (departures : list value) : value :=
  match anchor departures with
  | Some a => a
  | None => Undefined
  end.

Definition seatSum (departures : list value) : value :=
  fold_left (fun sum d => add sum (or (get_prop d "availableSeats") zero))
    (List.filter available departures) zero.

(** The fields read outside the schedule block (lines 524-553), for the
    decoded schedule [sch] and the given values of the [let] variables. *)
Definition assemble (ctx : TourContext) (sch : value) (st : Locals) : Tour :=
  let metadata := opt_member sch "metadata" in
  let first := opt_first (opt_member sch "departures") in
  {| location :=
       or (or (or (opt_member metadata "location")
                  (Str (join ", " (destinations ctx))))
              (acf_location ctx))
          (Str "India");
     duration :=
       or (or (or (opt_member metadata "duration") (acf_duration ctx))
              (title_rendered ctx))
          (Str "7 Days / 6 Nights");
     pricePerPerson := l_pricePerPerson st;
     priceAdult := l_pricePerPerson st;
     priceChild := zero;
     childWithBed := or (opt_member first "childWithBed") zero;
     childWithoutBed := or (opt_member first "childWithoutBed") zero;
     extraAdultSameRoom := or (opt_member first "extraAdultSameRoom") zero;
     singleRoomSupplement := or (opt_member first "singleRoomSupplement") zero;
     pricingTiers := l_pricingTiersFromSchedule st;
     availableDates := l_availableDates st;
     departureDate := or (hd Undefined (l_availableDates st)) (Str EmptyString);
     departureSchedule := sch;
     minTravelers :=
       parseInt (or (opt_member metadata "minTravelers") (Num (Int 1)));
     maxTravelers :=
       parseInt (or (opt_member metadata "maxTravelers") (Num (Int 30)));
     seatsAvailable := l_seatsAvailable st;
     bookingDeadline := Num (Int 7);
     addons := or (opt_member first "addons") (Arr []) |}.

Definition derivedLocals (departures : list value) : Locals :=
  {| l_availableDates :=
       List.map (fun d => get_prop d "date") (List.filter available departures);
     l_seatsAvailable := seatSum departures;
     l_pricingTiersFromSchedule := tiersOf (anchorValue departures);
     l_pricePerPerson := priceOf (anchorValue departures) |}.

(** *** Well-formed departures (the RawDeparture of the data model) *)

Definition isRecord (v : value) : bool :=
  match v with
  | Obj _ => true
  | _ => false
  end.

Definition isInt (v : value) : bool :=
  match v with
  | Num (Int _) => true
  | _ => false
  end.

Definition absentOr (p : value -> bool) (v : value) : bool :=
  nullish v || p v.

(** A departure record whose optional fields, when present, have the
    type the data model gives them. *)
Definition wellFormedDeparture (d : value) : bool :=
  isRecord d &&
  absentOr isInt (get_prop d "availableSeats") &&
  absentOr isInt (get_prop d "pricePerPerson") &&
  absentOr isArray (get_prop d "pricingTiers") &&
  absentOr isInt (get_prop d "childWithBed") &&
  absentOr isInt (get_prop d "childWithoutBed") &&
  absentOr isInt (get_prop d "extraAdultSameRoom") &&
  absentOr isInt (get_prop d "singleRoomSupplement") &&
  absentOr isArray (get_prop d "addons").

Definition wellFormed (departures : list value) : bool :=
  forallb wellFormedDeparture departures.

(** The raw field, textual or structured, carries a schedule whose
    [departures] is the array [departures]. *)
Definition hasDeparturesList (departureScheduleRaw : value) (departures : list value)
  : Prop :=
  get_prop (scheduleOf departureScheduleRaw) "departures" = Arr departures.

(** A numeric field with its default 0. *)
Definition numberOrZero (v : value) : value :=
  match v with
  | Num (Int z) => Num (Int z)
  | _ => zero
  end.

(** A sequence field with its empty default. *)
Definition arrayOrEmpty (v : value) : value :=
  match v with
  | Arr l => Arr l
  | _ => Arr []
  end.

(** The seats a departure contributes: its [availableSeats] when that
    is a number, 0 otherwise. *)
Definition seatCount (d : value) : Z :=
  match get_prop d "availableSeats" with
  | Num (Int z) => z
  | _ => 0
  end.

Definition seatTotal (departures : list value) : Z :=
  fold_right Z.add 0 (List.map seatCount (List.filter available departures)).

(** [availableSeats] is absent, falsy or a number. *)
Definition seatsFalsyOrInt (d : value) : bool :=
  negb (truthy (get_prop d "availableSeats")) || isInt (get_prop d "availableSeats").

(** *** The inputs on which the conversions return *)

(** The conversion of [v] to a string or a number returns: [v] is not
    an object that carries an own [toString] or [valueOf] property
    (which, in decoded data, is not callable), nor an array with such
    an element at any depth. *)
Fixpoint convertible (v : value) : bool :=
  match v with
  | Obj props =>
      match lookup "toString" props, lookup "valueOf" props with
      | None, None => true
      | _, _ => false
      end
  | Arr elems => forallb convertible elems
  | _ => true
  end.

(** Every value [formatTourData] converts is convertible: the
    destination names it joins (line 524), the [minTravelers] and
    [maxTravelers] it gives to [parseInt] (lines 542-543), the
    [availableSeats] it adds up (line 464) and the length of the tiers
    it compares with 0 (line 469), the last two for the departures that
    are not sold out. *)
Definition convertibleInputs (ctx : TourContext) (departureScheduleRaw : value)
  : bool :=
  let departureSchedule := scheduleOf departureScheduleRaw in
  let metadata := opt_member departureSchedule "metadata" in
  forallb convertible (destinations ctx) &&
  convertible (opt_member metadata "minTravelers") &&
  convertible (opt_member metadata "maxTravelers") &&
  match get_prop departureSchedule "departures" with
  | Arr departures =>
      forallb
        (fun d =>
           convertible (get_prop d "availableSeats") &&
           convertible (get_prop (get_prop d "pricingTiers") "length"))
        (List.filter available departures)
  | _ => true
  end.

(** The magnitudes of the seats that are added up; below 2^53, every
    sum of them is computed exactly. *)
Definition seatMagnitude (departures : list value) : Z :=
  fold_right Z.add 0
    (List.map (fun d => Z.abs (seatCount d)) (List.filter available departures)).

(** ** Auxiliary facts *)

Lemma member_present (d : value) (k : string) :
  present d = true -> member d k = Ok (get_prop d k).
Proof.
  unfold present, member. destruct (nullish d); [discriminate | reflexivity].
Qed.

Lemma truthy_present (v : value) : truthy v = true -> present v = true.
Proof. unfold present. destruct v; simpl; congruence. Qed.

Lemma notSoldOut_present (d : value) :
  present d = true -> notSoldOut d = Ok (available d).
Proof.
  intros H. unfold notSoldOut. rewrite (member_present _ _ H). reflexivity.
Qed.

Lemma notSoldOut_absent (d : value) :
  present d = false -> notSoldOut d = Throw TypeError.
Proof.
  unfold present, notSoldOut, member. destruct (nullish d); [reflexivity | discriminate].
Qed.

Lemma filter_present (l : list value) :
  forallb present l = true ->
  filter notSoldOut l = Ok (List.filter available l).
Proof.
  induction l as [|d l IH]; simpl; intros H; [reflexivity|].
  apply andb_prop in H as [Hd Hl].
  rewrite (notSoldOut_present _ Hd), (IH Hl). simpl.
  destruct (available d); reflexivity.
Qed.

Lemma filter_absent (l : list value) :
  forallb present l = false -> filter notSoldOut l = Throw TypeError.
Proof.
  induction l as [|d l IH]; simpl; intros H; [discriminate|].
  destruct (present d) eqn:Hd.
  - rewrite (notSoldOut_present _ Hd). simpl. rewrite (IH H). reflexivity.
  - rewrite (notSoldOut_absent _ Hd). reflexivity.
Qed.

Lemma forallb_filter (f g : value -> bool) (l : list value) :
  forallb f l = true -> forallb f (List.filter g l) = true.
Proof.
  induction l as [|d l IH]; simpl; intros H; [reflexivity|].
  apply andb_prop in H as [Hd Hl].
  destruct (g d); simpl; [rewrite Hd|]; auto.
Qed.

Lemma map_present (k : string) (l : list value) :
  forallb present l = true ->
  map (fun d => member d k) l = Ok (List.map (fun d => get_prop d k) l).
Proof.
  induction l as [|d l IH]; simpl; intros H; [reflexivity|].
  apply andb_prop in H as [Hd Hl].
  rewrite (member_present _ _ Hd), (IH Hl). reflexivity.
Qed.

Lemma reduce_present (l : list value) (acc : value) :
  forallb present l = true ->
  reduce addSeats l acc =
  Ok (fold_left (fun sum d => add sum (or (get_prop d "availableSeats") zero)) l acc).
Proof.
  revert acc. induction l as [|d l IH]; simpl; intros acc H; [reflexivity|].
  apply andb_prop in H as [Hd Hl].
  unfold addSeats at 1. rewrite (member_present _ _ Hd). simpl.
  apply IH, Hl.
Qed.

Lemma find_present (l : list value) :
  forallb present l = true ->
  find notSoldOut l =
  Ok (match anchor l with Some a => a | None => Undefined end).
Proof.
  unfold anchor.
  induction l as [|d l IH]; simpl; intros H; [reflexivity|].
  apply andb_prop in H as [Hd Hl].
  rewrite (notSoldOut_present _ Hd). simpl.
  destruct (available d); [reflexivity | apply IH, Hl].
Qed.

Lemma anchor_none_filter (l : list value) :
  anchor l = None <-> List.filter available l = [].
Proof.
  unfold anchor. induction l as [|d l IH]; simpl; [tauto|].
  destruct (available d); [split; discriminate | exact IH].
Qed.

Lemma anchor_head_filter (l : list value) :
  anchor l = hd_error (List.filter available l).
Proof.
  unfold anchor. induction l as [|d l IH]; simpl; [reflexivity|].
  destruct (available d); [reflexivity | exact IH].
Qed.

Lemma get_prop_array_inv (v : value) (k : string) (l : list value) :
  get_prop v k = Arr l -> exists props, v = Obj props.
Proof.
  destruct v as [| |b|n|s|e|props]; simpl; try discriminate.
  - destruct (k =? "length")%string; discriminate.
  - destruct (k =? "length")%string; discriminate.
  - intros _. exists props. reflexivity.
Qed.

Lemma falsy_get_prop (a : value) (k : string) :
  truthy a = false -> (k =? "length")%string = false -> get_prop a k = Undefined.
Proof.
  intros Ha Hk. destruct a as [| |b|n|s|e|props]; simpl in *; try reflexivity;
    try discriminate.
  rewrite Hk. reflexivity.
Qed.

Lemma anchorPricing_spec (a : value) (dates : list value) (seats : value) :
  present a = true \/ a = Undefined ->
  anchorPricing a
    {| l_availableDates := dates; l_seatsAvailable := seats;
       l_pricingTiersFromSchedule := Arr []; l_pricePerPerson := zero |} =
  Ok {| l_availableDates := dates; l_seatsAvailable := seats;
        l_pricingTiersFromSchedule := tiersOf a; l_pricePerPerson := priceOf a |}.
Proof.
  intros Ha. unfold anchorPricing, tiersOf, priceOf.
  destruct (truthy a) eqn:Ht.
  - pose proof (truthy_present _ Ht) as Hp.
    rewrite !(member_present _ _ Hp). simpl.
    destruct (truthy (get_prop a "pricingTiers")) eqn:Htiers; simpl.
    + rewrite (member_present _ "length" (truthy_present _ Htiers)). simpl.
      destruct (gt_zero (get_prop (get_prop a "pricingTiers") "length")); reflexivity.
    + reflexivity.
  - rewrite !(falsy_get_prop a _ Ht) by reflexivity. reflexivity.
Qed.

Lemma anchorValue_ok (l : list value) :
  forallb present l = true ->
  present (anchorValue l) = true \/ anchorValue l = Undefined.
Proof.
  intros H. unfold anchorValue, anchor.
  destruct (List.find available l) as [a|] eqn:Hf; [left | right; reflexivity].
  apply find_some in Hf as [Hin _].
  rewrite forallb_forall in H. apply H, Hin.
Qed.

Lemma scheduleBlock_departures (sch : value) (ds : list value) :
  get_prop sch "departures" = Arr ds ->
  forallb present ds = true ->
  scheduleBlock sch = Ok (derivedLocals ds).
Proof.
  intros Hd Hp.
  destruct (get_prop_array_inv _ _ _ Hd) as [props ->].
  unfold scheduleBlock, hasDepartures. simpl truthy. cbv iota.
  rewrite !(member_present (Obj props)) by reflexivity. rewrite Hd. simpl.
  rewrite (filter_present _ Hp). simpl.
  rewrite (map_present _ _ (forallb_filter present available _ Hp)). simpl.
  rewrite (reduce_present _ _ (forallb_filter present available _ Hp)). simpl.
  rewrite (find_present _ Hp). simpl.
  apply (anchorPricing_spec (anchorValue ds)), anchorValue_ok, Hp.
Qed.

Lemma scheduleBlock_throws (sch : value) (ds : list value) :
  get_prop sch "departures" = Arr ds ->
  forallb present ds = false ->
  scheduleBlock sch = Throw TypeError.
Proof.
  intros Hd Hp.
  destruct (get_prop_array_inv _ _ _ Hd) as [props ->].
  unfold scheduleBlock, hasDepartures. simpl truthy. cbv iota.
  rewrite !(member_present (Obj props)) by reflexivity. rewrite Hd. simpl.
  rewrite (filter_absent _ Hp). reflexivity.
Qed.

Lemma scheduleBlock_no_array (sch : value) :
  isArray (get_prop sch "departures") = false ->
  scheduleBlock sch = Ok initialLocals.
Proof.
  intros Hd. unfold scheduleBlock, hasDepartures.
  destruct (truthy sch) eqn:Ht; [|reflexivity].
  rewrite (member_present _ _ (truthy_present _ Ht)). simpl.
  destruct (truthy (get_prop sch "departures")); simpl; [|reflexivity].
  rewrite Hd. reflexivity.
Qed.

Lemma noFallback_derived (sch : value) (ds : list value) :
  truthy sch = true -> noFallback sch (derivedLocals ds) = derivedLocals ds.
Proof.
  intros Ht. unfold noFallback, derivedLocals, seatSum. rewrite Ht. simpl.
  destruct (List.filter available ds); reflexivity.
Qed.

Lemma noFallback_initial (sch : value) : noFallback sch initialLocals = initialLocals.
Proof.
  unfold noFallback. simpl. rewrite orb_true_r. reflexivity.
Qed.

Lemma finalTiers_tiersOf (a : value) : finalTiers (tiersOf a) = Ok (tiersOf a).
Proof.
  unfold tiersOf. cbv zeta.
  destruct (truthy (get_prop a "pricingTiers")) eqn:Ht; simpl; [|reflexivity].
  destruct (gt_zero (get_prop (get_prop a "pricingTiers") "length")) eqn:Hg;
    [|reflexivity].
  unfold finalTiers. rewrite (member_present _ _ (truthy_present _ Ht)). simpl.
  destruct (get_prop (get_prop a "pricingTiers") "length") as [| |b|[z|]|s|e|props];
    simpl; try reflexivity.
  destruct (Z.eqb_spec z 0) as [->|]; [|reflexivity].
  discriminate Hg.
Qed.

Lemma formatTourData_departures (ctx : TourContext) (raw : value) (ds : list value) :
  hasDeparturesList raw ds ->
  forallb present ds = true ->
  formatTourData ctx raw = Ok (assemble ctx (scheduleOf raw) (derivedLocals ds)).
Proof.
  unfold hasDeparturesList. intros Hd Hp.
  assert (Hraw : truthy raw = true).
  { unfold scheduleOf in Hd. destruct (truthy raw); [reflexivity | discriminate]. }
  assert (Hsch : truthy (scheduleOf raw) = true).
  { destruct (get_prop_array_inv _ _ _ Hd) as [props ->]. reflexivity. }
  unfold formatTourData. rewrite Hraw.
  rewrite (scheduleBlock_departures _ _ Hd Hp). simpl.
  rewrite (noFallback_derived _ _ Hsch). simpl.
  rewrite finalTiers_tiersOf. reflexivity.
Qed.

Lemma formatTourData_throws (ctx : TourContext) (raw : value) (ds : list value) :
  hasDeparturesList raw ds ->
  forallb present ds = false ->
  formatTourData ctx raw = Throw TypeError.
Proof.
  unfold hasDeparturesList. intros Hd Hp.
  assert (Hraw : truthy raw = true).
  { unfold scheduleOf in Hd. destruct (truthy raw); [reflexivity | discriminate]. }
  unfold formatTourData. rewrite Hraw.
  rewrite (scheduleBlock_throws _ _ Hd Hp). reflexivity.
Qed.

Lemma formatTourData_no_array (ctx : TourContext) (raw : value) :
  isArray (get_prop (scheduleOf raw) "departures") = false ->
  formatTourData ctx raw = Ok (assemble ctx (scheduleOf raw) initialLocals).
Proof.
  intros Hd. unfold formatTourData.
  destruct (truthy raw).
  - rewrite (scheduleBlock_no_array _ Hd). simpl.
    rewrite noFallback_initial. reflexivity.
  - simpl. rewrite noFallback_initial. reflexivity.
Qed.

(** The function throws exactly when the departures array holds a
    [null] (or [undefined]) entry; otherwise it returns. *)
Lemma formatTourData_cases (ctx : TourContext) (raw : value) :
  (exists ds, hasDeparturesList raw ds /\ forallb present ds = true /\
     formatTourData ctx raw = Ok (assemble ctx (scheduleOf raw) (derivedLocals ds))) \/
  (exists ds, hasDeparturesList raw ds /\ forallb present ds = false /\
     formatTourData ctx raw = Throw TypeError) \/
  (isArray (get_prop (scheduleOf raw) "departures") = false /\
     formatTourData ctx raw = Ok (assemble ctx (scheduleOf raw) initialLocals)).
Proof.
  destruct (get_prop (scheduleOf raw) "departures") as [| |b|n|s|ds|props] eqn:Hd;
    try (right; right; split;
         [reflexivity | apply formatTourData_no_array; rewrite Hd; reflexivity]).
  destruct (forallb present ds) eqn:Hp.
  - left. exists ds. split; [exact Hd | split; [exact Hp |]].
    apply formatTourData_departures; assumption.
  - right; left. exists ds. split; [exact Hd | split; [exact Hp |]].
    apply (formatTourData_throws ctx raw ds); assumption.
Qed.

Lemma wellFormed_present (ds : list value) :
  wellFormed ds = true -> forallb present ds = true.
Proof.
  unfold wellFormed. intros H. rewrite forallb_forall in *. intros d Hin.
  specialize (H d Hin). unfold wellFormedDeparture in H.
  destruct d; simpl in H; try discriminate; reflexivity.
Qed.

Lemma records_present (ds : list value) :
  forallb isRecord ds = true -> forallb present ds = true.
Proof.
  intros H. rewrite forallb_forall in *. intros d Hin.
  specialize (H d Hin). destruct d; simpl in H; try discriminate; reflexivity.
Qed.

(** ** Malformed and absent schedules *)

Lemma default_is_canonical (ctx : TourContext) (sch : value) :
  canonicalDefault (assemble ctx sch initialLocals).
Proof. repeat split. Qed.



(** C7: when a text decodes to the structured value [v], resolving the
    text and resolving [v] give the same result, field for field. *)
Theorem textual_structured_equivalence (ctx : TourContext) (s : string) (v : value) :
  s <> EmptyString ->
  JSON_parse s = Some v ->
  typeof v = TObject ->
  formatTourData ctx (Str s) = formatTourData ctx v.
Proof.
  intros Hs Hparse Hv.
  assert (Ht : truthy (Str s) = true).
  { simpl. destruct s; [congruence | reflexivity]. }
  unfold formatTourData, scheduleOf. rewrite Ht. simpl parseSchedule.
  rewrite Hparse.
  destruct v; simpl in Hv; try discriminate; reflexivity.
Qed.

(** ** Fields taken from one departure *)

Lemma or_zero_int (v : value) :
  absentOr isInt v = true -> or v zero = numberOrZero v.
Proof.
  destruct v as [| |b|[z|]|s|e|props]; simpl; try discriminate; try reflexivity.
  intros _. unfold or. simpl. destruct (Z.eqb_spec z 0) as [->|]; reflexivity.
Qed.

Lemma or_empty_array (v : value) :
  absentOr isArray v = true -> or v (Arr []) = arrayOrEmpty v.
Proof.
  destruct v as [| |b|n|s|e|props]; simpl; try discriminate; reflexivity.
Qed.

Lemma tiersOf_array (a : value) :
  absentOr isArray (get_prop a "pricingTiers") = true ->
  tiersOf a =
  match get_prop a "pricingTiers" with
  | Arr (t :: ts) => Arr (t :: ts)
  | _ => Arr []
  end.
Proof.
  unfold tiersOf. cbv zeta.
  destruct (get_prop a "pricingTiers") as [| |b|n|s|e|props];
    simpl; try discriminate; try reflexivity.
  intros _. destruct e as [|t ts]; reflexivity.
Qed.

Lemma wellFormed_in (ds : list value) (d : value) :
  wellFormed ds = true -> In d ds -> wellFormedDeparture d = true.
Proof.
  unfold wellFormed. rewrite forallb_forall. auto.
Qed.

Lemma anchor_in (ds : list value) (a : value) :
  anchor ds = Some a -> In a ds /\ available a = true.
Proof. unfold anchor. apply find_some. Qed.

(** [departureSchedule?.departures?.[0]] is the head of the list. *)
Lemma first_departure (raw : value) (ds : list value) :
  hasDeparturesList raw ds ->
  opt_first (opt_member (scheduleOf raw) "departures") = hd Undefined ds.
Proof.
  unfold hasDeparturesList. intros Hd.
  destruct (get_prop_array_inv _ _ _ Hd) as [props Hsch].
  rewrite Hsch in *. unfold opt_member. simpl nullish. cbv iota.
  rewrite Hd. reflexivity.
Qed.

Lemma opt_member_record (d : value) (k : string) :
  isRecord d = true -> opt_member d k = get_prop d k.
Proof. destruct d; simpl; try discriminate; reflexivity. Qed.

Ltac split_well_formed H :=
  unfold wellFormedDeparture in H;
  repeat (let H' := fresh "Hwf" in apply andb_prop in H as [H H']).

(** C3: with a well-formed departures list, on inputs whose converted
    values are convertible, [pricePerPerson] is that of the anchor
    departure (0 when the field or the anchor is absent) and
    [pricingTiers] is the anchor's sequence when it is non-empty and
    the empty default otherwise; no later departure is consulted. *)
Theorem anchor_price_and_tiers (ctx : TourContext) (raw : value) (ds : list value) :
  hasDeparturesList raw ds ->
  wellFormed ds = true ->
  convertibleInputs ctx raw = true ->
  exists r,
    formatTourData ctx raw = Ok r /\
    pricePerPerson r =
      match anchor ds with
      | Some a => numberOrZero (get_prop a "pricePerPerson")
      | None => zero
      end /\
    pricingTiers r =
      match anchor ds with
      | Some a =>
          match get_prop a "pricingTiers" with
          | Arr (t :: ts) => Arr (t :: ts)
          | _ => Arr []
          end
      | None => Arr []
      end.
Proof.
  intros Hd Hwf _.
  exists (assemble ctx (scheduleOf raw) (derivedLocals ds)).
  split; [apply formatTourData_departures; auto using wellFormed_present|].
  simpl. unfold anchorValue.
  destruct (anchor ds) as [a|] eqn:Ha; [|split; reflexivity].
  apply anchor_in in Ha as [Hin _].
  pose proof (wellFormed_in _ _ Hwf Hin) as Hda. split_well_formed Hda.
  split.
  - unfold priceOf. apply or_zero_int. assumption.
  - apply tiersOf_array. assumption.
Qed.

(** C9: with a well-formed departures list, on inputs whose converted
    values are convertible, [addons] is the addons sequence of the
    first departure in source order, sold out or not, and the empty
    sequence when there is no first departure or it has no addons. *)
Theorem addons_from_first_departure (ctx : TourContext) (raw : value) (ds : list value) :
  hasDeparturesList raw ds ->
  wellFormed ds = true ->
  convertibleInputs ctx raw = true ->
  exists r,
    formatTourData ctx raw = Ok r /\
    addons r =
      match ds with
      | d :: _ => arrayOrEmpty (get_prop d "addons")
      | [] => Arr []
      end.
Proof.
  intros Hd Hwf _.
  exists (assemble ctx (scheduleOf raw) (derivedLocals ds)).
  split; [apply formatTourData_departures; auto using wellFormed_present|].
  simpl. rewrite (first_departure _ _ Hd).
  destruct ds as [|d rest]; [reflexivity|]. simpl hd.
  pose proof (wellFormed_in _ d Hwf (or_introl eq_refl)) as Hda.
  split_well_formed Hda.
  rewrite (opt_member_record _ _ Hda). apply or_empty_array. assumption.
Qed.

(** C2, amended: with a well-formed departures list, on inputs whose
    converted values are convertible, the four supplement fields are
    those of the first departure in source order, whatever its status
    (an absent field reads 0); they are zero when the list is empty. *)
Theorem supplements_from_first_departure
  (ctx : TourContext) (raw : value) (ds : list value) :
  hasDeparturesList raw ds ->
  wellFormed ds = true ->
  convertibleInputs ctx raw = true ->
  exists r,
    formatTourData ctx raw = Ok r /\
    let field k :=
      match ds with
      | d :: _ => numberOrZero (get_prop d k)
      | [] => zero
      end in
    childWithBed r = field "childWithBed" /\
    childWithoutBed r = field "childWithoutBed" /\
    extraAdultSameRoom r = field "extraAdultSameRoom" /\
    singleRoomSupplement r = field "singleRoomSupplement".
Proof.
  intros Hd Hwf _.
  exists (assemble ctx (scheduleOf raw) (derivedLocals ds)).
  split; [apply formatTourData_departures; auto using wellFormed_present|].
  simpl. rewrite (first_departure _ _ Hd).
  destruct ds as [|d rest]; [repeat split|]. simpl hd.
  pose proof (wellFormed_in _ d Hwf (or_introl eq_refl)) as Hda.
  split_well_formed Hda.
  rewrite !(opt_member_record _ _ Hda).
  repeat split; apply or_zero_int; assumption.
Qed.

(** ** Availability and seats *)

(** C4, amended: with a well-formed departures list, on inputs whose
    converted values are convertible, [availableDates] is the sequence
    of the dates of exactly the departures whose status is not
    literally ["sold_out"], in source order; its length is the number
    of departures contributing to [seatsAvailable]; and every entry is
    the date of a departure that is not sold out (a date shared with a
    sold-out departure still appears). *)
Theorem availableDates_filtered (ctx : TourContext) (raw : value) (ds : list value) :
  hasDeparturesList raw ds ->
  forallb isRecord ds = true ->
  convertibleInputs ctx raw = true ->
  exists r,
    formatTourData ctx raw = Ok r /\
    availableDates r =
      List.map (fun d => get_prop d "date") (List.filter available ds) /\
    List.length (availableDates r) = List.length (List.filter available ds) /\
    (forall x, In x (availableDates r) ->
       exists d, In d ds /\ available d = true /\ get_prop d "date" = x).
Proof.
  intros Hd Hrec _.
  exists (assemble ctx (scheduleOf raw) (derivedLocals ds)).
  split; [apply formatTourData_departures; auto using records_present|].
  simpl. split; [reflexivity | split; [apply length_map|]].
  intros x Hin. apply in_map_iff in Hin as [d [Hdate Hin]].
  apply filter_In in Hin as [Hin Hav].
  exists d. auto.
Qed.

Lemma add_int (a b : Z) : add (Num (Int a)) (Num (Int b)) = Num (Int (a + b)).
Proof. reflexivity. Qed.

Lemma seat_contribution (d : value) :
  seatsFalsyOrInt d = true ->
  or (get_prop d "availableSeats") zero = Num (Int (seatCount d)).
Proof.
  unfold seatsFalsyOrInt, seatCount, or.
  destruct (get_prop d "availableSeats") as [| |b|[z|]|s|e|props]; simpl;
    try reflexivity; try discriminate.
  - destruct b; [discriminate | reflexivity].
  - intros _. destruct (Z.eqb_spec z 0) as [->|]; reflexivity.
  - destruct (s =? EmptyString)%string; [reflexivity | discriminate].
Qed.

Lemma fold_seats (l : list value) (acc : Z) :
  forallb seatsFalsyOrInt l = true ->
  fold_left (fun sum d => add sum (or (get_prop d "availableSeats") zero)) l
    (Num (Int acc)) =
  Num (Int (acc + fold_right Z.add 0 (List.map seatCount l))).
Proof.
  revert acc. induction l as [|d l IH]; simpl; intros acc H.
  - rewrite Z.add_0_r. reflexivity.
  - apply andb_prop in H as [Hd Hl].
    rewrite (seat_contribution _ Hd), add_int, (IH _ Hl).
    rewrite Z.add_assoc. reflexivity.
Qed.

(** C5, amended: with a well-formed departures list in which the
    [availableSeats] of every departure that is not sold out is absent,
    falsy or a number, the magnitudes of these numbers adding up to
    less than 2^53, and on inputs whose converted values are
    convertible, [seatsAvailable] is the sum of [availableSeats] over
    the departures that are not sold out, an absent or falsy value
    counting 0. *)
Theorem seatsAvailable_sum (ctx : TourContext) (raw : value) (ds : list value) :
  hasDeparturesList raw ds ->
  forallb isRecord ds = true ->
  forallb seatsFalsyOrInt (List.filter available ds) = true ->
  seatMagnitude ds < 9007199254740992 ->
  convertibleInputs ctx raw = true ->
  exists r,
    formatTourData ctx raw = Ok r /\
    seatsAvailable r = Num (Int (seatTotal ds)).
Proof.
  intros Hd Hrec Hseats _ _.
  exists (assemble ctx (scheduleOf raw) (derivedLocals ds)).
  split; [apply formatTourData_departures; auto using records_present|].
  simpl. unfold seatSum, seatTotal.
  exact (fold_seats _ 0 Hseats).
Qed.

(** C1, amended: whenever the resolved [availableDates] is empty, the
    resolved [seatsAvailable] is 0, [pricePerPerson] is 0 and
    [pricingTiers] is empty. *)
Theorem empty_dates_defaults (ctx : TourContext) (raw : value) (r : Tour) :
  formatTourData ctx raw = Ok r ->
  availableDates r = [] ->
  seatsAvailable r = zero /\ pricePerPerson r = zero /\ pricingTiers r = Arr [].
Proof.
  intros Hr Hdates.
  destruct (formatTourData_cases ctx raw)
    as [[ds [Hd [Hp Hf]]] | [[ds [Hd [Hp Hf]]] | [Hd Hf]]];
    rewrite Hf in Hr; [| discriminate |];
    injection Hr as <-; simpl in *.
  - apply map_eq_nil in Hdates.
    unfold seatSum, anchorValue.
    rewrite (proj2 (anchor_none_filter ds) Hdates), Hdates.
    repeat split.
  - repeat split.
Qed.

(** ** Metadata *)

(** C8, amended: [minTravelers] and [maxTravelers] are [parseInt] of
    [metadata.minTravelers] and [metadata.maxTravelers] when these are
    truthy, and the defaults 1 and 30 when they are absent or falsy. *)
Theorem travelers_parsed (ctx : TourContext) (raw : value) (r : Tour) :
  formatTourData ctx raw = Ok r ->
  let metadata := opt_member (scheduleOf raw) "metadata" in
  minTravelers r =
    (if truthy (opt_member metadata "minTravelers")
     then parseInt (opt_member metadata "minTravelers")
     else Int 1) /\
  maxTravelers r =
    (if truthy (opt_member metadata "maxTravelers")
     then parseInt (opt_member metadata "maxTravelers")
     else Int 30).
Proof.
  intros Hr metadata.
  assert (Hfields :
    minTravelers r = parseInt (or (opt_member metadata "minTravelers") (Num (Int 1))) /\
    maxTravelers r = parseInt (or (opt_member metadata "maxTravelers") (Num (Int 30)))).
  { destruct (formatTourData_cases ctx raw)
      as [[ds [Hd [Hp Hf]]] | [[ds [Hd [Hp Hf]]] | [Hd Hf]]];
      rewrite Hf in Hr; [| discriminate |];
      injection Hr as <-; split; reflexivity. }
  destruct Hfields as [-> ->]. unfold or.
  split.
  - destruct (truthy (opt_member metadata "minTravelers")); reflexivity.
  - destruct (truthy (opt_member metadata "maxTravelers")); reflexivity.
Qed.

(** ** Further properties of the resolution *)

Lemma not_all_present (ds : list value) :
  forallb present ds = false <-> exists d, In d ds /\ nullish d = true.
Proof.
  unfold present. induction ds as [|d ds IH]; simpl.
  - split; [discriminate | intros [d [[] _]]].
  - destruct (nullish d) eqn:Hd; simpl.
    + split; [|reflexivity]. intros _. exists d. auto.
    + rewrite IH. split.
      * intros [x [Hin Hx]]. exists x. auto.
      * intros [x [[->|Hin] Hx]]; [congruence | exists x; auto].
Qed.

(** X1: on inputs whose converted values are convertible, resolution
    throws exactly when the schedule's [departures] array holds a
    [null] (or [undefined]) entry. *)
Theorem null_departure_throws (ctx : TourContext) (raw : value) :
  convertibleInputs ctx raw = true ->
  (formatTourData ctx raw = Throw TypeError <->
   exists ds, hasDeparturesList raw ds /\ exists d, In d ds /\ nullish d = true).
Proof.
  intros _. split.
  - intros Hthrow.
    destruct (formatTourData_cases ctx raw)
      as [[ds [Hd [Hp Hf]]] | [[ds [Hd [Hp Hf]]] | [Hd Hf]]];
      rewrite Hf in Hthrow; try discriminate.
    exists ds. split; [exact Hd | apply not_all_present, Hp].
  - intros [ds [Hd Hnull]].
    apply (formatTourData_throws ctx raw ds Hd), not_all_present, Hnull.
Qed.

(** X2: a schedule without a list-shaped [departures] (absent field,
    rejected or scalar text, missing key, non-array value) and a
    schedule whose [departures] is the empty array both resolve, on
    inputs whose converted values are convertible, to the canonical
    default availability with an empty [departureDate]. *)
Theorem no_departures_default (ctx : TourContext) (raw : value) :
  isArray (get_prop (scheduleOf raw) "departures") = false \/ hasDeparturesList raw [] ->
  convertibleInputs ctx raw = true ->
  exists r,
    formatTourData ctx raw = Ok r /\ canonicalDefault r /\
    departureDate r = Str EmptyString.
Proof.
  intros [Hd | Hd] _.
  - exists (assemble ctx (scheduleOf raw) initialLocals).
    split; [apply formatTourData_no_array, Hd|].
    split; [apply default_is_canonical | reflexivity].
  - exists (assemble ctx (scheduleOf raw) (derivedLocals [])).
    split; [apply formatTourData_departures; [exact Hd | reflexivity]|].
    split; [repeat split | reflexivity].
Qed.

Lemma returned_tour (ctx : TourContext) (raw : value) (r : Tour) :
  formatTourData ctx raw = Ok r ->
  exists st, r = assemble ctx (scheduleOf raw) st.
Proof.
  intros Hr.
  destruct (formatTourData_cases ctx raw)
    as [[ds [Hd [Hp Hf]]] | [[ds [Hd [Hp Hf]]] | [Hd Hf]]];
    rewrite Hf in Hr; [| discriminate |]; injection Hr as <-; eauto.
Qed.

Lemma or_truthy (a b : value) : truthy a = true -> or a b = a.
Proof. unfold or. intros ->. reflexivity. Qed.

Lemma or_falsy (a b : value) : truthy a = false -> or a b = b.
Proof. unfold or. intros ->. reflexivity. Qed.

Lemma truthy_cases (v : value) : {truthy v = true} + {truthy v = false}.
Proof. destruct (truthy v); auto. Qed.

Ltac or_chain :=
  repeat match goal with
         | H : truthy ?v = true |- context [or ?v ?b] => rewrite (or_truthy v b H)
         | H : truthy ?v = false |- context [or ?v ?b] => rewrite (or_falsy v b H)
         end.

(** X3: [location] is never falsy; it is [metadata.location] when that
    is truthy, else the comma-joined destinations when there are any,
    else [acf.location], else ["India"]. *)
Theorem location_precedence (ctx : TourContext) (raw : value) (r : Tour) :
  formatTourData ctx raw = Ok r ->
  let fromMetadata := opt_member (opt_member (scheduleOf raw) "metadata") "location" in
  let joined := Str (join ", " (destinations ctx)) in
  truthy (location r) = true /\
  (truthy fromMetadata = true -> location r = fromMetadata) /\
  (truthy fromMetadata = false -> truthy joined = true -> location r = joined) /\
  (truthy fromMetadata = false -> truthy joined = false ->
   location r = or (acf_location ctx) (Str "India")).
Proof.
  intros Hr fromMetadata joined.
  destruct (returned_tour _ _ _ Hr) as [st ->]. cbn [location assemble].
  fold fromMetadata. fold joined.
  destruct (truthy_cases fromMetadata) as [Hm|Hm];
    [|destruct (truthy_cases joined) as [Hj|Hj];
      [|destruct (truthy_cases (acf_location ctx)) as [Ha|Ha]]];
    repeat split; intros; or_chain; first [reflexivity | congruence].
Qed.

(** X4: [duration] is never falsy; it is [metadata.duration] when that
    is truthy, else [acf.duration], else the rendered title, else
    ["7 Days / 6 Nights"]. *)
Theorem duration_precedence (ctx : TourContext) (raw : value) (r : Tour) :
  formatTourData ctx raw = Ok r ->
  let fromMetadata := opt_member (opt_member (scheduleOf raw) "metadata") "duration" in
  truthy (duration r) = true /\
  (truthy fromMetadata = true -> duration r = fromMetadata) /\
  (truthy fromMetadata = false -> truthy (acf_duration ctx) = true ->
   duration r = acf_duration ctx) /\
  (truthy fromMetadata = false -> truthy (acf_duration ctx) = false ->
   duration r = or (title_rendered ctx) (Str "7 Days / 6 Nights")).
Proof.
  intros Hr fromMetadata.
  destruct (returned_tour _ _ _ Hr) as [st ->]. cbn [duration assemble].
  fold fromMetadata.
  destruct (truthy_cases fromMetadata) as [Hm|Hm];
    [|destruct (truthy_cases (acf_duration ctx)) as [Hj|Hj];
      [|destruct (truthy_cases (title_rendered ctx)) as [Ha|Ha]]];
    repeat split; intros; or_chain; first [reflexivity | congruence].
Qed.

Lemma head_date (ds : list value) :
  hd Undefined (List.map (fun d => get_prop d "date") (List.filter available ds)) =
  get_prop (anchorValue ds) "date".
Proof.
  unfold anchorValue. rewrite anchor_head_filter.
  destruct (List.filter available ds); reflexivity.
Qed.

(** X5: when no departure is [null], on inputs whose converted values
    are convertible, [departureDate] and [pricePerPerson] are read from
    the same departure, the anchor: its [date] (or the empty string)
    and its price (or 0); and [availableDates] is empty exactly when
    there is no anchor. *)
Theorem departure_date_from_anchor (ctx : TourContext) (raw : value) (ds : list value) :
  hasDeparturesList raw ds ->
  forallb present ds = true ->
  convertibleInputs ctx raw = true ->
  exists r,
    formatTourData ctx raw = Ok r /\
    departureDate r =
      match anchor ds with
      | Some a => or (get_prop a "date") (Str EmptyString)
      | None => Str EmptyString
      end /\
    pricePerPerson r =
      match anchor ds with
      | Some a => or (get_prop a "pricePerPerson") zero
      | None => zero
      end /\
    (availableDates r = [] <-> anchor ds = None).
Proof.
  intros Hd Hp _.
  exists (assemble ctx (scheduleOf raw) (derivedLocals ds)).
  split; [apply formatTourData_departures; assumption|].
  simpl. rewrite head_date. unfold priceOf, anchorValue.
  split; [destruct (anchor ds); reflexivity|].
  split; [destruct (anchor ds); reflexivity|].
  rewrite anchor_none_filter. split.
  - apply map_eq_nil.
  - intros ->. reflexivity.
Qed.

Lemma filter_available_twice (ds : list value) :
  List.filter available (List.filter available ds) = List.filter available ds.
Proof.
  induction ds as [|d ds IH]; simpl; [reflexivity|].
  destruct (available d) eqn:Hd; simpl; [rewrite Hd, IH|]; auto.
Qed.

Lemma derivedLocals_filter (ds : list value) :
  derivedLocals (List.filter available ds) = derivedLocals ds.
Proof.
  unfold derivedLocals, seatSum, anchorValue.
  rewrite !anchor_head_filter, !filter_available_twice. reflexivity.
Qed.

(** X6: sold-out departures have no influence on the availability
    facts: on inputs whose converted values are convertible, a schedule
    and the schedule with its sold-out departures removed resolve to
    the same dates, seats, price, tiers and departure date. *)
Theorem sold_out_departures_ignored
  (ctx : TourContext) (raw raw' : value) (ds : list value) :
  hasDeparturesList raw ds ->
  hasDeparturesList raw' (List.filter available ds) ->
  forallb present ds = true ->
  convertibleInputs ctx raw = true ->
  convertibleInputs ctx raw' = true ->
  exists r r',
    formatTourData ctx raw = Ok r /\ formatTourData ctx raw' = Ok r' /\
    availableDates r' = availableDates r /\
    seatsAvailable r' = seatsAvailable r /\
    pricePerPerson r' = pricePerPerson r /\
    pricingTiers r' = pricingTiers r /\
    departureDate r' = departureDate r.
Proof.
  intros Hd Hd' Hp _ _.
  exists (assemble ctx (scheduleOf raw) (derivedLocals ds)).
  exists (assemble ctx (scheduleOf raw') (derivedLocals (List.filter available ds))).
  split; [apply formatTourData_departures; assumption|].
  split; [apply formatTourData_departures;
          [assumption | apply forallb_filter, Hp]|].
  rewrite derivedLocals_filter. repeat split.
Qed.

Lemma fold_seats_from (l : list value) (acc : Z) :
  forallb seatsFalsyOrInt l = true ->
  fold_left (fun sum d => add sum (or (get_prop d "availableSeats") zero)) l
    (Num (Int acc)) =
  add (Num (Int acc))
    (fold_left (fun sum d => add sum (or (get_prop d "availableSeats") zero)) l zero).
Proof.
  intros H. rewrite (fold_seats l acc H).
  pose proof (fold_seats l 0 H) as H0. change (Num (Int 0)) with zero in H0.
  rewrite H0. reflexivity.
Qed.

(** X7: appending a second run of departures appends its available
    dates and, when the seats of the available departures are absent,
    falsy or numbers whose magnitudes add up to less than 2^53, adds
    its seats; on inputs whose converted values are convertible. *)
Theorem appended_departures
  (ctx : TourContext) (raw1 raw2 raw12 : value) (ds1 ds2 : list value) :
  hasDeparturesList raw1 ds1 ->
  hasDeparturesList raw2 ds2 ->
  hasDeparturesList raw12 (ds1 ++ ds2)%list ->
  forallb present (ds1 ++ ds2)%list = true ->
  forallb seatsFalsyOrInt (List.filter available (ds1 ++ ds2)%list) = true ->
  seatMagnitude (ds1 ++ ds2)%list < 9007199254740992 ->
  convertibleInputs ctx raw1 = true ->
  convertibleInputs ctx raw2 = true ->
  convertibleInputs ctx raw12 = true ->
  exists r1 r2 r12,
    formatTourData ctx raw1 = Ok r1 /\
    formatTourData ctx raw2 = Ok r2 /\
    formatTourData ctx raw12 = Ok r12 /\
    availableDates r12 = (availableDates r1 ++ availableDates r2)%list /\
    seatsAvailable r12 = add (seatsAvailable r1) (seatsAvailable r2).
Proof.
  intros H1 H2 H12 Hp Hs _ _ _ _.
  rewrite forallb_app in Hp. apply andb_prop in Hp as [Hp1 Hp2].
  rewrite filter_app, forallb_app in Hs. apply andb_prop in Hs as [Hs1 Hs2].
  exists (assemble ctx (scheduleOf raw1) (derivedLocals ds1)).
  exists (assemble ctx (scheduleOf raw2) (derivedLocals ds2)).
  exists (assemble ctx (scheduleOf raw12) (derivedLocals (ds1 ++ ds2)%list)).
  split; [apply formatTourData_departures; assumption|].
  split; [apply formatTourData_departures; assumption|].
  split; [apply formatTourData_departures;
          [assumption | rewrite forallb_app, Hp1, Hp2; reflexivity]|].
  simpl. unfold seatSum. rewrite filter_app, map_app, fold_left_app.
  split; [reflexivity|].
  pose proof (fold_seats _ 0 Hs1) as E1. change (Num (Int 0)) with zero in E1.
  rewrite E1. apply fold_seats_from, Hs2.
Qed.

(** ** The whole formatter and its callers *)

Lemma bind_ok {A B : Type} (m : result A) (k : A -> result B) (r : B) :
  bind m k = Ok r -> exists a, m = Ok a /\ k a = Ok r.
Proof. destruct m as [a|e]; simpl; [eauto | discriminate]. Qed.

Ltac bind_inv H :=
  repeat (let a := fresh "a" in
          let Ha := fresh "Ha" in
          apply bind_ok in H as [a [Ha H]]).

Lemma member_ok (v : value) (k : string) (x : value) :
  member v k = Ok x -> nullish v = false /\ x = get_prop v k.
Proof.
  unfold member. destruct (nullish v); [discriminate|].
  intros H. injection H as <-. auto.
Qed.

Lemma or_default_truthy (a b : value) : truthy b = true -> truthy (or a b) = true.
Proof. unfold or. destruct (truthy a) eqn:Ha; auto. Qed.

Lemma featuredImageOf_truthy (wpTour v : value) :
  featuredImageOf wpTour = Ok v -> truthy v = true.
Proof.
  unfold featuredImageOf. intros H.
  apply bind_ok in H as [embedded [_ H]].
  apply bind_ok in H as [hasMedia [_ H]].
  destruct hasMedia; [|injection H as <-; reflexivity].
  apply bind_ok in H as [embedded' [_ H]].
  apply bind_ok in H as [featured [_ H]].
  apply bind_ok in H as [source [_ H]].
  destruct (truthy source) eqn:Hs; [injection H as <-; exact Hs|].
  apply bind_ok in H as [details [_ H]].
  injection H as <-. apply or_default_truthy. reflexivity.
Qed.

Lemma pushUrls_truthy (imgs acc urls : list value) :
  pushUrls imgs acc = Ok urls ->
  Forall (fun u => truthy u = true) acc ->
  Forall (fun u => truthy u = true) urls.
Proof.
  revert acc. induction imgs as [|img rest IH]; simpl; intros acc H Hacc.
  - injection H as <-. exact Hacc.
  - apply bind_ok in H as [url [Hurl H]].
    destruct (truthy url) eqn:Ht; [|eauto].
    apply bind_ok in H as [url' [Hurl' H]].
    apply (IH _ H). apply Forall_app. split; [exact Hacc|].
    constructor; [|constructor]. congruence.
Qed.

Lemma galleryImagesOf_truthy (acf : value) (urls : list value) :
  galleryImagesOf acf = Ok urls -> Forall (fun u => truthy u = true) urls.
Proof.
  unfold galleryImagesOf. intros H.
  apply bind_ok in H as [gallery [_ H]].
  apply bind_ok in H as [isList [_ H]].
  destruct isList; [|injection H as <-; constructor].
  apply bind_ok in H as [gallery' [_ H]].
  destruct gallery'; try discriminate.
  apply (pushUrls_truthy _ _ _ H). constructor.
Qed.

Lemma arrayOr_array (v : value) : isArray (arrayOr v) = true.
Proof. unfold arrayOr. destruct (isArray v) eqn:E; [exact E | reflexivity]. Qed.

(** The parts a returned tour is made of. *)
Lemma formatWpTour_parts (wpTour : value) (t : FormattedTour) :
  formatWpTour wpTour = Ok t ->
  exists acf title featured,
    acfOf wpTour = Ok acf /\
    titleRendered wpTour = Ok title /\
    featuredImageOf wpTour = Ok featured /\
    featuredImage t = featured /\
    thumbnailImage t = or (get_prop acf "thumbnail") featured /\
    name t = or title (Str "Untitled Tour") /\
    galleryImagesOf acf = Ok (galleryImages t) /\
    destinationsOf wpTour = Ok (tourDestinations t) /\
    shortDescriptionOf wpTour acf = Ok (shortDescription t) /\
    (exists i, inclusions t = arrayOr i) /\
    (exists e, exclusions t = arrayOr e) /\
    (exists text, Lib.toStringMethod (get_prop wpTour "id") = Ok text /\
                  id t = Str text) /\
    formatTourData
      {| destinations := tourDestinations t;
         acf_location := get_prop acf "location";
         acf_duration := get_prop acf "duration";
         title_rendered := title |}
      (get_prop acf "departure_schedule") = Ok (scheduleFields t).
Proof.
  unfold formatWpTour. intros H. bind_inv H. injection H as <-.
  cbn [featuredImage thumbnailImage name galleryImages tourDestinations
       shortDescription inclusions exclusions id scheduleFields].
  repeat match goal with
         | Hm : member _ _ = Ok _ |- _ => apply member_ok in Hm as [? ->]
         end.
  eauto 20.
Qed.

(** X13: in every tour the formatter returns, the featured image, the
    thumbnail and the name are truthy, every gallery entry is a truthy
    url, [id] is a string, and [inclusions] and [exclusions] are
    arrays. *)
Theorem formatted_tour_shape (wpTour : value) (t : FormattedTour) :
  formatWpTour wpTour = Ok t ->
  truthy (featuredImage t) = true /\
  truthy (thumbnailImage t) = true /\
  truthy (name t) = true /\
  Forall (fun url => truthy url = true) (galleryImages t) /\
  Lib.isString (id t) = true /\
  isArray (inclusions t) = true /\
  isArray (exclusions t) = true.
Proof.
  intros H.
  destruct (formatWpTour_parts _ _ H)
    as (acf & title & featured & _ & _ & Hf & -> & -> & -> & Hg & _ & _ &
        [i ->] & [e ->] & [text [_ ->]] & _).
  pose proof (featuredImageOf_truthy _ _ Hf) as Hft.
  repeat split.
  - exact Hft.
  - apply or_default_truthy, Hft.
  - apply or_default_truthy. reflexivity.
  - apply (galleryImagesOf_truthy _ _ Hg).
  - apply arrayOr_array.
  - apply arrayOr_array.
Qed.

Lemma strip_has_gt (skipping : bool) (s : string) :
  Lib.has_gt (Lib.strip skipping s) = true -> Lib.has_gt s = true.
Proof.
  revert skipping. induction s as [|c rest IH]; intros skipping; simpl; [auto|].
  destruct skipping.
  - destruct (c =? ">")%char; [reflexivity|]. simpl. apply IH.
  - destruct ((c =? "<")%char && Lib.has_gt rest) eqn:Hm.
    + intros H. rewrite (IH _ H). apply orb_true_r.
    + simpl. destruct (c =? ">")%char; [reflexivity|]. simpl. apply IH.
Qed.

Lemma strip_tagFree (skipping : bool) (s : string) :
  Lib.tagFree (Lib.strip skipping s) = true.
Proof.
  revert skipping. induction s as [|c rest IH]; intros skipping; simpl; [reflexivity|].
  destruct skipping.
  - destruct (c =? ">")%char; apply IH.
  - destruct ((c =? "<")%char && Lib.has_gt rest) eqn:Hm; [apply IH|].
    simpl. rewrite IH, andb_true_r. apply negb_true_iff.
    destruct (c =? "<")%char; [|reflexivity]. simpl in *.
    destruct (Lib.has_gt (Lib.strip false rest)) eqn:Hg; [|reflexivity].
    rewrite (strip_has_gt _ _ Hg) in Hm. discriminate.
Qed.

Lemma prefix_has_gt (n : nat) (s : string) :
  Lib.has_gt (substring 0 n s) = true -> Lib.has_gt s = true.
Proof.
  revert n. induction s as [|c rest IH]; intros [|n]; simpl; try discriminate.
  destruct (c =? ">")%char; [reflexivity|]. simpl. apply IH.
Qed.

Lemma prefix_tagFree (n : nat) (s : string) :
  Lib.tagFree s = true -> Lib.tagFree (substring 0 n s) = true.
Proof.
  revert n. induction s as [|c rest IH]; intros [|n]; simpl; try reflexivity.
  intros H. apply andb_prop in H as [Hc Hr].
  rewrite (IH _ Hr), andb_true_r. apply negb_true_iff.
  apply negb_true_iff in Hc.
  destruct (c =? "<")%char; [|reflexivity]. simpl in *.
  destruct (Lib.has_gt (substring 0 n rest)) eqn:Hg; [|reflexivity].
  rewrite (prefix_has_gt _ _ Hg) in Hc. discriminate.
Qed.

Lemma prefix_length (n : nat) (s : string) :
  (String.length (substring 0 n s) <= n)%nat.
Proof.
  revert n. induction s as [|c rest IH]; intros [|n]; simpl; try lia.
  specialize (IH n). lia.
Qed.

Lemma acfOf_ok (wpTour acf : value) :
  acfOf wpTour = Ok acf -> acf = or (get_prop wpTour "acf") (Obj []).
Proof.
  unfold acfOf. intros H. apply bind_ok in H as [a [Ha H]].
  apply member_ok in Ha as [_ ->]. injection H as <-. reflexivity.
Qed.

(** X14: when [acf.short_description] is falsy, the short description
    of a returned tour is the first 200 characters of the rendered
    excerpt with its tags removed, or the empty string when there is no
    rendered excerpt: a string of at most 200 characters in which no
    [<] is followed by a [>]. *)
Theorem short_description_from_excerpt (wpTour : value) (t : FormattedTour) :
  formatWpTour wpTour = Ok t ->
  truthy (get_prop (or (get_prop wpTour "acf") (Obj [])) "short_description") = false ->
  exists s,
    shortDescription t = Str s /\
    s = match opt_member (get_prop wpTour "excerpt") "rendered" with
        | Str excerpt => substring 0 200 (Lib.stripTags excerpt)
        | _ => EmptyString
        end /\
    (String.length s <= 200)%nat /\
    Lib.tagFree s = true.
Proof.
  intros H Hshort.
  destruct (formatWpTour_parts _ _ H)
    as (acf & title & featured & Hacf & _ & _ & _ & _ & _ & _ & _ & Hsd & _).
  rewrite <- (acfOf_ok _ _ Hacf) in Hshort.
  unfold shortDescriptionOf in Hsd.
  apply bind_ok in Hsd as [short [Hm Hsd]].
  apply member_ok in Hm as [_ ->]. rewrite Hshort in Hsd.
  apply bind_ok in Hsd as [excerpt [Hexcerpt Hsd]].
  apply member_ok in Hexcerpt as [_ ->].
  destruct (opt_member (get_prop wpTour "excerpt") "rendered")
    as [| |b|n|s|l|p]; try discriminate; injection Hsd as <-.
  - exists EmptyString. repeat split; simpl; lia.
  - exists EmptyString. repeat split; simpl; lia.
  - exists (substring 0 200 (Lib.stripTags s)).
    split; [|split; [reflexivity | split]].
    + unfold or, truthy.
      destruct (substring 0 200 (Lib.stripTags s)); reflexivity.
    + apply prefix_length.
    + apply prefix_tagFree, strip_tagFree.
Qed.

(** X15: a tour whose [_embedded['wp:featuredmedia']] is truthy but has
    no first element (an empty list, a list starting with [null])
    cannot be formatted: the function throws. *)
Theorem missing_featured_media_throws (wpTour : value) :
  nullish wpTour = false ->
  truthy (get_prop wpTour "_embedded") = true ->
  truthy (get_prop (get_prop wpTour "_embedded") "wp:featuredmedia") = true ->
  nullish (get_first (get_prop (get_prop wpTour "_embedded") "wp:featuredmedia")) = true ->
  formatWpTour wpTour = Throw TypeError.
Proof.
  intros Hw He Hf Hm.
  assert (Hmem : forall k, member wpTour k = Ok (get_prop wpTour k))
    by (intros k; unfold member; rewrite Hw; reflexivity).
  assert (Hemb : member (get_prop wpTour "_embedded") "wp:featuredmedia" =
                 Ok (get_prop (get_prop wpTour "_embedded") "wp:featuredmedia")).
  { apply member_present, truthy_present, He. }
  assert (Hthrow : featuredImageOf wpTour = Throw TypeError).
  { unfold featuredImageOf. rewrite !Hmem. simpl. rewrite He.
    rewrite !Hemb. simpl. rewrite Hf.
    unfold member at 1. rewrite Hm. reflexivity. }
  unfold formatWpTour, acfOf. rewrite Hmem. simpl. rewrite Hthrow. reflexivity.
Qed.

(** X16: when the schedule gives no [metadata.location] and the joined
    destination names are not empty, the location of a returned tour
    is exactly the names of its [destinations], joined by [", "]. *)
Theorem location_from_destinations (wpTour : value) (t : FormattedTour) :
  formatWpTour wpTour = Ok t ->
  let raw := get_prop (or (get_prop wpTour "acf") (Obj [])) "departure_schedule" in
  truthy (opt_member (opt_member (scheduleOf raw) "metadata") "location") = false ->
  join ", " (tourDestinations t) <> EmptyString ->
  location (scheduleFields t) = Str (join ", " (tourDestinations t)).
Proof.
  intros H raw Hmeta Hjoin.
  destruct (formatWpTour_parts _ _ H)
    as (acf & title & featured & Hacf & _ & _ & _ & _ & _ & _ & _ & _ & _ & _ & _ & Hs).
  rewrite (acfOf_ok _ _ Hacf) in Hs. fold raw in Hs.
  destruct (returned_tour _ _ _ Hs) as [st ->].
  cbn [location assemble destinations].
  assert (Hj : truthy (Str (join ", " (tourDestinations t))) = true).
  { simpl. apply negb_true_iff, String.eqb_neq, Hjoin. }
  or_chain. reflexivity.
Qed.

Lemma formatAll_throws (f : value -> result FormattedTour) (l : list value) (x : value) :
  In x l -> f x = Throw TypeError -> formatAll f l = Throw TypeError.
Proof.
  intros Hin Hx. induction l as [|y rest IH]; [destruct Hin|].
  simpl. destruct Hin as [-> | Hin].
  - rewrite Hx. reflexivity.
  - destruct (f y) as [a|[]]; [|reflexivity]. simpl.
    rewrite (IH Hin). reflexivity.
Qed.

(** X17: one tour that cannot be formatted fails the whole listing:
    [getAllTours] is then rejected with the message
    ["Failed to fetch tours from WordPress"], whatever the other tours
    are. *)
Theorem one_bad_tour_fails_listing (response : value) (items : list value) (tour : value) :
  get_prop response "data" = Arr items ->
  In tour items ->
  formatWpTour tour = Throw TypeError ->
  getAllTours (Resolved response) = Rejected "Failed to fetch tours from WordPress".
Proof.
  intros Hdata Hin Hthrow.
  destruct (get_prop_array_inv _ _ _ Hdata) as [props ->].
  unfold getAllTours. rewrite (member_present (Obj props)) by reflexivity.
  rewrite Hdata. cbn [bind].
  rewrite (formatAll_throws _ _ _ Hin Hthrow). reflexivity.
Qed.

(** X18: [getTourById] resolves exactly when the response carries a
    truthy tour (the first element, for a list) that can be formatted;
    in every other case, a missing tour included, it is rejected with
    the message ["Failed to fetch tour details"]. *)
Theorem getTourById_outcome (response : outcome value) :
  (forall t,
     getTourById response = Resolved t <->
     exists resp,
       response = Resolved resp /\ nullish resp = false /\
       let data := get_prop resp "data" in
       let tourData := if isArray data then get_first data else data in
       truthy tourData = true /\ formatWpTour tourData = Ok t) /\
  ((forall t, getTourById response <> Resolved t) ->
   getTourById response = Rejected "Failed to fetch tour details").
Proof.
  split.
  - intros t. split.
    + destruct response as [resp|msg]; [|discriminate].
      unfold getTourById, member.
      destruct (nullish resp) eqn:Hn; [discriminate|].
      intros H. exists resp. split; [reflexivity|]. split; [exact Hn|].
      cbv zeta in *.
      destruct (truthy (if isArray (get_prop resp "data")
                        then get_first (get_prop resp "data")
                        else get_prop resp "data")); [|discriminate].
      split; [reflexivity|].
      destruct (formatWpTour _) as [t'|e]; [|discriminate].
      injection H as ->. reflexivity.
    + intros [resp [-> [Hn [Ht Hf]]]]. cbv zeta in *.
      unfold getTourById, member. rewrite Hn, Ht, Hf. reflexivity.
  - intros Hnone. destruct response as [resp|msg]; [|reflexivity].
    unfold getTourById in *. destruct (member resp "data") as [data|e]; [|reflexivity].
    cbv zeta in *.
    destruct (truthy (if isArray data then get_first data else data)); [|reflexivity].
    destruct (formatWpTour _) as [t'|e]; [|reflexivity].
    exfalso. apply (Hnone t'). reflexivity.
Qed.

End ScheduleResolver.

(** ** The theorems at concrete schedules *)

Import Examples.



Lemma textual_structured_equivalence_witness :
  Runtime.parse encodedSchedule = Some decodedSchedule /\
  formatTourData Runtime.parse Runtime.positive noContext (Str encodedSchedule) =
  formatTourData Runtime.parse Runtime.positive noContext decodedSchedule.
Proof.
  split; [vm_compute; reflexivity|].
  apply (textual_structured_equivalence Runtime.parse Runtime.positive noContext
           encodedSchedule decodedSchedule).
  - vm_compute; discriminate.
  - vm_compute; reflexivity.
  - reflexivity.
Defined.

Lemma anchor_price_and_tiers_witness :
  wellFormed anchorSelection = true /\
  exists r,
    formatTourData Runtime.parse Runtime.positive noContext (schedule anchorSelection) = Ok r /\
    pricePerPerson r = Num (Int 200) /\
    pricingTiers r = Arr [].
Proof.
  split; [reflexivity|].
  apply (anchor_price_and_tiers Runtime.parse Runtime.positive noContext
           (schedule anchorSelection) anchorSelection);
    reflexivity.
Defined.

Lemma addons_from_first_departure_witness :
  wellFormed soldOutFirst = true /\
  exists r,
    formatTourData Runtime.parse Runtime.positive noContext (schedule soldOutFirst) = Ok r /\
    addons r = Arr [Str "kayak"].
Proof.
  split; [reflexivity|].
  apply (addons_from_first_departure Runtime.parse Runtime.positive noContext
           (schedule soldOutFirst) soldOutFirst);
    reflexivity.
Defined.

Lemma supplements_from_first_departure_witness :
  wellFormed soldOutFirst = true /\
  exists r,
    formatTourData Runtime.parse Runtime.positive noContext (schedule soldOutFirst) = Ok r /\
    childWithBed r = Num (Int 500) /\
    childWithoutBed r = Num (Int 400) /\
    extraAdultSameRoom r = Num (Int 700) /\
    singleRoomSupplement r = Num (Int 250).
Proof.
  split; [reflexivity|].
  apply (supplements_from_first_departure Runtime.parse Runtime.positive noContext
           (schedule soldOutFirst) soldOutFirst);
    reflexivity.
Defined.

Lemma availableDates_filtered_witness :
  forallb isRecord seatAggregation = true /\
  exists r,
    formatTourData Runtime.parse Runtime.positive noContext (schedule seatAggregation) = Ok r /\
    availableDates r = [Str "2025-05-01"; Str "2025-05-15"] /\
    List.length (availableDates r) = 2%nat /\
    (forall x, In x (availableDates r) ->
       exists d, In d seatAggregation /\ available d = true /\ get_prop d "date" = x).
Proof.
  split; [reflexivity|].
  apply (availableDates_filtered Runtime.parse Runtime.positive noContext
           (schedule seatAggregation) seatAggregation);
    reflexivity.
Defined.

Lemma seatsAvailable_sum_witness :
  forallb isRecord seatAggregation = true /\
  forallb seatsFalsyOrInt (List.filter available seatAggregation) = true /\
  exists r,
    formatTourData Runtime.parse Runtime.positive noContext (schedule seatAggregation) = Ok r /\
    seatsAvailable r = Num (Int 8).
Proof.
  split; [reflexivity | split; [reflexivity|]].
  apply (seatsAvailable_sum Runtime.parse Runtime.positive noContext
           (schedule seatAggregation) seatAggregation);
    reflexivity.
Defined.

Lemma empty_dates_defaults_witness :
  exists r,
    formatTourData Runtime.parse Runtime.positive noContext (schedule allSoldOut) = Ok r /\
    availableDates r = [] /\
    seatsAvailable r = zero /\ pricePerPerson r = zero /\ pricingTiers r = Arr [].
Proof.
  exists (assemble noContext (schedule allSoldOut)
            (derivedLocals Runtime.positive allSoldOut)).
  split; [reflexivity | split; [reflexivity|]].
  apply (empty_dates_defaults Runtime.parse Runtime.positive noContext
           (schedule allSoldOut));
    reflexivity.
Defined.

Lemma travelers_parsed_witness :
  exists r,
    formatTourData Runtime.parse Runtime.positive noContext withMetadata = Ok r /\
    minTravelers r = Int 4 /\ maxTravelers r = Int 30.
Proof.
  exists (assemble noContext withMetadata initialLocals).
  split; [reflexivity|].
  apply (travelers_parsed Runtime.parse Runtime.positive noContext withMetadata).
  reflexivity.
Defined.

(** ** Where the code departs from the specification's wording *)

(** C1 as stated fails: with a single sold-out departure carrying a
    child supplement, [availableDates] is empty and yet [childWithBed]
    is 500. *)
Lemma empty_dates_supplement_counterexample :
  exists r,
    formatTourData Runtime.parse Runtime.positive noContext (schedule allSoldOut) = Ok r /\
    availableDates r = [] /\
    childWithBed r = Num (Int 500) /\
    childWithBed r <> zero.
Proof.
  eexists. split; [reflexivity|]. simpl.
  repeat split. discriminate.
Qed.

(** C2 as stated fails: the first departure is sold out, the anchor is
    the second one, and the supplements are those of the first. *)
Lemma supplements_anchor_counterexample :
  exists r a,
    wellFormed soldOutFirst = true /\
    formatTourData Runtime.parse Runtime.positive noContext (schedule soldOutFirst) = Ok r /\
    anchor soldOutFirst = Some a /\
    numberOrZero (get_prop a "childWithBed") = Num (Int 300) /\
    childWithBed r = Num (Int 500) /\
    childWithBed r <> numberOrZero (get_prop a "childWithBed").
Proof.
  eexists. eexists. split; [reflexivity|]. split; [reflexivity|]. simpl.
  repeat split. discriminate.
Qed.

(** C4 as stated fails: the date of a sold-out departure appears in
    [availableDates] when an open departure has the same date. *)
Lemma sold_out_date_counterexample :
  exists r d,
    wellFormed sameDate = true /\
    formatTourData Runtime.parse Runtime.positive noContext (schedule sameDate) = Ok r /\
    In d sameDate /\
    get_prop d "status" = Str "sold_out" /\
    In (get_prop d "date") (availableDates r).
Proof.
  eexists. exists (hd Undefined sameDate).
  split; [reflexivity|]. split; [reflexivity|]. simpl.
  repeat split; auto.
Qed.

(** C5 as stated fails: a non-numeric [availableSeats] does not count
    as 0; the string is appended to the running sum. *)
Lemma textual_seats_counterexample :
  exists r,
    forallb isRecord textualSeats = true /\
    formatTourData Runtime.parse Runtime.positive noContext (schedule textualSeats) = Ok r /\
    seatTotal textualSeats = 0 /\
    seatsAvailable r = Str "0many" /\
    seatsAvailable r <> Num (Int (seatTotal textualSeats)).
Proof.
  eexists. split; [reflexivity|]. split; [reflexivity|]. simpl.
  repeat split. discriminate.
Qed.

(** C8 as stated fails: a [minTravelers] that does not parse as an
    integer gives [NaN], not the default 1. *)
Lemma unparsable_travelers_counterexample :
  exists r,
    formatTourData Runtime.parse Runtime.positive noContext wordyMetadata = Ok r /\
    get_prop (get_prop wordyMetadata "metadata") "minTravelers" = Str "two" /\
    parseInt (Str "two") = NaN /\
    minTravelers r = NaN /\
    minTravelers r <> Int 1.
Proof.
  eexists. split; [reflexivity|]. simpl.
  repeat split. discriminate.
Qed.

(** ** Key-case conversion *)

Import Casing.

Lemma upper_lower (c : ascii) :
  is_upper c = true -> is_lower (lower c) = true /\ upper (lower c) = c.
Proof.
  destruct c as [[] [] [] [] [] [] [] []]; intros H; try discriminate H;
    split; reflexivity.
Qed.

Lemma lower_upper (c : ascii) :
  is_lower c = true -> is_upper (upper c) = true /\ lower (upper c) = c.
Proof.
  destruct c as [[] [] [] [] [] [] [] []]; intros H; try discriminate H;
    split; reflexivity.
Qed.

Lemma upper_not_lower (c : ascii) : is_upper c = true -> is_lower c = false.
Proof.
  destruct c as [[] [] [] [] [] [] [] []]; intros H; try discriminate H; reflexivity.
Qed.

Lemma underscore_not_upper (c : ascii) : (c =? "_")%char = true -> is_upper c = false.
Proof. intros H. apply Ascii.eqb_eq in H. subst. reflexivity. Qed.

Lemma snakeKey_head (k : string) :
  match snakeKey k, k with
  | String c' _, String c _ => if is_upper c then c' = "_"%char else c' = c
  | EmptyString, EmptyString => True
  | _, _ => False
  end.
Proof. destruct k as [|c rest]; simpl; [exact I|]. destruct (is_upper c); reflexivity. Qed.

Lemma camel_of_snake (k : string) :
  noUnderscoreLower k = true -> camelKey (snakeKey k) = k.
Proof.
  induction k as [|c rest IH]; [reflexivity|].
  intros Hclean. cbn [noUnderscoreLower] in Hclean.
  apply andb_prop in Hclean as [Hhead Hrest]. specialize (IH Hrest).
  cbn [snakeKey]. destruct (is_upper c) eqn:Hc.
  - destruct (upper_lower c Hc) as [Hl Hu].
    cbn [camelKey]. rewrite Hl. simpl. rewrite Hu, IH. reflexivity.
  - pose proof (snakeKey_head rest) as Hs.
    cbn [camelKey]. destruct (snakeKey rest) as [|c' rest'] eqn:Hsn.
    + destruct rest; [reflexivity | contradiction].
    + destruct rest as [|c2 rest2]; [contradiction|].
      replace ((c =? "_")%char && is_lower c') with false; [rewrite IH; reflexivity|].
      symmetry. destruct (c =? "_")%char eqn:Hu; [|reflexivity]. simpl.
      destruct (is_upper c2) eqn:Hc2.
      * subst c'. reflexivity.
      * subst c'. simpl in Hhead.
        destruct (is_lower c2); [discriminate | reflexivity].
Qed.

Lemma camelKey_step (c c' : ascii) (rest' : string) :
  camelKey (String c (String c' rest')) =
  if (c =? "_")%char && is_lower c'
  then String (upper c') (camelKey rest')
  else String c (camelKey (String c' rest')).
Proof. reflexivity. Qed.

Lemma snakeKey_camelKey_bounded (n : nat) :
  forall k, (String.length k <= n)%nat -> noUpper k = true ->
            snakeKey (camelKey k) = k.
Proof.
  induction n as [|n IH]; intros k Hlen Hk.
  - destruct k; [reflexivity | simpl in Hlen; lia].
  - destruct k as [|c [|c' rest']]; [reflexivity | |].
    + simpl in *. rewrite andb_true_r in Hk.
      apply negb_true_iff in Hk. rewrite Hk. reflexivity.
    + cbn [noUpper] in Hk.
      apply andb_prop in Hk as [Hc Hk]. apply negb_true_iff in Hc.
      rewrite camelKey_step.
      destruct ((c =? "_")%char && is_lower c') eqn:Hmatch.
      * apply andb_prop in Hmatch as [Hu Hl]. apply Ascii.eqb_eq in Hu. subst c.
        destruct (lower_upper c' Hl) as [Hup Hlow].
        cbn [snakeKey]. rewrite Hup, Hlow.
        cbn [noUpper] in Hk. apply andb_prop in Hk as [_ Hk].
        rewrite (IH rest'); [reflexivity | simpl in Hlen; lia | exact Hk].
      * cbn [snakeKey]. rewrite Hc.
        rewrite (IH (String c' rest')); [reflexivity | simpl in *; lia | exact Hk].
Qed.

Lemma upper_not_lower' (c : ascii) : is_lower c = true -> is_lower (upper c) = false.
Proof.
  destruct c as [[] [] [] [] [] [] [] []]; intros H; try discriminate H; reflexivity.
Qed.

Lemma upper_not_underscore (c : ascii) : is_lower c = true -> (upper c =? "_")%char = false.
Proof.
  destruct c as [[] [] [] [] [] [] [] []]; intros H; try discriminate H; reflexivity.
Qed.

(** The first character of a converted key is the key's own first
    character or an upper-case letter. *)
Lemma camelKey_head (c : ascii) (rest : string) :
  exists h t, camelKey (String c rest) = String h t /\ (h = c \/ is_lower h = false).
Proof.
  destruct rest as [|c' rest']; [simpl; eauto | rewrite camelKey_step].
  destruct ((c =? "_")%char && is_lower c') eqn:Hmatch; [|eauto].
  apply andb_prop in Hmatch as [_ Hl].
  exists (upper c'), (camelKey rest'). split; [reflexivity|].
  right. apply upper_not_lower', Hl.
Qed.

Lemma camelKey_clean_bounded (n : nat) :
  forall k, (String.length k <= n)%nat -> noUnderscoreLower (camelKey k) = true.
Proof.
  induction n as [|n IH]; intros k Hlen.
  - destruct k; [reflexivity | simpl in Hlen; lia].
  - destruct k as [|c [|c' rest']]; [reflexivity | reflexivity |].
    rewrite camelKey_step.
    destruct ((c =? "_")%char && is_lower c') eqn:Hmatch.
    + apply andb_prop in Hmatch as [_ Hl].
      cbn [noUnderscoreLower]. rewrite (upper_not_underscore _ Hl).
      rewrite (IH rest') by (simpl in Hlen; lia).
      destruct (camelKey rest'); reflexivity.
    + cbn [noUnderscoreLower].
      rewrite (IH (String c' rest')) by (simpl in *; lia).
      destruct (camelKey_head c' rest') as [h [t [-> Hh]]].
      rewrite andb_true_r. apply negb_true_iff.
      destruct (c =? "_")%char eqn:Hu; [|reflexivity]. simpl in *.
      destruct Hh as [-> | Hh]; assumption.
Qed.

Lemma camelKey_clean (k : string) : noUnderscoreLower (camelKey k) = true.
Proof. apply (camelKey_clean_bounded (String.length k)). lia. Qed.

Lemma lower_not_upper (c : ascii) : is_upper c = true -> is_upper (lower c) = false.
Proof.
  destruct c as [[] [] [] [] [] [] [] []]; intros H; try discriminate H; reflexivity.
Qed.

Lemma snakeKey_noUpper (k : string) : noUpper (snakeKey k) = true.
Proof.
  induction k as [|c rest IH]; [reflexivity|].
  cbn [snakeKey]. destruct (is_upper c) eqn:Hc; cbn [noUpper].
  - rewrite (lower_not_upper c Hc), IH. reflexivity.
  - rewrite Hc, IH. reflexivity.
Qed.

(** X8: converting a key to snake case and back gives the key again
    exactly for the keys in which no underscore is directly followed by
    a lower-case letter. *)
Theorem camelKey_snakeKey (k : string) :
  camelKey (snakeKey k) = k <-> noUnderscoreLower k = true.
Proof.
  split.
  - intros Hback. rewrite <- Hback. apply camelKey_clean.
  - apply camel_of_snake.
Qed.

(** X9: converting a key to camel case and back gives the key again
    exactly for the keys without an upper-case letter. *)
Theorem snakeKey_camelKey (k : string) :
  snakeKey (camelKey k) = k <-> noUpper k = true.
Proof.
  split.
  - intros Hback. rewrite <- Hback. apply snakeKey_noUpper.
  - apply (snakeKey_camelKey_bounded (String.length k)). lia.
Qed.

(** X10: no key is converted to ["__proto__"] by [toCamelCase]'s key
    conversion, and the conversion is idempotent. *)
Theorem camelKey_never_proto (k : string) :
  camelKey k <> "__proto__" /\ camelKey (camelKey k) = camelKey k.
Proof.
  split.
  - intros H. pose proof (camelKey_clean k) as Hc. rewrite H in Hc. discriminate Hc.
  - pose proof (camelKey_clean k) as Hc. revert Hc. generalize (camelKey k).
    clear k. intros k. induction k as [|c rest IH]; [reflexivity|].
    cbn [noUnderscoreLower]. intros H. apply andb_prop in H as [Hh Hr].
    destruct rest as [|c' rest']; [reflexivity|].
    rewrite camelKey_step.
    apply negb_true_iff in Hh. rewrite Hh. rewrite (IH Hr). reflexivity.
Qed.

Lemma camelKey_id (k : string) : noUnderscoreLower k = true -> camelKey k = k.
Proof.
  induction k as [|c rest IH]; [reflexivity|].
  cbn [noUnderscoreLower]. intros H. apply andb_prop in H as [Hh Hr].
  destruct rest as [|c' rest']; [reflexivity|].
  rewrite camelKey_step.
  apply negb_true_iff in Hh. rewrite Hh. rewrite (IH Hr). reflexivity.
Qed.

(** Structural induction on values, through arrays and objects. *)
Lemma value_induction (P : value -> Prop) :
  P Undefined -> P Null -> (forall b, P (Bool b)) -> (forall n, P (Num n)) ->
  (forall s, P (Str s)) ->
  (forall l, Forall P l -> P (Arr l)) ->
  (forall props, Forall (fun entry => P (snd entry)) props -> P (Obj props)) ->
  forall v, P v.
Proof.
  intros HU HN HB HNum HS HA HO.
  exact (fix F (v : value) : P v :=
           match v with
           | Undefined => HU
           | Null => HN
           | Bool b => HB b
           | Num n => HNum n
           | Str s => HS s
           | Arr l =>
               HA l ((fix G (l : list value) : Forall P l :=
                        match l with
                        | [] => Forall_nil P
                        | x :: t => Forall_cons x (F x) (G t)
                        end) l)
           | Obj props =>
               HO props
                 ((fix G (l : list (string * value))
                     : Forall (fun entry => P (snd entry)) l :=
                     match l with
                     | [] => Forall_nil _
                     | e :: t => Forall_cons e (F (snd e)) (G t)
                     end) props)
           end).
Qed.

Lemma lookup_absent (k : string) (props : list (string * value)) :
  existsb (String.eqb k) (List.map fst props) = false -> lookup k props = None.
Proof.
  induction props as [|[k' v] rest IH]; simpl; [reflexivity|].
  intros H. apply orb_false_iff in H as [Hk Hrest].
  rewrite Hk. apply IH, Hrest.
Qed.

Lemma distinct_app_head (l1 l2 : list string) (k : string) :
  distinct (l1 ++ k :: l2) = true -> existsb (String.eqb k) l1 = false.
Proof.
  induction l1 as [|a l1 IH]; simpl; [reflexivity|].
  intros H. apply andb_prop in H as [Ha Hd].
  rewrite (IH Hd), orb_false_r.
  apply negb_true_iff in Ha. rewrite existsb_app in Ha.
  apply orb_false_iff in Ha as [_ Ha]. simpl in Ha.
  apply orb_false_iff in Ha as [Ha _].
  rewrite String.eqb_sym. exact Ha.
Qed.

Lemma fold_assign_append
  (fk : string -> string) (fv : value -> value)
  (props acc : list (string * value)) :
  distinct (List.map fst acc ++ List.map (fun e => fk (fst e)) props) = true ->
  forallb (fun e => negb (isIndex (fk (fst e)))) props = true ->
  fold_left (fun o entry => let '(key, v) := entry in assign o (fk key) (fv v))
    props acc =
  (acc ++ List.map (fun e => (fk (fst e), fv (snd e))) props)%list.
Proof.
  revert acc. induction props as [|[k v] rest IH]; intros acc Hd Hi.
  - simpl. rewrite app_nil_r. reflexivity.
  - simpl in Hi. apply andb_prop in Hi as [Hk Hi].
    cbn [List.map fst] in Hd.
    cbn [fold_left List.map fst snd].
    assert (Hassign : assign acc (fk k) (fv v) = (acc ++ [(fk k, fv v)])%list).
    { unfold assign.
      rewrite (lookup_absent _ _ (distinct_app_head _ _ _ Hd)).
      unfold isIndex in Hk. destruct (index_of (fk k)); [discriminate | reflexivity]. }
    rewrite Hassign, IH; [rewrite <- app_assoc; reflexivity | | exact Hi].
    rewrite map_app, <- app_assoc. exact Hd.
Qed.

Lemma fold_assign_map
  (fk : string -> string) (fv : value -> value) (props : list (string * value)) :
  distinct (List.map (fun e => fk (fst e)) props) = true ->
  forallb (fun e => negb (isIndex (fk (fst e)))) props = true ->
  fold_left (fun o entry => let '(key, v) := entry in assign o (fk key) (fv v))
    props [] =
  List.map (fun e => (fk (fst e), fv (snd e))) props.
Proof. intros Hd Hi. exact (fold_assign_append fk fv props [] Hd Hi). Qed.

Lemma toCamelCase_object (props : list (string * value)) :
  distinct (List.map (fun e => camelKey (fst e)) props) = true ->
  forallb (fun e => negb (isIndex (camelKey (fst e)))) props = true ->
  toCamelCase (Obj props) =
  Obj (List.map (fun e => (camelKey (fst e), camelValue (snd e))) props).
Proof.
  intros Hd Hi. exact (f_equal Obj (fold_assign_map camelKey camelValue props Hd Hi)).
Qed.

Lemma toSnakeCase_object (props : list (string * value)) :
  distinct (List.map (fun e => snakeKey (fst e)) props) = true ->
  forallb (fun e => negb (isIndex (snakeKey (fst e)))) props = true ->
  toSnakeCase (Obj props) =
  Obj (List.map (fun e => (snakeKey (fst e), snakeValue (snd e))) props).
Proof.
  intros Hd Hi. exact (f_equal Obj (fold_assign_map snakeKey snakeValue props Hd Hi)).
Qed.

Lemma isIndex_digits (k : string) :
  isIndex k = true -> forallb Runtime.is_digit (list_ascii_of_string k) = true.
Proof.
  unfold isIndex, index_of, canonical_numeral.
  destruct k as [|c rest]; [discriminate|].
  destruct (forallb Runtime.is_digit (list_ascii_of_string (String c rest)));
    [reflexivity | discriminate].
Qed.

Lemma snakeKey_digits (k : string) :
  forallb Runtime.is_digit (list_ascii_of_string (snakeKey k)) = true ->
  snakeKey k = k.
Proof.
  induction k as [|c rest IH]; [reflexivity|].
  cbn [snakeKey]. destruct (is_upper c).
  - simpl. discriminate.
  - cbn [list_ascii_of_string forallb]. intros H.
    apply andb_prop in H as [_ H]. rewrite (IH H). reflexivity.
Qed.

Lemma isIndex_snakeKey (k : string) :
  isIndex k = false -> isIndex (snakeKey k) = false.
Proof.
  intros Hk. destruct (isIndex (snakeKey k)) eqn:E; [|reflexivity].
  rewrite (snakeKey_digits k (isIndex_digits _ E)) in E. congruence.
Qed.

Lemma distinct_map (f : string -> string) (ks : list string) :
  (forall a b, In a ks -> In b ks -> f a = f b -> a = b) ->
  distinct ks = true -> distinct (List.map f ks) = true.
Proof.
  induction ks as [|k rest IH]; [reflexivity|].
  intros Hinj Hd. cbn [distinct List.map] in *.
  apply andb_prop in Hd as [Hk Hrest].
  rewrite IH; [|intros a b Ha Hb; apply Hinj; right; assumption | exact Hrest].
  rewrite andb_true_r. apply negb_true_iff.
  destruct (existsb (String.eqb (f k)) (List.map f rest)) eqn:E; [|reflexivity].
  apply existsb_exists in E as [x [Hx Heq]].
  apply String.eqb_eq in Heq. apply in_map_iff in Hx as [b [Hb Hin]]. subst x.
  assert (k = b) by (apply Hinj; [left; reflexivity | right; exact Hin | congruence]).
  subst b. apply negb_true_iff in Hk.
  assert (existsb (String.eqb k) rest = true)
    by (apply existsb_exists; exists k; split; [exact Hin | apply String.eqb_refl]).
  congruence.
Qed.

Lemma camelName_parts (k : string) :
  camelName k = true ->
  noUnderscoreLower k = true /\ isIndex k = false /\ snakeKey k <> "__proto__".
Proof.
  unfold camelName. intros H.
  apply andb_prop in H as [H Hp]. apply andb_prop in H as [Hc Hi].
  apply negb_true_iff in Hi. apply negb_true_iff in Hp.
  apply String.eqb_neq in Hp. auto.
Qed.

Lemma camelRecord_object (props : list (string * value)) :
  camelRecord (Obj props) = true ->
  distinct (List.map fst props) = true /\
  forall e, In e props -> camelName (fst e) = true /\ camelRecord (snd e) = true.
Proof.
  cbn [camelRecord]. intros H. apply andb_prop in H as [Hd Hall].
  split; [exact Hd|]. intros [k x] Hin.
  rewrite forallb_forall in Hall. specialize (Hall _ Hin). simpl in Hall.
  apply andb_prop in Hall. exact Hall.
Qed.

Lemma camelValue_id (v : value) :
  (camelRecord v = true -> toCamelCase v = v) -> camelRecord v = true ->
  camelValue v = v.
Proof.
  intros IH Hv. unfold camelValue.
  destruct (typeof v); [reflexivity | auto | reflexivity | reflexivity | reflexivity].
Qed.

(** [toCamelCase] changes nothing in a value whose objects all have
    distinct camel-case names as keys. *)
Lemma toCamelCase_id (v : value) : camelRecord v = true -> toCamelCase v = v.
Proof.
  induction v as [| | b | n | s | l IH | props IH] using value_induction;
    try reflexivity; intros Hv.
  - cbn [toCamelCase]. f_equal. cbn [camelRecord] in Hv.
    rewrite forallb_forall in Hv. rewrite Forall_forall in IH.
    rewrite <- (map_id l) at 2. apply map_ext_in. auto.
  - destruct (camelRecord_object _ Hv) as [Hd Hall].
    rewrite Forall_forall in IH.
    assert (Hkeys : List.map (fun e : string * value => camelKey (fst e)) props =
                    List.map fst props).
    { apply map_ext_in. intros e He.
      apply camelKey_id, (camelName_parts _ (proj1 (Hall e He))). }
    rewrite toCamelCase_object.
    + f_equal. rewrite <- (map_id props) at 2. apply map_ext_in.
      intros [k x] He. cbn [fst snd].
      destruct (Hall _ He) as [Hk Hx]. cbn [fst snd] in *.
      rewrite (camelKey_id k) by apply (camelName_parts _ Hk).
      rewrite (camelValue_id x); [reflexivity | apply (IH _ He) | exact Hx].
    + rewrite Hkeys. exact Hd.
    + apply forallb_forall. intros e He.
      rewrite (camelKey_id (fst e)) by apply (camelName_parts _ (proj1 (Hall e He))).
      apply negb_true_iff, (camelName_parts _ (proj1 (Hall e He))).
Qed.

Lemma snake_keys_distinct (props : list (string * value)) :
  distinct (List.map fst props) = true ->
  (forall e, In e props -> camelName (fst e) = true) ->
  distinct (List.map (fun e => snakeKey (fst e)) props) = true.
Proof.
  intros Hd Hall. rewrite <- (map_map fst snakeKey).
  apply distinct_map; [|exact Hd].
  intros a b Ha Hb Heq.
  apply in_map_iff in Ha as [ea [<- Ha]]. apply in_map_iff in Hb as [eb [<- Hb]].
  rewrite <- (camel_of_snake (fst ea)), <- (camel_of_snake (fst eb)).
  - rewrite Heq. reflexivity.
  - apply (camelName_parts _ (Hall _ Hb)).
  - apply (camelName_parts _ (Hall _ Ha)).
Qed.

Lemma snake_keys_not_index (props : list (string * value)) :
  (forall e, In e props -> camelName (fst e) = true) ->
  forallb (fun e => negb (isIndex (snakeKey (fst e)))) props = true.
Proof.
  intros Hall. apply forallb_forall. intros e He.
  apply negb_true_iff, isIndex_snakeKey, (camelName_parts _ (Hall _ He)).
Qed.

(** X11: a value whose objects, at every depth, have distinct keys
    that are not array indices, have no underscore directly before a
    lower-case letter and are not converted to ["__proto__"] (so are
    neither ["__proto__"] nor ["_Proto__"]) survives the round trip
    through [toSnakeCase] and back through [toCamelCase] unchanged. *)
Theorem toCamelCase_toSnakeCase (v : value) :
  camelRecord v = true -> toCamelCase (toSnakeCase v) = v.
Proof.
  induction v as [| | b | n | s | l IH | props IH] using value_induction;
    try reflexivity; intros Hv.
  - cbn [toSnakeCase toCamelCase]. f_equal. rewrite map_map.
    cbn [camelRecord] in Hv.
    rewrite forallb_forall in Hv. rewrite Forall_forall in IH.
    rewrite <- (map_id l) at 2. apply map_ext_in. auto.
  - destruct (camelRecord_object _ Hv) as [Hd Hall].
    rewrite Forall_forall in IH.
    assert (Hnames : forall e, In e props -> camelName (fst e) = true)
      by (intros e He; apply (Hall e He)).
    rewrite toSnakeCase_object
      by auto using snake_keys_distinct, snake_keys_not_index.
    assert (Hback : List.map
                      (fun e : string * value => camelKey (fst e))
                      (List.map (fun e => (snakeKey (fst e), snakeValue (snd e))) props) =
                    List.map fst props).
    { rewrite map_map. apply map_ext_in. intros e He. cbn [fst].
      apply camel_of_snake, (camelName_parts _ (Hnames e He)). }
    rewrite toCamelCase_object.
    + f_equal. rewrite map_map. rewrite <- (map_id props) at 2.
      apply map_ext_in. intros [k x] He. cbn [fst snd].
      destruct (Hall _ He) as [Hk Hx]. cbn [fst snd] in *.
      rewrite (camel_of_snake k) by apply (camelName_parts _ Hk).
      f_equal. specialize (IH _ He Hx). cbn [snd] in IH.
      destruct x as [| | b | n | s | l | p]; try reflexivity.
      * unfold snakeValue. cbn [typeof isArray]. unfold camelValue. cbn [typeof].
        apply toCamelCase_id, Hx.
      * unfold snakeValue. cbn [typeof isArray].
        unfold camelValue. cbn [toSnakeCase typeof]. exact IH.
    + rewrite Hback. exact Hd.
    + apply forallb_forall. intros e He.
      apply in_map_iff in He as [e0 [<- He0]]. cbn [fst].
      rewrite (camel_of_snake (fst e0)) by apply (camelName_parts _ (Hnames _ He0)).
      apply negb_true_iff, (camelName_parts _ (Hnames _ He0)).
Qed.

Lemma snakeValue_cases (v : value) :
  snakeValue v = if isArray v then v else toSnakeCase v.
Proof. destruct v; reflexivity. Qed.

Lemma lookup_converted
  (fk : string -> string) (fv : value -> value)
  (props : list (string * value)) (k : string) (v : value) :
  (forall a b, In a (List.map fst props) -> In b (List.map fst props) ->
               fk a = fk b -> a = b) ->
  lookup k props = Some v ->
  lookup (fk k) (List.map (fun e => (fk (fst e), fv (snd e))) props) = Some (fv v).
Proof.
  induction props as [|[k' v'] rest IH]; simpl; [discriminate|].
  intros Hinj Hl.
  destruct (String.eqb_spec k k') as [->|Hne].
  - injection Hl as ->. rewrite String.eqb_refl. reflexivity.
  - assert (Hk : In k (List.map fst rest)).
    { clear - Hl. induction rest as [|[a b] r IHr]; simpl in *; [discriminate|].
      destruct (String.eqb_spec k a); [left; congruence | right; auto]. }
    destruct (String.eqb_spec (fk k) (fk k')) as [Heq|_].
    + exfalso. apply Hne. apply Hinj; auto.
    + apply IH; [|exact Hl]. intros a b Ha Hb. apply Hinj; auto.
Qed.

(** X12: in an object with distinct camel-case names as keys,
    [toSnakeCase] stores each property under its snake-case key;
    the value is converted in turn, unless it is an array, which is
    stored as it is, the keys inside it unconverted. *)
Theorem toSnakeCase_property (props : list (string * value)) (k : string) (v : value) :
  distinct (List.map fst props) = true ->
  forallb (fun e => camelName (fst e)) props = true ->
  lookup k props = Some v ->
  get_prop (toSnakeCase (Obj props)) (snakeKey k) =
  if isArray v then v else toSnakeCase v.
Proof.
  intros Hd Hnames Hl. rewrite forallb_forall in Hnames.
  rewrite toSnakeCase_object
    by auto using snake_keys_distinct, snake_keys_not_index.
  cbn [get_prop].
  rewrite (lookup_converted snakeKey snakeValue props k v); [apply snakeValue_cases| |exact Hl].
  intros a b Ha Hb Heq.
  apply in_map_iff in Ha as [ea [<- Ha]]. apply in_map_iff in Hb as [eb [<- Hb]].
  rewrite <- (camel_of_snake (fst ea)), <- (camel_of_snake (fst eb)).
  - rewrite Heq. reflexivity.
  - apply (camelName_parts _ (Hnames _ Hb)).
  - apply (camelName_parts _ (Hnames _ Ha)).
Qed.

(** ** The booking service and the routes *)

Ltac bind_inv H :=
  repeat (let a := fresh "a" in
          let Ha := fresh "Ha" in
          apply bind_ok in H as [a [Ha H]]).

Lemma whenSet_cases (filters : value) (key : string) (mk : value -> Booking.clause)
  (query query' : list Booking.clause) :
  Booking.whenSet filters key mk query = Ok query' ->
  nullish filters = false /\
  query' = (if truthy (get_prop filters key)
            then query ++ [mk (get_prop filters key)] else query)%list.
Proof.
  unfold Booking.whenSet, member. destruct (nullish filters); [discriminate|].
  simpl. destruct (truthy (get_prop filters key)); intros H; injection H as <-; auto.
Qed.





Lemma find_fulfilled
  (StringToNumber : string -> number) (db : Booking.Database)
  (filters options : value) (found : list (string * Booking.field)) :
  Booking.find StringToNumber db filters options = Booking.Fulfilled found ->
  exists query page limit rows,
    Booking.findQuery StringToNumber filters options = Ok (query, page, limit) /\
    truthy (Booking.response_error (db query)) = false /\
    Booking.response_data (db query) = Arr rows /\
    found =
      [ ("bookings", Booking.Plain (Arr (List.map Casing.toCamelCase rows)));
        ("total", Booking.Plain (Booking.response_count (db query)));
        ("page", Booking.Plain page);
        ("limit", Booking.Plain limit);
        ("pages",
         Booking.Rounded
           (Booking.ceil_div
              (Booking.to_number StringToNumber (Booking.response_count (db query)))
              (Booking.to_number StringToNumber limit))) ].
Proof.
  unfold Booking.find.
  destruct (Booking.findQuery StringToNumber filters options)
    as [[[query page] limit]|e]; [|discriminate].
  destruct (truthy (Booking.response_error (db query))) eqn:He; [discriminate|].
  unfold Booking.camelRows.
  destruct (Booking.response_data (db query)) as [| |b|n|s|rows|props] eqn:Hd;
    try discriminate.
  simpl. intros H. injection H as <-.
  exists query, page, limit, rows. auto.
Qed.

(** X20: when [find] succeeds with a numeric [total] of at least 0
    and a positive numeric [limit], both below 2^26, [pages] is the
    least number of pages of [limit] rows that hold [total] rows. *)
Theorem find_pages_cover_total
  (StringToNumber : string -> number) (db : Booking.Database)
  (filters options : value) (found : list (string * Booking.field)) (c l : Z) :
  Booking.find StringToNumber db filters options = Booking.Fulfilled found ->
  Booking.property found "total" = Some (Booking.Plain (Num (Int c))) ->
  Booking.property found "limit" = Some (Booking.Plain (Num (Int l))) ->
  0 <= c < 67108864 -> 0 < l < 67108864 ->
  exists n,
    Booking.property found "pages" = Some (Booking.Rounded (Booking.Finite n)) /\
    (n - 1) * l < c <= n * l.
Proof.
  intros H Ht Hl [Hc _] [Hlpos _].
  destruct (find_fulfilled _ _ _ _ _ H)
    as (query & page & limit & rows & _ & _ & _ & ->).
  simpl in Ht, Hl. injection Ht as Ht. injection Hl as Hl.
  exists (- (- c / l)). simpl. rewrite Ht, Hl. simpl.
  destruct (Z.eqb_spec l 0) as [->|_]; [lia|].
  pose proof (Z.div_mod (- c) l ltac:(lia)) as Hdm.
  pose proof (Z.mod_pos_bound (- c) l Hlpos) as Hmod.
  split; [reflexivity | nia].
Qed.

Lemma find_fulfilled_keys
  (StringToNumber : string -> number) (db : Booking.Database)
  (filters options : value) (found : list (string * Booking.field)) :
  Booking.find StringToNumber db filters options = Booking.Fulfilled found ->
  List.map fst found = ["bookings"; "total"; "page"; "limit"; "pages"].
Proof.
  intros H.
  destruct (find_fulfilled _ _ _ _ _ H) as (query & page & limit & rows & _ & _ & _ & ->).
  reflexivity.
Qed.

Lemma property_absent (obj : list (string * Booking.field)) (k : string) :
  existsb (String.eqb k) (List.map fst obj) = false -> Booking.property obj k = None.
Proof.
  induction obj as [|[k' f] rest IH]; simpl; [reflexivity|].
  intros H. apply orb_false_iff in H as [Hk Hr]. rewrite Hk. apply IH, Hr.
Qed.

(** X21: whenever the handler of [GET /api/bookings] answers with
    status 200, the [bookings] and the [pagination] of its answer are
    [undefined]: it reads the keys [data] and [pagination] of the
    object [find] returns, which has neither. *)
Theorem list_bookings_answer_has_no_bookings
  (StringToNumber : string -> number) (toISOString : value -> option value)
  (messageOf : Routes.failure -> value) (db : Booking.Database) (query : value)
  (body : list (string * Booking.field)) :
  Routes.listBookings StringToNumber toISOString messageOf db query =
    Routes.Json 200 body ->
  body = [ ("success", Booking.Plain (Bool true));
           ("bookings", Booking.Plain Undefined);
           ("pagination", Booking.Plain Undefined) ].
Proof.
  unfold Routes.listBookings, Routes.internalError.
  destruct (nullish query); [discriminate|].
  destruct (Routes.bookingFilters _ _ _ _ _ _) as [filters|]; [|discriminate].
  destruct (Booking.find _ _ _ _) as [found|why] eqn:Hfind; [|discriminate].
  intros H. injection H as <-.
  pose proof (find_fulfilled_keys _ _ _ _ _ Hfind) as Hkeys.
  unfold Routes.destructure.
  rewrite !property_absent by (rewrite Hkeys; reflexivity).
  reflexivity.
Qed.

Lemma lookup_replace_other (k k' : string) (v : value) (props : list (string * value)) :
  k <> k' -> lookup k (Casing.replace_prop k' v props) = lookup k props.
Proof.
  intros Hk. induction props as [|[k0 v0] rest IH]; simpl; [reflexivity|].
  destruct (String.eqb_spec k' k0) as [->|Hk0]; simpl.
  - apply String.eqb_neq in Hk. rewrite Hk. reflexivity.
  - destruct (k =? k0)%string; [reflexivity | exact IH].
Qed.

Lemma lookup_insert_other (n : Z) (k k' : string) (v : value)
  (props : list (string * value)) :
  k <> k' -> lookup k (Casing.insert_index n k' v props) = lookup k props.
Proof.
  intros Hk. apply String.eqb_neq in Hk.
  induction props as [|[k0 v0] rest IH]; simpl; [rewrite Hk; reflexivity|].
  destruct (Casing.index_of k0) as [n'|].
  - destruct (n' <? n); simpl.
    + destruct (k =? k0)%string; [reflexivity | exact IH].
    + rewrite Hk. reflexivity.
  - simpl. rewrite Hk. reflexivity.
Qed.

Lemma lookup_app_other (k k' : string) (v : value) (props : list (string * value)) :
  k <> k' -> lookup k (props ++ [(k', v)]) = lookup k props.
Proof.
  intros Hk. apply String.eqb_neq in Hk.
  induction props as [|[k0 v0] rest IH]; simpl; [rewrite Hk; reflexivity|].
  destruct (k =? k0)%string; [reflexivity | exact IH].
Qed.

Lemma lookup_assign_other (k k' : string) (v : value) (props : list (string * value)) :
  k <> k' -> lookup k (Casing.assign props k' v) = lookup k props.
Proof.
  intros Hk. unfold Casing.assign.
  destruct (lookup k' props).
  - apply lookup_replace_other, Hk.
  - destruct (Casing.index_of k').
    + apply lookup_insert_other, Hk.
    + apply lookup_app_other, Hk.
Qed.

Lemma bookingFilters_no_dates
  (toISOString : value -> option value)
  (status email startDate endDate search filters : value) :
  Routes.bookingFilters toISOString status email startDate endDate search = Some filters ->
  nullish filters = false /\
  get_prop filters "startDate" = Undefined /\
  get_prop filters "endDate" = Undefined.
Proof.
  unfold Routes.bookingFilters.
  destruct (truthy status), (truthy email), (truthy (or startDate endDate)),
    (truthy search);
    try destruct (Routes.dateRange toISOString startDate endDate);
    intros H; try discriminate H; injection H as <-;
    (split; [reflexivity|]); unfold get_prop;
    rewrite ?lookup_assign_other by discriminate; split; reflexivity.
Qed.

(** X22: the date range of [GET /api/bookings] never reaches the
    database: whatever [startDate] and [endDate] are, the filters the
    handler builds make [find] issue a query without a clause on a
    date. *)
Theorem list_bookings_date_range_ignored
  (StringToNumber : string -> number) (toISOString : value -> option value)
  (status email startDate endDate search filters options : value)
  (query : list Booking.clause) (page limit : value) :
  Routes.bookingFilters toISOString status email startDate endDate search = Some filters ->
  Booking.findQuery StringToNumber filters options = Ok (query, page, limit) ->
  forallb (fun c => negb (Booking.dateClause c)) query = true.
Proof.
  intros Hf Hq.
  destruct (bookingFilters_no_dates _ _ _ _ _ _ _ Hf) as [Hn [Hs He]].
  assert (Hsame : Booking.orEmptyObject filters = filters)
    by (destruct filters; try reflexivity; discriminate).
  unfold Booking.findQuery in Hq. rewrite Hsame in Hq.
  bind_inv Hq. injection Hq as <- _ _.
  apply whenSet_cases in Ha as [_ ->].
  apply whenSet_cases in Ha0 as [_ ->].
  apply whenSet_cases in Ha1 as [_ ->].
  apply whenSet_cases in Ha2 as [_ ->].
  apply whenSet_cases in Ha3 as [_ ->].
  apply whenSet_cases in Ha4 as [_ ->].
  apply whenSet_cases in Ha5 as [_ ->].
  rewrite Hs, He. simpl truthy. cbv iota.
  destruct (truthy (get_prop filters "customerEmail")),
    (truthy (get_prop filters "bookingStatus")),
    (truthy (get_prop filters "paymentStatus")),
    (truthy (get_prop filters "tourId")),
    (truthy (get_prop filters "search")); reflexivity.
Qed.

(** X23: [count] treats a filter object without a truthy
    [bookingStatus], [paymentStatus] or [startDate] as no filter at
    all, whatever other keys it has. *)
Theorem count_ignores_other_filters (db : Booking.Database) (filters : value) :
  nullish filters = false ->
  truthy (get_prop filters "bookingStatus") = false ->
  truthy (get_prop filters "paymentStatus") = false ->
  truthy (get_prop filters "startDate") = false ->
  Booking.count db filters = Booking.count db (Obj []).
Proof.
  intros Hn Hb Hp Hs.
  assert (Hsame : Booking.orEmptyObject filters = filters)
    by (destruct filters; try reflexivity; discriminate).
  unfold Booking.count, Booking.countQuery, Booking.whenSet, member.
  rewrite Hsame, Hn. simpl. rewrite Hb. simpl. rewrite Hp. simpl. rewrite Hs.
  reflexivity.
Qed.

(** X24: outside test mode, the payment check lets a booking that is
    stored as confirmed through only if its [paymentId] is a
    non-empty string that does not start with ["test_"] and its
    [paymentDetails] has at least one key. *)
Theorem confirmed_booking_needs_payment (body enableTestMode : value) :
  Routes.paymentCheck body enableTestMode = Ok Routes.Accepted ->
  Routes.bookingStatusOf body = "confirmed" ->
  Routes.isTestMode body enableTestMode = false ->
  exists paymentId,
    get_prop body "paymentId" = Str paymentId /\
    paymentId <> EmptyString /\
    Routes.startsWith "test_" paymentId = false /\
    truthy (get_prop body "paymentDetails") = true /\
    (0 < Routes.keyCount (get_prop body "paymentDetails"))%nat.
Proof.
  unfold Routes.paymentCheck, Routes.bookingStatusOf.
  destruct (strict_eq_str (get_prop body "paymentStatus") "confirmed");
    intros Hcheck Hstatus Hmode; [|inversion Hstatus].
  rewrite Hmode in Hcheck. cbn [andb negb] in Hcheck.
  destruct (truthy (get_prop body "paymentId")) eqn:Hid;
    [|cbn [bind] in Hcheck; discriminate Hcheck].
  destruct (get_prop body "paymentId") as [| |b|n|s|l|p]; try discriminate Hcheck.
  cbn [bind] in Hcheck.
  destruct (Routes.startsWith "test_" s) eqn:Hprefix; [discriminate Hcheck|].
  destruct (truthy (get_prop body "paymentDetails")) eqn:Hdetails;
    [|discriminate Hcheck].
  cbn [negb orb] in Hcheck.
  destruct (Routes.keyCount (get_prop body "paymentDetails")) eqn:Hkeys;
    [discriminate Hcheck|].
  exists s. repeat split; try assumption; try lia.
  intros ->. discriminate Hid.
Qed.

(** *** The booking id *)

Lemma allDigits_app (a b : string) :
  Booking.allDigits (a ++ b) = Booking.allDigits a && Booking.allDigits b.
Proof.
  induction a as [|c a IH]; simpl; [reflexivity|].
  rewrite IH, andb_assoc. reflexivity.
Qed.

Lemma allDigits_substring (n m : nat) (s : string) :
  Booking.allDigits s = true -> Booking.allDigits (substring n m s) = true.
Proof.
  revert n m. induction s as [|c s IH]; intros [|n] [|m]; simpl; auto;
    intros H; apply andb_prop in H as [Hc Hs]; rewrite ?Hc; simpl; auto.
Qed.

Lemma length_substring (n m : nat) (s : string) :
  String.length (substring n m s) = Nat.min m (String.length s - n).
Proof.
  revert n m. induction s as [|c s IH]; intros [|n] [|m]; simpl; auto;
    rewrite IH; rewrite ?Nat.sub_0_r; reflexivity.
Qed.

Lemma length_app (a b : string) :
  String.length (a ++ b) = (String.length a + String.length b)%nat.
Proof. induction a as [|c a IH]; simpl; [reflexivity | rewrite IH; reflexivity]. Qed.

Lemma uint_digits (d : Decimal.uint) :
  Booking.allDigits (NilEmpty.string_of_uint d) = true.
Proof. induction d; simpl; auto. Qed.

Lemma number_digits (z : Z) :
  0 <= z -> Booking.allDigits (number_to_string (Int z)) = true.
Proof.
  intros Hz. unfold number_to_string, NilZero.string_of_int.
  destruct z as [|p|p]; [reflexivity | | lia].
  simpl. unfold NilZero.string_of_uint.
  destruct (Pos.to_uint p); try reflexivity; apply (uint_digits (_ _)).
Qed.

Lemma repeatChar_digits (n : nat) : Booking.allDigits (Booking.repeatChar "0" n) = true.
Proof. induction n; simpl; auto. Qed.

Lemma draw_three_digits (draw : Z) :
  0 <= draw < 1000 ->
  String.length (Booking.padStart 3 "0" (number_to_string (Int draw))) = 3%nat.
Proof.
  intros Hd.
  assert (Hall : forallb
                   (fun n => (String.length
                                (Booking.padStart 3 "0"
                                   (number_to_string (Int (Z.of_nat n)))) =? 3)%nat)
                   (seq 0 1000) = true) by (vm_compute; reflexivity).
  rewrite forallb_forall in Hall.
  specialize (Hall (Z.to_nat draw)).
  rewrite Z2Nat.id in Hall by lia.
  apply Nat.eqb_eq, Hall, in_seq. lia.
Qed.

Lemma of_lu_bound (d : Decimal.uint) :
  (DecimalPos.Unsigned.of_lu d < 10 ^ DecimalPos.Unsigned.usize d)%N.
Proof.
  induction d; cbn [DecimalPos.Unsigned.of_lu DecimalPos.Unsigned.usize];
    rewrite ?N.pow_succ_r'; [change (10 ^ 0)%N with 1%N|..]; lia.
Qed.

Lemma usize_revapp (d d' : Decimal.uint) :
  DecimalPos.Unsigned.usize (Decimal.revapp d d') =
  (DecimalPos.Unsigned.usize d + DecimalPos.Unsigned.usize d')%N.
Proof.
  revert d'. induction d; intros d';
    cbn [Decimal.revapp DecimalPos.Unsigned.usize]; try reflexivity;
    rewrite IHd; cbn [DecimalPos.Unsigned.usize]; lia.
Qed.

Lemma usize_rev (d : Decimal.uint) :
  DecimalPos.Unsigned.usize (Decimal.rev d) = DecimalPos.Unsigned.usize d.
Proof.
  unfold Decimal.rev. rewrite usize_revapp.
  cbn [DecimalPos.Unsigned.usize]. lia.
Qed.

Lemma usize_length (d : Decimal.uint) :
  String.length (NilEmpty.string_of_uint d) = N.to_nat (DecimalPos.Unsigned.usize d).
Proof.
  induction d; cbn [NilEmpty.string_of_uint DecimalPos.Unsigned.usize String.length];
    try reflexivity; rewrite N2Nat.inj_succ, IHd; reflexivity.
Qed.

Lemma timestamp_digits (now : Z) :
  10000000 <= now -> (8 <= String.length (number_to_string (Int now)))%nat.
Proof.
  intros Hnow. destruct now as [|p|p]; try lia.
  unfold number_to_string, NilZero.string_of_int. simpl.
  pose proof (DecimalPos.Unsigned.of_to p) as Hval.
  rewrite DecimalPos.Unsigned.of_uint_alt in Hval.
  pose proof (of_lu_bound (Decimal.rev (Pos.to_uint p))) as Hb.
  rewrite Hval, usize_rev in Hb.
  assert (Hsize : (8 <= DecimalPos.Unsigned.usize (Pos.to_uint p))%N).
  { destruct (N.le_gt_cases 8 (DecimalPos.Unsigned.usize (Pos.to_uint p)))
      as [H|H]; [exact H|].
    assert (Hpow : (10 ^ DecimalPos.Unsigned.usize (Pos.to_uint p) <= 10 ^ 7)%N)
      by (apply N.pow_le_mono_r; lia).
    change (10 ^ 7)%N with 10000000%N in Hpow. lia. }
  unfold NilZero.string_of_uint.
  destruct (Pos.to_uint p) eqn:Hu;
    [simpl in Hsize; lia | rewrite usize_length; lia ..].
Qed.

(** X25: for a time-stamp of at least eight digits (any time after
    the first 10^7 milliseconds of the epoch, below 2^53) and a draw
    below 1000, the booking id is ["IMT-TRIP-"] followed by exactly
    eleven digits: 20 characters in all. *)
Theorem booking_id_shape (now draw : Z) :
  10000000 <= now < 9007199254740992 ->
  0 <= draw < 1000 ->
  exists digits,
    Booking.generateBookingId now draw = "IMT-TRIP-" ++ digits /\
    Booking.allDigits digits = true /\
    String.length digits = 11%nat /\
    String.length (Booking.generateBookingId now draw) = 20%nat.
Proof.
  intros [Hnow _] Hdraw.
  pose proof (timestamp_digits now Hnow) as Hlen.
  pose proof (draw_three_digits draw Hdraw) as Hthree.
  unfold Booking.generateBookingId. cbv zeta.
  set (timestamp := number_to_string (Int now)) in *.
  set (random := Booking.padStart 3 "0" (number_to_string (Int draw))) in *.
  assert (Hdigits : String.length (Booking.sliceLast 8 timestamp ++ random) = 11%nat).
  { rewrite length_app. unfold Booking.sliceLast. rewrite length_substring, Hthree. lia. }
  exists (Booking.sliceLast 8 timestamp ++ random).
  split; [reflexivity|]. split; [|split; [exact Hdigits|]].
  - rewrite allDigits_app. apply andb_true_intro. split.
    + apply allDigits_substring, number_digits. lia.
    + unfold random, Booking.padStart. rewrite allDigits_app, repeatChar_digits.
      apply number_digits. lia.
  - rewrite length_app, Hdigits. reflexivity.
Qed.

(** *** Grouping of upcoming departures *)

















Lemma revenue_keys
  (parseFloat : value -> number) (db : Booking.Database) (filters : value)
  (revenue : list (string * Booking.field)) :
  Booking.getRevenueStats parseFloat db filters = Booking.Fulfilled revenue ->
  List.map fst revenue = ["total"; "count"; "average"].
Proof.
  unfold Booking.getRevenueStats.
  destruct (Booking.revenueQuery filters) as [query|]; [|discriminate].
  cbv zeta. destruct (truthy (Booking.response_error (db query))); [discriminate|].
  destruct (Booking.response_data (db query)) as [| | | | |rows|]; try discriminate.
  destruct (reduce (Booking.addPrice parseFloat) rows zero) as [total|];
    [|discriminate].
  cbn [bind Booking.settle]. intros H. injection H as <-. reflexivity.
Qed.

Lemma destructure_absent (obj : list (string * Booking.field)) (k : string) :
  existsb (String.eqb k) (List.map fst obj) = false ->
  Routes.destructure obj k = Booking.Plain Undefined.
Proof.
  intros H. unfold Routes.destructure.
  replace (Booking.property obj k) with (@None Booking.field); [reflexivity|].
  symmetry. induction obj as [|[k' f] rest IH]; [reflexivity|].
  cbn [List.map fst existsb] in H. apply orb_false_iff in H as [Hk Hrest].
  cbn [Booking.property]. rewrite Hk. auto.
Qed.

(** X27: whenever the handler of [GET /api/admin/dashboard/stats]
    answers with status 200, the [totalRevenue] of its statistics is 0
    and [recentBookings] is [totalBookings]: it reads the key
    [totalRevenue] of the object [getRevenueStats] returns, whose keys
    are [total], [count] and [average], and it counts the recent
    bookings with a filter that [count] does not read. *)
Theorem dashboard_revenue_always_zero
  (parseFloat : value -> number) (messageOf : Routes.failure -> value)
  (firstRejected : list Booking.reason -> Booking.reason)
  (db : Booking.Database) (since today : value)
  (body : list (string * Booking.field)) :
  Routes.dashboardStats parseFloat messageOf firstRejected db since today =
    Routes.Json 200 body ->
  exists stats total,
    body = [("success", Booking.Plain (Bool true)); ("stats", Booking.Nested stats)] /\
    Booking.property stats "totalRevenue" = Some (Booking.Plain zero) /\
    Booking.property stats "totalBookings" = Some (Booking.Plain total) /\
    Booking.property stats "recentBookings" = Some (Booking.Plain total) /\
    Booking.count db (Obj []) = Booking.Fulfilled total.
Proof.
  unfold Routes.dashboardStats. cbv zeta.
  change (Booking.count db (Obj [("bookingDate", Obj [("gte", since)])]))
    with (Booking.count db (Obj [])).
  destruct (Booking.count db (Obj [])) as [total|];
    [|unfold Routes.internalError; discriminate].
  destruct (Booking.count db (Obj [("bookingStatus", Str "confirmed")])) as [confirmed|];
    [|unfold Routes.internalError; discriminate].
  destruct (Booking.count db (Obj [("bookingStatus", Str "pending")])) as [pending|];
    [|unfold Routes.internalError; discriminate].
  destruct (Booking.getRevenueStats parseFloat db (Obj [("paymentStatus", Str "confirmed")]))
    as [revenue|] eqn:Hrevenue; [|unfold Routes.internalError; discriminate].
  destruct (Booking.getUpcomingDepartures db today (Num (Int 10))) as [upcoming|];
    [|unfold Routes.internalError; discriminate].
  intros H. injection H as <-.
  rewrite (destructure_absent revenue "totalRevenue")
    by (rewrite (revenue_keys _ _ _ _ Hrevenue); reflexivity).
  eexists. exists total. repeat split; reflexivity.
Qed.

(** ** The further theorems at concrete inputs *)

Lemma null_departure_throws_witness :
  convertibleInputs Runtime.parse Samples.context (Examples.schedule Samples.holed) = true /\
  formatTourData Runtime.parse Runtime.positive Samples.context
    (Examples.schedule Samples.holed) = Throw TypeError.
Proof.
  split; [reflexivity|].
  apply (proj2 (null_departure_throws Runtime.parse Runtime.positive Samples.context
                  (Examples.schedule Samples.holed) eq_refl)).
  exists Samples.holed. split; [reflexivity|].
  exists Null. split; [right; left; reflexivity | reflexivity].
Defined.

Lemma no_departures_default_witness :
  hasDeparturesList Runtime.parse (Examples.schedule []) [] /\
  convertibleInputs Runtime.parse Samples.context (Examples.schedule []) = true /\
  exists r,
    formatTourData Runtime.parse Runtime.positive Samples.context
      (Examples.schedule []) = Ok r /\
    canonicalDefault r /\ departureDate r = Str EmptyString.
Proof.
  split; [reflexivity | split; [reflexivity|]].
  apply (no_departures_default Runtime.parse Runtime.positive Samples.context
           (Examples.schedule [])); [right; reflexivity | reflexivity].
Defined.

Lemma location_precedence_witness :
  exists r,
    formatTourData Runtime.parse Runtime.positive Samples.context
      (Examples.schedule []) = Ok r /\
    truthy (location r) = true /\
    location r = Str "Delhi, Agra".
Proof.
  eexists. split; [reflexivity|].
  pose proof (location_precedence Runtime.parse Runtime.positive Samples.context
                (Examples.schedule []) _ eq_refl) as H.
  cbv zeta in H. destruct H as (Htruthy & _ & Hjoined & _).
  split; [exact Htruthy | apply Hjoined; reflexivity].
Defined.

Lemma duration_precedence_witness :
  exists r,
    formatTourData Runtime.parse Runtime.positive Samples.context
      (Examples.schedule []) = Ok r /\
    truthy (duration r) = true /\
    duration r = Str "5 Days / 4 Nights".
Proof.
  eexists. split; [reflexivity|].
  pose proof (duration_precedence Runtime.parse Runtime.positive Samples.context
                (Examples.schedule []) _ eq_refl) as H.
  cbv zeta in H. destruct H as (Htruthy & _ & Hacf & _).
  split; [exact Htruthy | apply Hacf; reflexivity].
Defined.

Lemma departure_date_from_anchor_witness :
  forallb present Examples.soldOutFirst = true /\
  convertibleInputs Runtime.parse Samples.context
    (Examples.schedule Examples.soldOutFirst) = true /\
  exists r,
    formatTourData Runtime.parse Runtime.positive Samples.context
      (Examples.schedule Examples.soldOutFirst) = Ok r /\
    departureDate r = Str "2025-06-01" /\
    pricePerPerson r = Num (Int 800).
Proof.
  split; [reflexivity | split; [reflexivity|]].
  destruct (departure_date_from_anchor Runtime.parse Runtime.positive Samples.context
              (Examples.schedule Examples.soldOutFirst) Examples.soldOutFirst
              eq_refl eq_refl eq_refl) as (r & Hr & Hdate & Hprice & _).
  exists r. split; [exact Hr | split; [exact Hdate | exact Hprice]].
Defined.

Lemma sold_out_departures_ignored_witness :
  forallb present Examples.seatAggregation = true /\
  exists r r',
    formatTourData Runtime.parse Runtime.positive Samples.context
      (Examples.schedule Examples.seatAggregation) = Ok r /\
    formatTourData Runtime.parse Runtime.positive Samples.context
      (Examples.schedule (List.filter available Examples.seatAggregation)) = Ok r' /\
    availableDates r' = availableDates r /\
    seatsAvailable r' = seatsAvailable r /\
    pricePerPerson r' = pricePerPerson r /\
    pricingTiers r' = pricingTiers r /\
    departureDate r' = departureDate r.
Proof.
  split; [reflexivity|].
  apply (sold_out_departures_ignored Runtime.parse Runtime.positive Samples.context
           (Examples.schedule Examples.seatAggregation)
           (Examples.schedule (List.filter available Examples.seatAggregation))
           Examples.seatAggregation);
    reflexivity.
Defined.

Lemma appended_departures_witness :
  forallb seatsFalsyOrInt
    (List.filter available (Examples.seatAggregation ++ Examples.anchorSelection)%list) = true /\
  exists r1 r2 r12,
    formatTourData Runtime.parse Runtime.positive Samples.context
      (Examples.schedule Examples.seatAggregation) = Ok r1 /\
    formatTourData Runtime.parse Runtime.positive Samples.context
      (Examples.schedule Examples.anchorSelection) = Ok r2 /\
    formatTourData Runtime.parse Runtime.positive Samples.context
      (Examples.schedule (Examples.seatAggregation ++ Examples.anchorSelection)%list) = Ok r12 /\
    availableDates r12 = (availableDates r1 ++ availableDates r2)%list /\
    seatsAvailable r12 = add (seatsAvailable r1) (seatsAvailable r2).
Proof.
  split; [reflexivity|].
  apply (appended_departures Runtime.parse Runtime.positive Samples.context
           (Examples.schedule Examples.seatAggregation)
           (Examples.schedule Examples.anchorSelection)
           (Examples.schedule (Examples.seatAggregation ++ Examples.anchorSelection)%list)
           Examples.seatAggregation Examples.anchorSelection);
    reflexivity.
Defined.

Lemma camelKey_snakeKey_witness :
  noUnderscoreLower "customerEmail" = true /\
  snakeKey "customerEmail" = "customer_email" /\
  camelKey (snakeKey "customerEmail") = "customerEmail".
Proof.
  split; [reflexivity | split; [reflexivity|]].
  apply (proj2 (camelKey_snakeKey "customerEmail")). reflexivity.
Defined.

Lemma snakeKey_camelKey_witness :
  noUpper "departure_date" = true /\
  camelKey "departure_date" = "departureDate" /\
  snakeKey (camelKey "departure_date") = "departure_date".
Proof.
  split; [reflexivity | split; [reflexivity|]].
  apply (proj2 (snakeKey_camelKey "departure_date")). reflexivity.
Defined.

Lemma toCamelCase_toSnakeCase_witness :
  camelRecord Samples.bookingData = true /\
  toCamelCase (toSnakeCase Samples.bookingData) = Samples.bookingData.
Proof.
  split; [vm_compute; reflexivity|].
  apply (toCamelCase_toSnakeCase Samples.bookingData). vm_compute; reflexivity.
Defined.

Lemma toSnakeCase_property_witness :
  get_prop (toSnakeCase Samples.bookingData) "room_configuration" =
    Obj [("double_rooms", Num (Int 1))] /\
  get_prop (toSnakeCase Samples.bookingData) "addons" =
    Arr [Obj [("addonName", Str "Guide"); ("unitPrice", Num (Int 500))]].
Proof.
  split.
  - apply (toSnakeCase_property
             [ ("bookingId", Str "IMT-TRIP-12345678042");
               ("tourId", Str "42");
               ("customerName", Str "Asha Rao");
               ("adults", Num (Int 2));
               ("roomConfiguration", Obj [("doubleRooms", Num (Int 1))]);
               ("addons", Arr [Obj [("addonName", Str "Guide"); ("unitPrice", Num (Int 500))]]);
               ("totalPrice", Num (Int 42000)) ]
             "roomConfiguration" (Obj [("doubleRooms", Num (Int 1))]));
      vm_compute; reflexivity.
  - vm_compute; reflexivity.
Defined.

Lemma formatted_tour_shape_witness :
  exists t,
    formatWpTour Runtime.parse Runtime.positive Samples.wpTour = Ok t /\
    truthy (featuredImage t) = true /\
    truthy (thumbnailImage t) = true /\
    truthy (name t) = true /\
    Forall (fun url => truthy url = true) (galleryImages t) /\
    Lib.isString (id t) = true /\
    isArray (inclusions t) = true /\
    isArray (exclusions t) = true.
Proof.
  eexists. split; [vm_compute; reflexivity|].
  apply (formatted_tour_shape Runtime.parse Runtime.positive Samples.wpTour).
  vm_compute; reflexivity.
Defined.

Lemma short_description_from_excerpt_witness :
  exists t,
    formatWpTour Runtime.parse Runtime.positive Samples.wpTour = Ok t /\
    exists s,
      shortDescription t = Str s /\
      s = "Delhi, Agra and Jaipur" /\
      (String.length s <= 200)%nat /\ Lib.tagFree s = true.
Proof.
  eexists. split; [vm_compute; reflexivity|].
  destruct (short_description_from_excerpt Runtime.parse Runtime.positive Samples.wpTour
              _ eq_refl eq_refl) as (s & Hs & Hexcerpt & Hlength & Hfree).
  exists s. split; [exact Hs | split; [exact Hexcerpt | split; assumption]].
Defined.

Lemma missing_featured_media_throws_witness :
  get_prop (get_prop Samples.wpTourWithoutMedia "_embedded") "wp:featuredmedia" = Arr [] /\
  formatWpTour Runtime.parse Runtime.positive Samples.wpTourWithoutMedia = Throw TypeError.
Proof.
  split; [reflexivity|].
  apply (missing_featured_media_throws Runtime.parse Runtime.positive
           Samples.wpTourWithoutMedia);
    reflexivity.
Defined.

Lemma location_from_destinations_witness :
  exists t,
    formatWpTour Runtime.parse Runtime.positive Samples.wpTour = Ok t /\
    tourDestinations t = [Str "Delhi"; Str "Agra"] /\
    location (scheduleFields t) = Str "Delhi, Agra".
Proof.
  eexists. split; [vm_compute; reflexivity|]. split; [reflexivity|].
  apply (location_from_destinations Runtime.parse Runtime.positive Samples.wpTour).
  - vm_compute; reflexivity.
  - vm_compute; reflexivity.
  - vm_compute; discriminate.
Defined.

Lemma one_bad_tour_fails_listing_witness :
  formatWpTour Runtime.parse Runtime.positive Samples.wpTourWithoutMedia = Throw TypeError /\
  getAllTours Runtime.parse Runtime.positive
    (Resolved (Obj [ ("data", Arr [Samples.wpTour; Samples.wpTourWithoutMedia]);
                     ("headers", Obj [("x-wp-total", Str "2")]) ])) =
  Rejected "Failed to fetch tours from WordPress".
Proof.
  split; [vm_compute; reflexivity|].
  apply (one_bad_tour_fails_listing Runtime.parse Runtime.positive
           (Obj [ ("data", Arr [Samples.wpTour; Samples.wpTourWithoutMedia]);
                  ("headers", Obj [("x-wp-total", Str "2")]) ])
           [Samples.wpTour; Samples.wpTourWithoutMedia] Samples.wpTourWithoutMedia).
  - reflexivity.
  - right; left; reflexivity.
  - vm_compute; reflexivity.
Defined.


Lemma find_pages_cover_total_witness :
  exists found,
    Booking.find Samples.stringToNumber Samples.database
      (Obj []) (Obj [("page", Num (Int 1))]) = Booking.Fulfilled found /\
    Booking.property found "total" = Some (Booking.Plain (Num (Int 120))) /\
    Booking.property found "limit" = Some (Booking.Plain (Num (Int 50))) /\
    Booking.property found "pages" = Some (Booking.Rounded (Booking.Finite 3)).
Proof.
  eexists. split; [vm_compute; reflexivity|].
  split; [reflexivity | split; [reflexivity|]].
  destruct (find_pages_cover_total Samples.stringToNumber Samples.database
              (Obj []) (Obj [("page", Num (Int 1))]) _ 120 50
              eq_refl eq_refl eq_refl) as (n & Hpages & Hn); [lia | lia |].
  assert (n = 3) by lia. subst n. exact Hpages.
Defined.

Lemma list_bookings_answer_has_no_bookings_witness :
  exists body,
    Routes.listBookings Samples.stringToNumber Samples.toISOString Samples.messageOf
      Samples.database Samples.listQuery = Routes.Json 200 body /\
    body = [ ("success", Booking.Plain (Bool true));
             ("bookings", Booking.Plain Undefined);
             ("pagination", Booking.Plain Undefined) ].
Proof.
  eexists. split; [vm_compute; reflexivity|].
  apply (list_bookings_answer_has_no_bookings Samples.stringToNumber Samples.toISOString
           Samples.messageOf Samples.database Samples.listQuery).
  vm_compute; reflexivity.
Defined.

Lemma list_bookings_date_range_ignored_witness :
  Routes.bookingFilters Samples.toISOString (Str "confirmed") Undefined
    (Str "2025-03-01") (Str "2025-03-31") Undefined = Some Samples.rangeFilters /\
  Booking.findQuery Samples.stringToNumber Samples.rangeFilters
    (Routes.bookingOptions Undefined Undefined) =
    Ok (Samples.rangeQuery, Num (Int 1), Num (Int 20)) /\
  forallb (fun c => negb (Booking.dateClause c)) Samples.rangeQuery = true.
Proof.
  split; [vm_compute; reflexivity|]. split; [vm_compute; reflexivity|].
  apply (list_bookings_date_range_ignored Samples.stringToNumber Samples.toISOString
           (Str "confirmed") Undefined (Str "2025-03-01") (Str "2025-03-31") Undefined
           Samples.rangeFilters (Routes.bookingOptions Undefined Undefined)
           Samples.rangeQuery (Num (Int 1)) (Num (Int 20)));
    vm_compute; reflexivity.
Defined.

Lemma count_ignores_other_filters_witness :
  Booking.count Samples.database Samples.todayFilter =
  Booking.count Samples.database (Obj []).
Proof.
  apply (count_ignores_other_filters Samples.database Samples.todayFilter);
    reflexivity.
Defined.

Lemma confirmed_booking_needs_payment_witness :
  Routes.paymentCheck Samples.paidBooking (Str "false") = Ok Routes.Accepted /\
  exists paymentId,
    get_prop Samples.paidBooking "paymentId" = Str paymentId /\
    paymentId <> EmptyString /\
    Routes.startsWith "test_" paymentId = false /\
    truthy (get_prop Samples.paidBooking "paymentDetails") = true /\
    (0 < Routes.keyCount (get_prop Samples.paidBooking "paymentDetails"))%nat.
Proof.
  split; [reflexivity|].
  apply (confirmed_booking_needs_payment Samples.paidBooking (Str "false"));
    reflexivity.
Defined.

Lemma booking_id_shape_witness :
  Booking.generateBookingId 1730000000000 7 = "IMT-TRIP-00000000007" /\
  exists digits,
    Booking.generateBookingId 1730000000000 7 = "IMT-TRIP-" ++ digits /\
    Booking.allDigits digits = true /\
    String.length digits = 11%nat /\
    String.length (Booking.generateBookingId 1730000000000 7) = 20%nat.
Proof.
  split; [vm_compute; reflexivity|].
  apply (booking_id_shape 1730000000000 7); lia.
Defined.


Lemma dashboard_revenue_always_zero_witness :
  exists body stats,
    Routes.dashboardStats Samples.parseFloat Samples.messageOf Samples.firstRejected
      Samples.database (Str "2025-01-21T08:00:00.000Z") (Str "2025-02-20T08:00:00.000Z") =
      Routes.Json 200 body /\
    body = [("success", Booking.Plain (Bool true)); ("stats", Booking.Nested stats)] /\
    Booking.property stats "totalRevenue" = Some (Booking.Plain zero) /\
    Booking.property stats "totalBookings" = Some (Booking.Plain (Num (Int 120))) /\
    Booking.property stats "recentBookings" = Some (Booking.Plain (Num (Int 120))).
Proof.
  destruct (dashboard_revenue_always_zero Samples.parseFloat Samples.messageOf
              Samples.firstRejected Samples.database
              (Str "2025-01-21T08:00:00.000Z") (Str "2025-02-20T08:00:00.000Z")
              _ eq_refl)
    as (stats & total & Hbody & Hrevenue & Htotal & Hrecent & Hcount).
  injection Hcount as <-.
  eexists. exists stats. split; [reflexivity|].
  split; [exact Hbody|]. split; [exact Hrevenue|]. split; [exact Htotal | exact Hrecent].
Defined.
